(** * Document ingestion and retrieval core of [src/tools/vector_database.py]

    A shallow embedding of [VectorDatabaseManager] and [VectorSearchTool]:
    token estimation, the intelligent batch splitter, the metadata filter,
    the recursive submit/split/retry executor, incremental indexing and
    search.  Python values are modelled as follows.

    - [str] is [string]; [len] is [String.length].
    - [int] is [Z]; [//] on non-negative operands is [Z.div].
    - a [dict] whose iteration order matters (document metadata) is an
      association list; the persisted metadata mapping is a [gmap].
    - a [float] that is read is the exact rational value of the finite
      IEEE 754 double; a float literal of the source is the double
      nearest to its decimal, as in Python.
    - an exception is a value of a sum or option type.
    - the embedding service, the vector index and the langchain helpers are
      external: they are section variables. *)

From Stdlib Require Import ZArith QArith String Ascii List Lia Floats.
From stdpp Require Import base gmap strings list sorting pretty.

Local Open Scope string_scope.
Local Open Scope list_scope.
Local Open Scope Z_scope.

(** ** Python values stored in document metadata *)

(** The code inspects a metadata value only through [isinstance],
    [type(value).__name__] and [str(value)].  A float is carried by its
    [str] rendering; a value of any other type ([list], [dict], [tuple],
    [set], or an arbitrary object) by its type name and its [str]
    rendering. *)
Inductive MetaValue : Type :=
  | MStr (s : string)
  | MInt (n : Z)
  | MFloat (rendering : string)
  | MBool (b : bool)
  | MNone
  | MComplex (type_name rendering : string).

(** [str(value)] *)
Definition py_str (v : MetaValue) : string :=
  match v with
  | MStr s => s
  | MInt n => pretty n
  | MFloat r => r
  | MBool true => "True"
  | MBool false => "False"
  | MNone => "None"
  | MComplex _ r => r
  end.

(** [isinstance(value, (str, int, float, bool, type(None)))] *)
Definition is_simple (v : MetaValue) : bool :=
  match v with
  | MComplex _ _ => false
  | _ => true
  end.

(** [type(value).__name__] *)
Definition type_name_of (v : MetaValue) : string :=
  match v with
  | MStr _ => "str"
  | MInt _ => "int"
  | MFloat _ => "float"
  | MBool _ => "bool"
  | MNone => "NoneType"
  | MComplex t _ => t
  end.

(** A metadata dictionary, in insertion order. *)
Abbreviation Metadata := (list (string * MetaValue)) (only parsing).

(** A langchain [Document]: chunks are documents too. *)
Record Document : Type := mkDocument {
  page_content : string;
  metadata : Metadata
}.

(** [needle in haystack] on strings *)
Fixpoint str_contains (needle haystack : string) : bool :=
  if String.prefix needle haystack then true
  else match haystack with
       | EmptyString => false
       | String _ rest => str_contains needle rest
       end.

(** ** Token estimation *)

Definition metadata_overhead : Z := 75.

(** [VectorDatabaseManager._estimate_tokens] *)
Definition _estimate_tokens (text : string) : Z :=
  if decide (text = "") then 0
  else
    let base_tokens := Z.of_nat (String.length text) / 3 in
    base_tokens + metadata_overhead.

(** [sum(len(str(v)) for v in chunk.metadata.values())] *)
Definition metadata_size (m : Metadata) : Z :=
  fold_right (fun kv acc => Z.of_nat (String.length (py_str (snd kv))) + acc) 0 m.

(** [total_tokens] of one chunk, as computed in the sampling loop of
    [_calculate_adaptive_batch_size] and again in
    [_split_batch_intelligently]. *)
Definition chunk_total_tokens (chunk : Document) : Z :=
  let content_tokens := _estimate_tokens (page_content chunk) in
  let metadata_tokens := metadata_size (metadata chunk) / 3 in
  content_tokens + metadata_tokens.

Definition batch_tokens (batch : list Document) : Z :=
  fold_right (fun c acc => chunk_total_tokens c + acc) 0 batch.

(** ** The intelligent batch splitter *)

(** The service ceiling used as the default [target_token_limit] and
    [max_tokens]. *)
Definition token_ceiling : Z := 250000.

(** [int(target_token_limit * 0.5)]: the product is exact in binary
    floating point for every integer below 2^53, and [int] truncates
    towards zero. *)
Definition safe_limit_of (target_token_limit : Z) : Z :=
  Z.quot target_token_limit 2.

(** The state of the [for] loop of [_split_batch_intelligently]. *)
Record SplitState : Type := mkSplitState {
  batches : list (list Document);
  current_batch : list Document;
  current_tokens : Z
}.

Definition split_step (safe_limit : Z) (st : SplitState)
    (item : Document * Z) : SplitState :=
  let '(chunk, tokens) := item in
  if bool_decide (current_tokens st + tokens > safe_limit)
     && negb (bool_decide (current_batch st = []))
  then {| batches := batches st ++ [current_batch st];
          current_batch := [chunk];
          current_tokens := tokens |}
  else {| batches := batches st;
          current_batch := current_batch st ++ [chunk];
          current_tokens := current_tokens st + tokens |}.

Definition split_loop (safe_limit : Z) (items : list (Document * Z))
    (st : SplitState) : SplitState :=
  fold_left (split_step safe_limit) items st.

(** [VectorDatabaseManager._split_batch_intelligently] *)
Definition _split_batch_intelligently (batch_chunks : list Document)
    (target_token_limit : Z) : list (list Document) :=
  if bool_decide (length batch_chunks <= 1)%nat then
    match batch_chunks with
    | [] => []
    | _ => [batch_chunks]
    end
  else
    let chunk_tokens := map chunk_total_tokens batch_chunks in
    let safe_limit := safe_limit_of target_token_limit in
    let st := split_loop safe_limit (zip batch_chunks chunk_tokens)
                {| batches := []; current_batch := []; current_tokens := 0 |} in
    match current_batch st with
    | [] => batches st
    | _ => batches st ++ [current_batch st]
    end.

(** What the loop of the splitter maintains about sizes: a closed
    sub-batch, and the open one, is within the safe limit or holds a single
    chunk. *)
Definition within_limit (safe_limit : Z) (b : list Document) : Prop :=
  batch_tokens b <= safe_limit \/ length b = 1%nat.

Definition split_inv (safe_limit : Z) (st : SplitState) : Prop :=
  Forall (within_limit safe_limit) (batches st)
  /\ current_tokens st = batch_tokens (current_batch st)
  /\ (current_batch st = [] \/ within_limit safe_limit (current_batch st)).

(** ** The metadata sanitizer *)

(** The value-level rule of the manual filter (and of the loader's
    [safe_metadata_dict] loop): simple values are kept, every other value
    is replaced by [str(value)]. *)
Definition sanitize_value (v : MetaValue) : MetaValue :=
  if is_simple v then v else MStr (py_str v).

(** [filtered_metadata] built by the inner loop of the fallback branch of
    [_filter_document_metadata]: same keys, same order. *)
Definition sanitize_metadata (m : Metadata) : Metadata :=
  map (fun kv => (fst kv, sanitize_value (snd kv))) m.

(** The entries added to [problematic_keys] for one metadata map:
    [f"{key}({type(value).__name__})"] for every converted value. *)
Definition problematic_keys_of (m : Metadata) : gset string :=
  list_to_set
    (map (fun kv => fst kv +:+ "(" +:+ type_name_of (snd kv) +:+ ")")
         (filter (fun kv => is_simple (snd kv) = false) m)).

(** One iteration of the fallback loop: a document with empty metadata is
    left as it is ([if hasattr(doc, 'metadata') and doc.metadata]). *)
Definition sanitize_document (doc : Document) : Document :=
  match metadata doc with
  | [] => doc
  | _ => {| page_content := page_content doc;
            metadata := sanitize_metadata (metadata doc) |}
  end.

Section Sanitizer.

(** [LANGCHAIN_AVAILABLE]; [VectorDatabaseManager.__init__] raises
    [ImportError] unless it is [True]. *)
Variable LANGCHAIN_AVAILABLE : bool.

(** langchain's [filter_complex_metadata]; [None] when it raises. *)
Variable filter_complex_metadata : list Document -> option (list Document).

(** [VectorDatabaseManager._filter_document_metadata] *)
Definition _filter_document_metadata (documents : list Document)
    : list Document :=
  if negb LANGCHAIN_AVAILABLE then documents
  else
    match filter_complex_metadata documents with
    | Some filtered_documents => filtered_documents
    | None => map sanitize_document documents
    end.

End Sanitizer.

(** ** File records *)

(** The dataclass [DocumentMetadata]: one record per indexed file. *)
Record DocumentMetadata : Type := mkDocumentMetadata {
  file_path : string;
  file_name : string;
  file_directory : string;
  relative_path : string;
  file_size : Z;
  file_type : string;
  mime_type : string;
  file_extension : string;
  created_at : string;
  modified_at : string;
  accessed_at : string;
  indexed_at : string;
  chunk_count : Z;
  total_characters : Z;
  file_hash : string;
  file_permissions : string;
  is_hidden : bool;
  is_symlink : bool
}.

#[global] Instance DocumentMetadata_eq_dec : EqDecision DocumentMetadata.
Proof. solve_decision. Defined.

#[global] Instance MetaValue_eq_dec : EqDecision MetaValue.
Proof. solve_decision. Defined.

#[global] Instance Document_eq_dec : EqDecision Document.
Proof. solve_decision. Defined.

(** ** Adaptive batch size *)

(** The result of a call that may raise: [Raised msg] stands for an
    exception whose [str] is [msg]. *)
Inductive Result (A : Type) : Type :=
  | Returned (a : A)
  | Raised (msg : string).
Arguments Returned {A} a.
Arguments Raised {A} msg.

(** [int(x)] on a float: truncation towards zero. *)
Definition py_int (x : Q) : Z := Z.quot (Qnum x) (Zpos (Qden x)).

Definition sum_Z (l : list Z) : Z := fold_right Z.add 0 l.

(** [max(l)] for a non-empty list. *)
Definition max_Z (l : list Z) : Z :=
  match l with
  | [] => 0
  | x :: rest => fold_left Z.max rest x
  end.

(** [VectorDatabaseManager._calculate_adaptive_batch_size].  Python
    computes [avg_tokens] and the quotient in binary floating point; the
    model computes them as exact rationals.  A zero
    [conservative_tokens_per_chunk] makes the division raise
    [ZeroDivisionError]. *)
Definition _calculate_adaptive_batch_size (chunks : list Document)
    (max_tokens : Z) : Result Z :=
  match chunks with
  | [] => Returned 50
  | _ =>
    let sample_size := Nat.min 50 (length chunks) in
    let sample_chunks := take sample_size chunks in
    let token_estimates := map chunk_total_tokens sample_chunks in
    let avg_tokens : Q :=
      (inject_Z (sum_Z token_estimates)
       / inject_Z (Z.of_nat (length token_estimates)))%Q in
    let max_tokens_in_sample := max_Z token_estimates in
    let sorted_estimates := merge_sort Z.le token_estimates in
    let percentile_80 :=
      nth (Z.to_nat (py_int (inject_Z (Z.of_nat (length sorted_estimates))
                             * (8 # 10))%Q))
          sorted_estimates 0 in
    let conservative_tokens_per_chunk : Q :=
      if Qle_bool (inject_Z percentile_80) avg_tokens
      then avg_tokens else inject_Z percentile_80 in
    let safe_max_tokens := py_int (inject_Z max_tokens * (6 # 10))%Q in
    if Qeq_bool conservative_tokens_per_chunk 0 then
      Raised "float division by zero"
    else
      let batch_size :=
        Z.max 1 (py_int (inject_Z safe_max_tokens
                         / conservative_tokens_per_chunk)%Q) in
      let batch_size :=
        if Qle_bool (inject_Z max_tokens_in_sample) (avg_tokens * 2)%Q
        then Z.min batch_size 500
        else Z.min batch_size 200 in
      let batch_size := Z.max batch_size 5 in
      let batch_size := Z.min batch_size 800 in
      Returned batch_size
  end.

(** ** Files and the loader *)

(** What the file system and [pathlib] report for one file of the
    scanned tree. *)
Record FileEntry : Type := mkFileEntry {
  (** [str(file_path)], as produced by the scan *)
  path_str : string;
  (** [str(path_obj.absolute())] *)
  path_absolute : string;
  path_name : string;
  path_parent : string;
  (** [str(path_obj.relative_to(Path(base_directory)))] *)
  path_relative : string;
  path_suffix : string;
  (** [mimetypes.guess_type(file_path)[0]] *)
  guessed_mime : option string;
  st_size : Z;
  st_ctime_iso : string;
  st_mtime_iso : string;
  st_atime_iso : string;
  (** [oct(stat_info.st_mode)] *)
  st_mode_oct : string;
  path_is_symlink : bool;
  (** the MD5 hex digest of the content; [None]: the file cannot be read *)
  content_md5 : option string;
  (** [loader.load()]; [None]: the loader raises *)
  loader_output : option (list Document)
}.

Definition lower_ascii (c : ascii) : ascii :=
  let n := nat_of_ascii c in
  if (65 <=? n)%nat && (n <=? 90)%nat then ascii_of_nat (n + 32) else c.

(** [s.lower()] on ASCII text *)
Fixpoint str_lower (s : string) : string :=
  match s with
  | EmptyString => EmptyString
  | String c rest => String (lower_ascii c) (str_lower rest)
  end.

(** [s[-n:]] *)
Definition str_last (n : nat) (s : string) : string :=
  String.substring (String.length s - n) n s.

(** [s[:n]] *)
Definition str_first (n : nat) (s : string) : string :=
  String.substring 0 n s.

(** [VectorDatabaseManager._get_file_hash] *)
Definition _get_file_hash (f : FileEntry) : string :=
  default "" (content_md5 f).

(** [DocumentMetadata.from_file_path]; [now] is
    [datetime.now(tz=timezone.utc).isoformat()]. *)
Definition from_file_path (now : string) (f : FileEntry) : DocumentMetadata :=
  {| file_path := path_absolute f;
     file_name := path_name f;
     file_directory := path_parent f;
     relative_path := path_relative f;
     file_size := st_size f;
     file_type := if decide (path_suffix f = "") then "no_extension"
                  else str_lower (path_suffix f);
     mime_type := default "application/octet-stream" (guessed_mime f);
     file_extension := str_lower (path_suffix f);
     created_at := st_ctime_iso f;
     modified_at := st_mtime_iso f;
     accessed_at := st_atime_iso f;
     indexed_at := now;
     chunk_count := 0;
     total_characters := 0;
     file_hash := "";
     file_permissions := str_last 3 (st_mode_oct f);
     is_hidden := String.prefix "." (path_name f);
     is_symlink := path_is_symlink f |}.

(** [DocumentMetadata.to_dict] *)
Definition to_dict (d : DocumentMetadata) : Metadata :=
  [ ("file_path", MStr (file_path d));
    ("file_name", MStr (file_name d));
    ("file_directory", MStr (file_directory d));
    ("relative_path", MStr (relative_path d));
    ("file_size", MInt (file_size d));
    ("file_type", MStr (file_type d));
    ("mime_type", MStr (mime_type d));
    ("file_extension", MStr (file_extension d));
    ("created_at", MStr (created_at d));
    ("modified_at", MStr (modified_at d));
    ("accessed_at", MStr (accessed_at d));
    ("indexed_at", MStr (indexed_at d));
    ("chunk_count", MInt (chunk_count d));
    ("total_characters", MInt (total_characters d));
    ("file_hash", MStr (file_hash d));
    ("file_permissions", MStr (file_permissions d));
    ("is_hidden", MBool (is_hidden d));
    ("is_symlink", MBool (is_symlink d)) ].

(** [d.get(k)] *)
Fixpoint dict_get (k : string) (m : list (string * MetaValue)) : option MetaValue :=
  match m with
  | [] => None
  | (k', v) :: rest => if decide (k = k') then Some v else dict_get k rest
  end.

(** [d[k] = v] on an insertion-ordered dictionary *)
Fixpoint dict_set (k : string) (v : MetaValue) (m : Metadata) : Metadata :=
  match m with
  | [] => [(k, v)]
  | (k', v') :: rest =>
      if decide (k = k') then (k, v) :: rest
      else (k', v') :: dict_set k v rest
  end.

(** [d.update(other)] *)
Definition dict_update (m other : Metadata) : Metadata :=
  fold_left (fun acc kv => dict_set (fst kv) (snd kv) acc) other m.

(** The keys of [self.file_loaders]. *)
Definition file_loaders : list string :=
  [".pdf"; ".txt"; ".md"; ".csv"; ".xlsx"; ".xls"; ".pptx"; ".docx";
   ".py"; ".js"; ".ts"; ".html"; ".css"; ".json"; ".xml"; ".yaml"; ".yml"].

(** The metadata attached to the [i]-th document of a file. *)
Definition chunk_metadata (f : FileEntry) (file_metadata : DocumentMetadata)
    (i : nat) (doc : Document) : Metadata :=
  let content := page_content doc in
  [ ("chunk_index", MInt (Z.of_nat i));
    ("chunk_id", MStr (file_hash file_metadata +:+ "_" +:+ pretty (Z.of_nat i)));
    ("content_length", MInt (Z.of_nat (String.length content)));
    ("content_preview",
       MStr (if bool_decide (200 < String.length content)%nat
             then str_first 200 content +:+ "..." else content));
    ("source_file", MStr (path_str f));
    ("file_type", MStr (str_lower (path_suffix f)));
    ("file_size", MInt (file_size file_metadata)) ].

(** [VectorDatabaseManager._load_single_document] *)
Definition _load_single_document (now : string) (f : FileEntry)
    : Result (list Document) :=
  let file_ext := str_lower (path_suffix f) in
  if negb (bool_decide (file_ext ∈ file_loaders)) then
    Raised ("Unsupported file type: " +:+ file_ext)
  else
    match loader_output f with
    | None => Returned []
    | Some documents =>
        let file_metadata := from_file_path now f in
        let total :=
          sum_Z (map (fun doc => Z.of_nat (String.length (page_content doc)))
                     documents) in
        let file_metadata :=
          {| file_path := file_path file_metadata;
             file_name := file_name file_metadata;
             file_directory := file_directory file_metadata;
             relative_path := relative_path file_metadata;
             file_size := file_size file_metadata;
             file_type := file_type file_metadata;
             mime_type := mime_type file_metadata;
             file_extension := file_extension file_metadata;
             created_at := created_at file_metadata;
             modified_at := modified_at file_metadata;
             accessed_at := accessed_at file_metadata;
             indexed_at := indexed_at file_metadata;
             chunk_count := Z.of_nat (length documents);
             total_characters := total;
             file_hash := _get_file_hash f;
             file_permissions := file_permissions file_metadata;
             is_hidden := is_hidden file_metadata;
             is_symlink := is_symlink file_metadata |} in
        Returned
          (imap (fun i doc =>
                   let safe_metadata_dict :=
                     dict_update (sanitize_metadata (to_dict file_metadata))
                       (chunk_metadata f file_metadata i doc) in
                   {| page_content := page_content doc;
                      metadata := dict_update (metadata doc) safe_metadata_dict |})
                documents)
    end.

(** [VectorDatabaseManager._scan_directory] over the files of an existing
    tree. *)
Definition _scan_directory (directory : list FileEntry) : list FileEntry :=
  filter (fun f => str_lower (path_suffix f) ∈ file_loaders) directory.

(** The test that puts a file into [files_to_process]. *)
Definition needs_processing (stored : gmap string DocumentMetadata)
    (f : FileEntry) : bool :=
  match stored !! path_str f with
  | None => true
  | Some record => negb (bool_decide (file_hash record = _get_file_hash f))
  end.

Inductive IndexStatus : Type := completed | partial | error_status.

(** The dictionary returned by [index_directory], restricted to the keys
    every return path sets. *)
Record IndexResult : Type := mkIndexResult {
  status : IndexStatus;
  message : string;
  files_processed : Z;
  documents_indexed : Z
}.

(** The body of the loop that collects the loaded documents. *)
Definition load_step (now : string)
    (st : list Document * gmap string DocumentMetadata * Z) (f : FileEntry)
    : list Document * gmap string DocumentMetadata * Z :=
  let '(all_documents, stored, processed_count) := st in
  match _load_single_document now f with
  | Returned [] => (all_documents, stored, processed_count + 1)
  | Returned documents =>
      (all_documents ++ documents,
       <[path_str f := from_file_path now f]> stored,
       processed_count + 1)
  | _ => st
  end.

(** ** The submit / split / retry executor *)

(** The dictionary returned by [_process_chunks_in_batches]; the key
    ['chunks_processed'] is absent from some of the returned dictionaries. *)
Record BatchResults : Type := mkBatchResults {
  success : bool;
  error : option string;
  batches_processed : Z;
  chunks_processed : option Z
}.


(** Which index operation a submission uses. *)
Inductive IndexOp : Type := FromDocuments | AddDocuments.

(** The service answers every request with a metadata-serialization
    error. *)
Definition always_metadata_error {Svc : Type}
    (call : Svc -> IndexOp -> list Document -> Svc * option string) : Prop :=
  forall s op b, exists s' msg,
    call s op b = (s', Some msg)
    /\ str_contains "Expected metadata value to be" msg = true.

Section Executor.

(** The embedding service together with the vector index: an external
    state machine.  A call answers [None] on success and [Some msg] when
    it raises an exception whose [str] is [msg]. *)
Context {Svc : Type}.
Variable call : Svc -> IndexOp -> list Document -> Svc * option string.

(** The metadata filter applied by the executor. *)
Variable sanitize : list Document -> list Document.

Record World : Type := mkWorld {
  service : Svc;
  (** the persisted index under [db_path]; [None]: no index files *)
  chroma_store : option (list Document);
  (** [self.vectorstore is not None] *)
  vectorstore_set : bool;
  (** the mapping persisted in [metadata.json] under [db_path];
      [None]: the file does not exist *)
  metadata_json : option (gmap string DocumentMetadata);
  (** every batch handed to the service, oldest first *)
  submitted : list (list Document);
  (** every [time.sleep] argument, oldest first *)
  slept : list Z
}.

Definition max_attempts : Z := 5.

(** The [try] block of the retry loop: create the index when
    [self.vectorstore] is unset, append otherwise. *)
Definition try_submit (w : World) (batch_chunks : list Document)
    : World * option string :=
  let op := if vectorstore_set w then AddDocuments else FromDocuments in
  let '(s', r) := call (service w) op batch_chunks in
  match r with
  | None =>
      ({| service := s';
          chroma_store := Some (default [] (chroma_store w) ++ batch_chunks);
          vectorstore_set := true;
          metadata_json := metadata_json w;
          submitted := submitted w ++ [batch_chunks];
          slept := slept w |}, None)
  | Some error_msg =>
      ({| service := s';
          chroma_store := chroma_store w;
          vectorstore_set := vectorstore_set w;
          metadata_json := metadata_json w;
          submitted := submitted w ++ [batch_chunks];
          slept := slept w |}, Some error_msg)
  end.

Definition sleep (wait_time : Z) (w : World) : World :=
  {| service := service w;
     chroma_store := chroma_store w;
     vectorstore_set := vectorstore_set w;
     metadata_json := metadata_json w;
     submitted := submitted w;
     slept := slept w ++ [wait_time] |}.

(** The [for] loop over [sub_batches]; [self] is the recursive call.
    A result [None] means that the recursion depth was exhausted. *)
Fixpoint process_sub_batches
    (self : World -> list Document -> World * option bool)
    (w : World) (sub_batches : list (list Document))
    : World * option bool :=
  match sub_batches with
  | [] => (w, Some true)
  | sub_batch :: rest =>
      match self w sub_batch with
      | (w', Some true) => process_sub_batches self w' rest
      | (w', Some false) => (w', Some false)
      | (w', None) => (w', None)
      end
  end.

(** The [while attempt <= max_attempts] loop.  [remaining] is
    [max_attempts + 1 - attempt], the number of iterations left. *)
Fixpoint attempt_loop
    (self : World -> list Document -> World * option bool)
    (remaining : nat) (attempt : Z)
    (w : World) (batch_chunks : list Document)
    : World * option bool :=
  match remaining with
  | O => (w, Some false)
  | S remaining' =>
      match try_submit w batch_chunks with
      | (w1, None) => (w1, Some true)
      | (w1, Some error_msg) =>
          if str_contains "Expected metadata value to be" error_msg then
            attempt_loop self remaining' (attempt + 1) w1
              (sanitize batch_chunks)
          else if str_contains "max_tokens_per_request" error_msg then
            if bool_decide (length batch_chunks <= 1)%nat then
              (w1, Some false)
            else
              match _split_batch_intelligently batch_chunks token_ceiling with
              | [] => (w1, Some false)
              | sub_batches => process_sub_batches self w1 sub_batches
              end
          else
            let w2 :=
              if bool_decide (attempt < max_attempts)
              then sleep (Z.min (2 ^ attempt) 10) w1
              else w1 in
            attempt_loop self remaining' (attempt + 1) w2 batch_chunks
      end
  end.

(** [VectorDatabaseManager._process_single_batch_with_splitting], with
    the depth of the Python call stack made explicit: [depth] nested
    invocations are available, and [None] is returned when they are used
    up. *)
Fixpoint _process_single_batch_with_splitting (depth : nat)
    (w : World) (batch_chunks : list Document) : World * option bool :=
  match depth with
  | O => (w, None)
  | S depth' =>
      attempt_loop (_process_single_batch_with_splitting depth')
        (Z.to_nat max_attempts) 1 w batch_chunks
  end.

(** The batches a run of [n] attempts hands to the service when every
    attempt ends in a metadata error: the batch, then the batch filtered
    once more before each retry. *)
Fixpoint resubmissions (n : nat) (batch_chunks : list Document)
    : list (list Document) :=
  match n with
  | O => []
  | S n' => batch_chunks :: resubmissions n' (sanitize batch_chunks)
  end.

(** [l[a:b]] for [0 <= a <= b] *)
Definition py_slice {A} (l : list A) (a b : Z) : list A :=
  take (Z.to_nat (b - a)) (drop (Z.to_nat a) l).

Definition py_len {A} (l : list A) : Z := Z.of_nat (length l).

(** [self.vectorstore = Chroma(persist_directory=..., ...)]: opens the
    persisted collection, creating an empty one when there is none. *)
Definition load_existing (w : World) : World :=
  {| service := service w;
     chroma_store := Some (default [] (chroma_store w));
     vectorstore_set := true;
     metadata_json := metadata_json w;
     submitted := submitted w;
     slept := slept w |}.

(** [os.path.exists(self.db_path) and any(os.listdir(self.db_path))]:
    the directory holds the index files and [metadata.json]. *)
Definition vectorstore_exists (w : World) : bool :=
  bool_decide (is_Some (chroma_store w))
  || bool_decide (is_Some (metadata_json w)).

(** The [while chunks_processed < total_chunks] loop of
    [_process_chunks_in_batches].  [None] marks a run that used up the
    call depth or the iteration budget given to the model. *)
Fixpoint batch_loop (fuel depth : nat) (document_chunks : list Document)
    (batch_size total_chunks : Z) (batches_done chunks_done : Z)
    (w : World) : World * option (Result BatchResults) :=
  match fuel with
  | O => (w, None)
  | S fuel' =>
      if bool_decide (chunks_done < total_chunks) then
        let remaining_count := total_chunks - chunks_done in
        let current_batch_size := Z.min batch_size remaining_count in
        let current_batch :=
          py_slice document_chunks chunks_done
            (chunks_done + current_batch_size) in
        match current_batch with
        | [] =>
            (w, Some (Returned
                        {| success := true; error := None;
                           batches_processed := batches_done;
                           chunks_processed := Some chunks_done |}))
        | _ =>
            let batch_number := batches_done + 1 in
            match _process_single_batch_with_splitting depth w current_batch with
            | (w', Some true) =>
                batch_loop fuel' depth document_chunks batch_size total_chunks
                  (batches_done + 1) (chunks_done + py_len current_batch) w'
            | (w', Some false) =>
                (w', Some (Returned
                       {| success := false;
                          error := Some ("Failed to process batch "
                                         +:+ pretty batch_number
                                         +:+ " after all attempts");
                          batches_processed := batches_done;
                          chunks_processed := Some chunks_done |}))
            | (w', None) => (w', None)
            end
        end
      else
        (w, Some (Returned
                    {| success := true; error := None;
                       batches_processed := batches_done;
                       chunks_processed := Some chunks_done |}))
  end.

(** [VectorDatabaseManager._process_chunks_in_batches] *)
Definition _process_chunks_in_batches (depth : nat) (w : World)
    (document_chunks : list Document)
    : World * option (Result BatchResults) :=
  match document_chunks with
  | [] => (w, Some (Returned {| success := true; error := None;
                                batches_processed := 0;
                                chunks_processed := None |}))
  | _ =>
    let document_chunks := sanitize document_chunks in
    match _calculate_adaptive_batch_size document_chunks token_ceiling with
    | Raised msg => (w, Some (Raised msg))
    | Returned batch_size =>
      let total_chunks := py_len document_chunks in
      let fuel := S (length document_chunks) in
      if negb (vectorstore_exists w) then
        let first_batch := py_slice document_chunks 0 batch_size in
        match _process_single_batch_with_splitting depth w first_batch with
        | (w', Some true) =>
            batch_loop fuel depth document_chunks batch_size total_chunks
              1 batch_size w'
        | (w', Some false) =>
            (w', Some (Returned
                   {| success := false;
                      error := Some "Failed to create initial vector database";
                      batches_processed := 0;
                      chunks_processed := None |}))
        | (w', None) => (w', None)
        end
      else
        batch_loop fuel depth document_chunks batch_size total_chunks
          0 0 (load_existing w)
    end
  end.

(** [self.text_splitter.split_documents]: langchain's recursive
    character splitter. *)
Variable split_documents : list Document -> list Document.

(** [VectorDatabaseManager._load_metadata]: a missing file gives the
    empty mapping. *)
Definition _load_metadata (w : World) : gmap string DocumentMetadata :=
  default ∅ (metadata_json w).

(** [VectorDatabaseManager._save_metadata] *)
Definition _save_metadata (stored : gmap string DocumentMetadata)
    (w : World) : World :=
  {| service := service w;
     chroma_store := chroma_store w;
     vectorstore_set := vectorstore_set w;
     metadata_json := Some stored;
     submitted := submitted w;
     slept := slept w |}.

(** [VectorDatabaseManager.index_directory] on an existing directory
    whose files are [directory]; [now] is the clock reading used for
    [indexed_at].  [None] marks a run that used up the call depth given
    to the model. *)
Definition index_directory (depth : nat) (now : string) (w : World)
    (directory : list FileEntry) : World * option IndexResult :=
  let files := _scan_directory directory in
  match files with
  | [] =>
      (w, Some {| status := completed;
                  message := "No supported files found in directory";
                  files_processed := 0;
                  documents_indexed := 0 |})
  | _ =>
    let stored := _load_metadata w in
    let files_to_process := filter (fun f => needs_processing stored f = true) files in
    match files_to_process with
    | [] =>
        (w, Some {| status := completed;
                    message := "All files are already indexed and up to date";
                    files_processed := 0;
                    documents_indexed := py_len files |})
    | _ =>
      let '(all_documents, stored, processed_count) :=
        fold_left (load_step now) files_to_process ([], stored, 0) in
      match all_documents with
      | [] =>
          (w, Some {| status := error_status;
                      message := "No documents could be loaded";
                      files_processed := processed_count;
                      documents_indexed := 0 |})
      | _ =>
        let document_chunks := split_documents all_documents in
        match _process_chunks_in_batches depth w document_chunks with
        | (w', Some (Returned batch_results)) =>
            if negb (success batch_results) then
              let error_msg :=
                default "Unknown batch processing error" (error batch_results) in
              let chunks_completed :=
                default 0 (chunks_processed batch_results) in
              let w'' :=
                if bool_decide (chunks_completed > 0)
                then _save_metadata stored w' else w' in
              (w'', Some
                      {| status := if bool_decide (chunks_completed > 0)
                                   then partial else error_status;
                         message := "Indexing failed: " +:+ error_msg;
                         files_processed := processed_count;
                         documents_indexed := chunks_completed |})
            else
              (_save_metadata stored w',
               Some
                 {| status := completed;
                    message :=
                      "Successfully indexed "
                      +:+ pretty (py_len files_to_process)
                      +:+ " files into "
                      +:+ pretty (py_len document_chunks)
                      +:+ " chunks using "
                      +:+ pretty (batches_processed batch_results)
                      +:+ " adaptive batches";
                    files_processed := processed_count;
                    documents_indexed := py_len document_chunks |})
        | (w', Some (Raised e)) =>
            (_save_metadata stored w',
             Some {| status := error_status;
                     message := "Vector store error: " +:+ e;
                     files_processed := processed_count;
                     documents_indexed := 0 |})
        | (w', None) => (w', None)
        end
      end
    end
  end.

End Executor.

(** ** Search *)

Module Search.

(** The exact value of a finite [float] (IEEE 754 binary64, the type of
    a Python [float]); 0 for an infinity and for the value that is not a
    number. *)
Definition float_value (f : float) : Q :=
  match Prim2SF f with
  | S754_finite negative m e =>
      let n := if negative then Z.neg m else Z.pos m in
      if (0 <=? e)%Z then inject_Z (n * 2 ^ e)
      else n # Z.to_pos (2 ^ (- e))
  | _ => 0%Q
  end.

#[local] Set Warnings "-inexact-float".

(** [VectorSearchTool._get_relevance_level].  A score is the exact
    rational value of the finite float returned by the index.  The
    literals are floats: each threshold is the value of the double
    nearest to the decimal written in the source, and two finite floats
    compare as their values do. *)
Definition _get_relevance_level (similarity_score : Q) : string :=
  if Qle_bool similarity_score (float_value 0.3) then "Very High"
  else if Qle_bool similarity_score (float_value 0.5) then "High"
  else if Qle_bool similarity_score (float_value 0.7) then "Medium"
  else if Qle_bool similarity_score (float_value 0.9) then "Low"
  else "Very Low".

#[local] Set Warnings "+inexact-float".

(** What [search_documents] sees of the manager and of the disk. *)
Record SearchEnv : Type := mkSearchEnv {
  (** [self.vectorstore] is set *)
  vectorstore_loaded : bool;
  (** [os.path.exists(self.db_path)] *)
  db_path_exists : bool;
  (** [Chroma(persist_directory=...)]: [Some e] when it raises [e] *)
  chroma_open_error : option string;
  (** [self.vectorstore.similarity_search_with_score(query, k=k)] *)
  similarity_search_with_score : string -> Z -> Result (list (Document * Q))
}.

Section Forward.

(** The nested dictionary built by [_format_metadata_for_display],
    and the display part of a result built by [forward]: string
    formatting outside the properties studied here.  Either may
    raise. *)
Variable FormattedMetadata : Type.
Variable _format_metadata_for_display : Metadata -> Result FormattedMetadata.
Variable Display : Type.

(** One dictionary of the list returned by [search_documents]. *)
Record RawResult : Type := mkRawResult {
  rank : Z;
  similarity_score : Q;
  content : string;
  content_preview : string;
  formatted_metadata : FormattedMetadata;
  raw_metadata : Metadata
}.

Variable format_display : RawResult -> Result Display.

(** [round(score, 4)] *)
Variable round4 : Q -> Q.

(** The [for i, (doc, score) in enumerate(results)] loop. *)
Fixpoint format_hits (i : Z) (hits : list (Document * Q))
    : Result (list RawResult) :=
  match hits with
  | [] => Returned []
  | (doc, score) :: rest =>
      match _format_metadata_for_display (metadata doc) with
      | Returned fm =>
          let text := page_content doc in
          let result :=
            {| rank := i + 1;
               similarity_score := score;
               content := text;
               content_preview :=
                 if bool_decide (300 < String.length text)%nat
                 then str_first 300 text +:+ "..." else text;
               formatted_metadata := fm;
               raw_metadata := metadata doc |} in
          match format_hits (i + 1) rest with
          | Returned results => Returned (result :: results)
          | Raised e => Raised e
          end
      | Raised e => Raised e
      end
  end.

(** [VectorDatabaseManager.search_documents] *)
Definition search_documents (env : SearchEnv) (query : string) (k : Z)
    : Result (list RawResult) :=
  let opened : Result unit :=
    if vectorstore_loaded env then Returned tt
    else if db_path_exists env then
      match chroma_open_error env with
      | Some e => Raised ("Could not load vector database: " +:+ e)
      | None => Returned tt
      end
    else Raised "No vector database found. Please index documents first." in
  match opened with
  | Raised e => Raised e
  | Returned _ =>
      match similarity_search_with_score env query k with
      | Returned hits =>
          match format_hits 0 hits with
          | Returned results => Returned results
          | _ => Returned []
          end
      | _ => Returned []
      end
  end.

(** One entry of ['results'] in the output of [forward]. *)
Record FormattedResult : Type := mkFormattedResult {
  result_rank : Z;
  rounded_score : Q;
  relevance_level : string;
  display : Display;
  result_metadata : Metadata
}.

(** The [output] dictionary of the tool result. *)
Record SearchOutput : Type := mkSearchOutput {
  query_text : string;
  results : list FormattedResult;
  results_count : Z;
  output_message : option string;
  error_details : option string
}.

Record ToolResult : Type := mkToolResult {
  output : option SearchOutput;
  error : option string
}.

(** The [for result in results] loop of [forward]. *)
Fixpoint format_results (rs : list RawResult) : Result (list FormattedResult) :=
  match rs with
  | [] => Returned []
  | result :: rest =>
      match format_display result with
      | Returned d =>
          let formatted_result :=
            {| result_rank := rank result;
               rounded_score := round4 (similarity_score result);
               relevance_level := _get_relevance_level (similarity_score result);
               display := d;
               result_metadata := raw_metadata result |} in
          match format_results rest with
          | Returned frs => Returned (formatted_result :: frs)
          | Raised e => Raised e
          end
      | Raised e => Raised e
      end
  end.

(** The [except Exception] branch of [forward]. *)
Definition error_result (query e : string) : ToolResult :=
  let error_msg := "Error searching documents: " +:+ e in
  {| output := Some {| query_text := query;
                       results := [];
                       results_count := 0;
                       output_message := None;
                       error_details := Some error_msg |};
     error := Some error_msg |}.

(** [VectorSearchTool.forward] *)
Definition forward (env : SearchEnv) (query : string) (max_results : Z)
    : ToolResult :=
  match search_documents env query max_results with
  | Raised e => error_result query e
  | Returned [] =>
      {| output :=
           Some {| query_text := query;
                   results := [];
                   results_count := 0;
                   output_message :=
                     Some "No relevant documents found in the indexed collection";
                   error_details := None |};
         error := None |}
  | Returned rs =>
      match format_results rs with
      | Returned frs =>
          {| output := Some {| query_text := query;
                               results := frs;
                               results_count := Z.of_nat (length rs);
                               output_message := None;
                               error_details := None |};
             error := None |}
      | Raised e => error_result query e
      end
  end.

End Forward.

End Search.

(** ** Concrete services, files and batches *)

Module Examples.

(** A service that answers from a script, one entry per call, and
    accepts once the script is used up. *)
Definition scripted (s : list (option string)) (op : IndexOp)
    (batch : list Document) : list (option string) * option string :=
  match s with
  | [] => ([], None)
  | r :: rest => (rest, r)
  end.

Definition token_error : string :=
  "Error code: 400 - Requested 301210 tokens, max 300000 tokens per request (type: max_tokens_per_request)".

Definition metadata_error : string :=
  "Expected metadata value to be a str, int, float or bool, got ['a', 'b'] which is a list".

Definition transient_error : string := "Connection error.".

(** A service that rejects every request of more than one chunk as too
    large, and accepts single chunks. *)
Definition one_chunk_only (s : unit) (op : IndexOp) (batch : list Document)
    : unit * option string :=
  if bool_decide (1 < length batch)%nat then (tt, Some token_error)
  else (tt, None).

(** A service that accepts every request. *)
Definition accepting (s : unit) (op : IndexOp) (batch : list Document)
    : unit * option string := (tt, None).

(** A service that answers every request with a metadata error. *)
Definition rejecting_metadata (s : unit) (op : IndexOp)
    (batch : list Document) : unit * option string :=
  (tt, Some metadata_error).

(** A service that answers every request with a connection error. *)
Definition failing_transient (s : unit) (op : IndexOp) (batch : list Document)
    : unit * option string :=
  (tt, Some transient_error).

(** The sanitizer of a manager whose langchain filter raises, so that
    the manual filter runs. *)
Definition manual_sanitizer : list Document -> list Document :=
  _filter_document_metadata true (fun _ => None).


(** A splitter for documents that are shorter than [chunk_size]: every
    document is one chunk. *)
Definition one_chunk_per_document (docs : list Document) : list Document := docs.

Definition fresh_world {Svc} (s : Svc) : @World Svc :=
  {| service := s; chroma_store := None; vectorstore_set := false;
     metadata_json := None; submitted := []; slept := [] |}.

(** [c * n] *)
Definition str_repeat (c : ascii) (n : N) : string :=
  N.iter n (String c) EmptyString.

Definition plain (text : string) : Document :=
  {| page_content := text; metadata := [] |}.

Definition two_small_chunks : list Document := [plain "alpha"; plain "beta"].

(** Five chunks of 300000 characters each. *)
Definition five_large_chunks : list Document :=
  let c := plain (str_repeat "a" 300000) in [c; c; c; c; c].

Definition example_file (name suffix mime md5 : string) (size : Z)
    (docs : list Document) : FileEntry :=
  {| path_str := "docs/" +:+ name;
     path_absolute := "/home/user/docs/" +:+ name;
     path_name := name;
     path_parent := "docs";
     path_relative := name;
     path_suffix := suffix;
     guessed_mime := Some mime;
     st_size := size;
     st_ctime_iso := "2025-01-01T00:00:00+00:00";
     st_mtime_iso := "2025-01-01T00:00:00+00:00";
     st_atime_iso := "2025-01-01T00:00:00+00:00";
     st_mode_oct := "0o100644";
     path_is_symlink := false;
     content_md5 := Some md5;
     loader_output := Some docs |}.

(** A directory holding one readable text file with content [hello]. *)
Definition hello_directory : list FileEntry :=
  [ example_file "a.txt" ".txt" "text/plain"
      "5d41402abc4b2a76b9719d911017c592" 5
      [ {| page_content := "hello";
           metadata := [("source", MStr "docs/a.txt")] |} ] ].

(** A PDF file that the loader cannot open: [loader.load()] raises. *)
Definition encrypted_pdf : FileEntry :=
  {| path_str := "docs/secret.pdf";
     path_absolute := "/home/user/docs/secret.pdf";
     path_name := "secret.pdf";
     path_parent := "docs";
     path_relative := "secret.pdf";
     path_suffix := ".pdf";
     guessed_mime := Some "application/pdf";
     st_size := 2048;
     st_ctime_iso := "2025-01-01T00:00:00+00:00";
     st_mtime_iso := "2025-01-01T00:00:00+00:00";
     st_atime_iso := "2025-01-01T00:00:00+00:00";
     st_mode_oct := "0o100644";
     path_is_symlink := false;
     content_md5 := Some "9e107d9d372bb6826bd81d3542a419d6";
     loader_output := None |}.

(** The state an earlier run left behind, seen by a new process: the
    index holds one chunk and the metadata file records its file. *)
Definition indexed_world : @World unit :=
  {| service := tt;
     chroma_store := Some [plain "old"];
     vectorstore_set := false;
     metadata_json :=
       Some {[ "docs/old.txt" :=
                 from_file_path "2025-01-15T00:00:00+00:00"
                   (example_file "old.txt" ".txt" "text/plain"
                      "149603e6c03516362a8da23f624db945" 3 [plain "old"]) ]};
     submitted := [];
     slept := [] |}.

(** A document whose metadata holds a list and a dictionary next to
    simple values. *)
Definition hello_documents : list Document :=
  [ {| page_content := "hello";
       metadata := [ ("source", MStr "docs/a.txt");
                     ("page", MInt 0);
                     ("languages", MComplex "list" "['eng']");
                     ("coordinates", MComplex "dict" "{'x': 1}");
                     ("author", MNone) ] |} ].

(** A service that rejects a request whose estimated total exceeds the
    ceiling, and accepts every other request. *)
Definition estimate_guard (s : unit) (op : IndexOp) (batch : list Document)
    : unit * option string :=
  if bool_decide (batch_tokens batch > token_ceiling) then (tt, Some token_error)
  else (tt, None).

Definition three_small_chunks : list Document :=
  [plain "alpha"; plain "beta"; plain "gamma"].

(** One page of 90000 characters. *)
Definition long_page (source : string) : Document :=
  {| page_content := str_repeat "a" 90000;
     metadata := [("source", MStr source)] |}.

(** A directory with a five-page document and a one-page document, each
    page of 90000 characters (a manager built with a [chunk_size] above
    that keeps every page as one chunk). *)
Definition two_pdf_directory : list FileEntry :=
  [ example_file "a.pdf" ".pdf" "application/pdf"
      "0cc175b9c0f1b6a831c399e269772661" 450000
      [ long_page "docs/a.pdf"; long_page "docs/a.pdf"; long_page "docs/a.pdf";
        long_page "docs/a.pdf"; long_page "docs/a.pdf" ];
    example_file "b.pdf" ".pdf" "application/pdf"
      "92eb5ffee6ae2fec3ad71c777531578f" 90000
      [ long_page "docs/b.pdf" ] ].

(** The service accepts the first request and then fails five times with
    a transient error. *)
Definition accept_once_then_fail : list (option string) :=
  [ None; Some transient_error; Some transient_error; Some transient_error;
    Some transient_error; Some transient_error ].

(** [metadata.get('source_file')] of every stored chunk. *)
Definition stored_sources {Svc} (w : @World Svc) : list (option MetaValue) :=
  map (fun d => dict_get "source_file" (metadata d)) (default [] (chroma_store w)).

(** Search environments: no index at all, an index directory that cannot
    be opened, and an index that returns no hit. *)
Definition no_index_env : Search.SearchEnv :=
  {| Search.vectorstore_loaded := false;
     Search.db_path_exists := false;
     Search.chroma_open_error := None;
     Search.similarity_search_with_score := fun _ _ => Returned [] |}.

Definition unreadable_index_env : Search.SearchEnv :=
  {| Search.vectorstore_loaded := false;
     Search.db_path_exists := true;
     Search.chroma_open_error := Some "file is not a database";
     Search.similarity_search_with_score := fun _ _ => Returned [] |}.

Definition empty_index_env : Search.SearchEnv :=
  {| Search.vectorstore_loaded := true;
     Search.db_path_exists := true;
     Search.chroma_open_error := None;
     Search.similarity_search_with_score := fun _ _ => Returned [] |}.

(** [forward] with display formatting that never raises. *)
Definition plain_forward : Search.SearchEnv -> string -> Z -> Search.ToolResult unit :=
  Search.forward unit (fun _ => Returned tt) unit (fun _ => Returned tt)
    (fun score => score).


End Examples.

(** ** Assumptions on the service and the filter used in statements *)

(** The service answers every request with an error that is neither a
    metadata error nor a token-limit error. *)
Definition always_transient_error {Svc : Type}
    (call : Svc -> IndexOp -> list Document -> Svc * option string) : Prop :=
  forall s op b, exists s' msg,
    call s op b = (s', Some msg)
    /\ str_contains "Expected metadata value to be" msg = false
    /\ str_contains "max_tokens_per_request" msg = false.

(** The service reports a token-limit overflow only for requests that
    hold a single chunk or whose estimated total exceeds the safe limit of
    the splitter. *)
Definition overflow_only_above_safe_limit {Svc : Type}
    (call : Svc -> IndexOp -> list Document -> Svc * option string) : Prop :=
  forall s op b s' msg,
    call s op b = (s', Some msg) ->
    str_contains "Expected metadata value to be" msg = false ->
    str_contains "max_tokens_per_request" msg = true ->
    (length b <= 1)%nat \/ safe_limit_of token_ceiling < batch_tokens b.

(** The text of the chunks of a batch, in order. *)
Definition contents (batch : list Document) : list string :=
  map page_content batch.

(** The chunks held by the persisted index. *)
Definition stored_chunks {Svc : Type} (w : @World Svc) : list Document :=
  default [] (chroma_store w).

(** The waits of [n] consecutive attempts that all end in a transient
    error, the first of them numbered [attempt]. *)
Fixpoint backoff_schedule (n : nat) (attempt : Z) : list Z :=
  match n with
  | O => []
  | S n' =>
      (if bool_decide (attempt < 5) then [Z.min (2 ^ attempt) 10] else [])
      ++ backoff_schedule n' (attempt + 1)
  end.

(** What an invocation of the executor on [batch] may do to the stores
    when it goes from [w] to [w'] with result [r]: chunks are only
    appended to the index, the text of the appended chunks is a prefix of
    the text of the batch, it is the whole batch when the result is
    [True], and the metadata file is not touched. *)
Definition commit_spec {Svc : Type} (w : @World Svc) (batch : list Document)
    (w' : @World Svc) (r : option bool) : Prop :=
  exists added,
    stored_chunks w' = stored_chunks w ++ added
    /\ contents added `prefix_of` contents batch
    /\ (r = Some true -> contents added = contents batch)
    /\ metadata_json w' = metadata_json w.

(** The success flag a batch run reports: the ['success'] entry of the
    returned dictionary, [False] for a raised exception, nothing for a run
    that used up the call depth of the model. *)
Definition reported_success (o : option (Result BatchResults)) : option bool :=
  match o with
  | Some (Returned res) => Some (success res)
  | Some (Raised _) => Some false
  | None => None
  end.

(** The documents [index_directory] collects from the files it selects
    for processing ([all_documents]). *)
Definition loaded_documents {Svc : Type} (now : string) (w : @World Svc)
    (directory : list FileEntry) : list Document :=
  fst (fst (fold_left (load_step now)
              (filter (fun f => needs_processing (_load_metadata w) f = true)
                      (_scan_directory directory))
              ([], _load_metadata w, 0))).

(** ** The metadata file *)

(** The field names of [DocumentMetadata], the keys of [to_dict]. *)
Definition metadata_fields : list string :=
  [ "file_path"; "file_name"; "file_directory"; "relative_path"; "file_size";
    "file_type"; "mime_type"; "file_extension"; "created_at"; "modified_at";
    "accessed_at"; "indexed_at"; "chunk_count"; "total_characters";
    "file_hash"; "file_permissions"; "is_hidden"; "is_symlink" ].

Definition get_str (k : string) (m : list (string * MetaValue)) : option string :=
  match dict_get k m with Some (MStr s) => Some s | _ => None end.

Definition get_int (k : string) (m : list (string * MetaValue)) : option Z :=
  match dict_get k m with Some (MInt n) => Some n | _ => None end.

Definition get_bool (k : string) (m : list (string * MetaValue)) : option bool :=
  match dict_get k m with Some (MBool b) => Some b | _ => None end.

(** The constructor call of [_load_metadata], which passes the entries of
    a dictionary read from the metadata file as keyword arguments: the
    call raises [TypeError] ([None]) when a field is missing or
    an unknown key is present.  The record of the model is typed, so a
    dictionary whose values do not have the types written by [to_dict] is
    outside the model and is answered with [None] as well. *)
Definition from_dict (meta : list (string * MetaValue)) : option DocumentMetadata :=
  if bool_decide (length meta = 18%nat) then
    file_path ← get_str "file_path" meta;
    file_name ← get_str "file_name" meta;
    file_directory ← get_str "file_directory" meta;
    relative_path ← get_str "relative_path" meta;
    file_size ← get_int "file_size" meta;
    file_type ← get_str "file_type" meta;
    mime_type ← get_str "mime_type" meta;
    file_extension ← get_str "file_extension" meta;
    created_at ← get_str "created_at" meta;
    modified_at ← get_str "modified_at" meta;
    accessed_at ← get_str "accessed_at" meta;
    indexed_at ← get_str "indexed_at" meta;
    chunk_count ← get_int "chunk_count" meta;
    total_characters ← get_int "total_characters" meta;
    file_hash ← get_str "file_hash" meta;
    file_permissions ← get_str "file_permissions" meta;
    is_hidden ← get_bool "is_hidden" meta;
    is_symlink ← get_bool "is_symlink" meta;
    Some (mkDocumentMetadata file_path file_name file_directory relative_path
            file_size file_type mime_type file_extension created_at
            modified_at accessed_at indexed_at chunk_count total_characters
            file_hash file_permissions is_hidden is_symlink)
  else None.

(** The object [_save_metadata] writes: one [to_dict] per path. *)
Definition metadata_to_json (stored : gmap string DocumentMetadata)
    : gmap string (list (string * MetaValue)) :=
  to_dict <$> stored.

(** The mapping [_load_metadata] builds from the object it read: any
    exception, such as the [TypeError] of one entry, makes it return the
    empty mapping. *)
Definition metadata_of_json (data : gmap string (list (string * MetaValue)))
    : gmap string DocumentMetadata :=
  if bool_decide (map_Forall (fun _ meta => is_Some (from_dict meta)) data)
  then omap from_dict data
  else ∅.

(** The keys [_load_single_document] writes into the metadata of every
    document: the fields of the file record and the chunk keys. *)
Definition stamped_keys : list string :=
  metadata_fields
  ++ ["chunk_index"; "chunk_id"; "content_length"; "content_preview";
      "source_file"].

(** ** Runs over a directory that was indexed before *)

(** Every record of the mapping has the empty [file_hash] that
    [from_file_path] sets. *)
Definition records_unhashed (stored : gmap string DocumentMetadata) : Prop :=
  map_Forall (fun _ record => file_hash record = "") stored.

(** The file can be read for hashing: [_get_file_hash] returns an MD5
    hex digest, which is not the empty string. *)
Definition hashable (f : FileEntry) : Prop :=
  exists digest, content_md5 f = Some digest /\ digest <> "".

(** The documents [_load_single_document] gives for a file; none when it
    raises. *)
Definition documents_of (now : string) (f : FileEntry) : list Document :=
  match _load_single_document now f with
  | Returned documents => documents
  | Raised _ => []
  end.

(** The documents of all the supported files of a directory. *)
Definition all_documents (now : string) (directory : list FileEntry)
    : list Document :=
  concat (map (documents_of now) (_scan_directory directory)).

(** ** The indexing tool *)

Module VectorIndexerTool.

(** What [os.path.exists] and [os.path.isdir] say about
    [directory_path], with the files of the tree when it is a
    directory. *)
Inductive PathKind : Type :=
  | path_missing
  | path_not_directory
  | path_directory (files : list FileEntry).

Record ToolResult : Type := mkToolResult {
  output : option IndexResult;
  error : option string
}.

Section Forward.

Context {Svc : Type}.
Variable call : Svc -> IndexOp -> list Document -> Svc * option string.
Variable sanitize : list Document -> list Document.
Variable split_documents : list Document -> list Document.

(** [shutil.rmtree(self.db_manager.db_path)]: the index files and
    [metadata.json] are gone; the manager object is not touched. *)
Definition rmtree_db_path (w : @World Svc) : @World Svc :=
  {| service := service w;
     chroma_store := None;
     vectorstore_set := vectorstore_set w;
     metadata_json := None;
     submitted := submitted w;
     slept := slept w |}.

(** [VectorIndexerTool.forward].  Removing a directory [db_path] that
    exists and is empty changes nothing the model records, so the test
    [os.path.exists(db_path)] is read as: the directory holds something. *)
Definition forward (depth : nat) (now : string) (w : @World Svc)
    (directory_path : string) (target : PathKind) (force_reindex : bool)
    : @World Svc * option ToolResult :=
  match target with
  | path_missing =>
      (w, Some {| output := None;
                  error := Some ("Directory does not exist: "
                                 +:+ directory_path) |})
  | path_not_directory =>
      (w, Some {| output := None;
                  error := Some ("Path is not a directory: "
                                 +:+ directory_path) |})
  | path_directory files =>
      let w1 :=
        if force_reindex && vectorstore_exists w
        then rmtree_db_path w else w in
      match index_directory call sanitize split_documents depth now w1 files with
      | (w', Some result) =>
          (w', Some {| output := Some result; error := None |})
      | (w', None) => (w', None)
      end
  end.

End Forward.

End VectorIndexerTool.

(** ** The function-call interface ([vector_function_calls.py]) *)

Module FunctionCalls.

(** A Python [float]: a finite value, given by its exact rational value,
    an infinity, or the value that is not a number. *)
Inductive PyFloat : Type :=
  | Finite (x : Q)
  | PosInf
  | NegInf
  | NaN.

(** [a < b] on floats: [False] whenever an operand is not a number. *)
Definition float_lt (a b : PyFloat) : bool :=
  match a, b with
  | NaN, _ | _, NaN => false
  | PosInf, _ => false
  | NegInf, NegInf => false
  | NegInf, _ => true
  | Finite _, NegInf => false
  | Finite _, PosInf => true
  | Finite x, Finite y => negb (Qle_bool y x)
  end.

(** [a <= b] on floats: [False] whenever an operand is not a number. *)
Definition float_le (a b : PyFloat) : bool :=
  match a, b with
  | NaN, _ | _, NaN => false
  | NegInf, _ => true
  | _, PosInf => true
  | PosInf, _ => false
  | Finite _, NegInf => false
  | Finite x, Finite y => Qle_bool x y
  end.

(** A value of the [parameters] dictionary of a function call, as far as
    the code looks at it: its type and, for text and numbers, its value. *)
Inductive ParamValue : Type :=
  | PStr (s : string)
  | PInt (n : Z)
  | PFloat (x : PyFloat)
  | PBool (b : bool)
  | PNone
  | PList
  | POther (type_name : string).

(** [type(param_value).__name__] *)
Definition type_name_of (v : ParamValue) : string :=
  match v with
  | PStr _ => "str"
  | PInt _ => "int"
  | PFloat _ => "float"
  | PBool _ => "bool"
  | PNone => "NoneType"
  | PList => "list"
  | POther t => t
  end.

(** [isinstance(v, str)], [isinstance(v, int)] (a [bool] is an [int]),
    [isinstance(v, (int, float))], [isinstance(v, bool)] and
    [isinstance(v, list)]. *)
Definition is_str (v : ParamValue) : bool :=
  match v with PStr _ => true | _ => false end.

Definition is_int (v : ParamValue) : bool :=
  match v with PInt _ | PBool _ => true | _ => false end.

Definition is_number (v : ParamValue) : bool :=
  match v with PInt _ | PBool _ | PFloat _ => true | _ => false end.

Definition is_bool (v : ParamValue) : bool :=
  match v with PBool _ => true | _ => false end.

Definition is_list (v : ParamValue) : bool :=
  match v with PList => true | _ => false end.

(** [d.get(k)] on an insertion-ordered dictionary with string keys. *)
Fixpoint get {A : Type} (k : string) (d : list (string * A)) : option A :=
  match d with
  | [] => None
  | (k', v) :: rest => if decide (k = k') then Some v else get k rest
  end.

(** One entry of ["properties"]: its ["type"] and ["nullable"] keys. *)
Record Property : Type := mkProperty {
  ptype : string;
  nullable : bool
}.

(** The ["parameters"] of one function definition. *)
Record FunctionDefinition : Type := mkFunctionDefinition {
  properties : list (string * Property);
  required : list string
}.

(** [self.function_definitions], restricted to the keys
    [_validate_parameters] reads. *)
Definition function_definitions : list (string * FunctionDefinition) :=
  [ ("search_documents",
     {| properties := [ ("query", mkProperty "string" false);
                        ("max_results", mkProperty "integer" true);
                        ("min_similarity", mkProperty "number" true) ];
        required := ["query"] |});
    ("get_file_info",
     {| properties := [ ("file_path", mkProperty "string" false) ];
        required := ["file_path"] |});
    ("list_indexed_files",
     {| properties := [ ("file_type", mkProperty "string" true);
                        ("directory", mkProperty "string" true);
                        ("sort_by", mkProperty "string" true);
                        ("limit", mkProperty "integer" true) ];
        required := [] |});
    ("get_file_content",
     {| properties := [ ("file_path", mkProperty "string" false);
                        ("chunk_index", mkProperty "integer" true);
                        ("max_length", mkProperty "integer" true) ];
        required := ["file_path"] |});
    ("search_by_file_type",
     {| properties := [ ("file_types", mkProperty "array" false);
                        ("query", mkProperty "string" true);
                        ("max_results", mkProperty "integer" true) ];
        required := ["file_types"] |});
    ("search_by_date_range",
     {| properties := [ ("start_date", mkProperty "string" false);
                        ("end_date", mkProperty "string" false);
                        ("date_field", mkProperty "string" true);
                        ("query", mkProperty "string" true);
                        ("max_results", mkProperty "integer" true) ];
        required := ["start_date"; "end_date"] |});
    ("get_database_stats",
     {| properties := [ ("include_file_list", mkProperty "boolean" true) ];
        required := [] |});
    ("find_similar_documents",
     {| properties := [ ("reference_file", mkProperty "string" false);
                        ("max_results", mkProperty "integer" true);
                        ("exclude_same_file", mkProperty "boolean" true) ];
        required := ["reference_file"] |}) ].

(** The loop over [required_params]: the message for the first one that
    is missing. *)
Fixpoint check_required (function_name : string) (required_params : list string)
    (parameters : list (string * ParamValue)) : option string :=
  match required_params with
  | [] => None
  | param :: rest =>
      match get param parameters with
      | None =>
          Some ("Missing required parameter '" +:+ param
                +:+ "' for function '" +:+ function_name +:+ "'")
      | Some _ => check_required function_name rest parameters
      end
  end.

(** The [if]/[elif] chain on [expected_type] for one parameter. *)
Definition type_error (param_name expected_type : string) (v : ParamValue)
    : option string :=
  if bool_decide (expected_type = "string") && negb (is_str v) then
    Some ("Parameter '" +:+ param_name +:+ "' must be a string, got "
          +:+ type_name_of v)
  else if bool_decide (expected_type = "integer") && negb (is_int v) then
    Some ("Parameter '" +:+ param_name +:+ "' must be an integer, got "
          +:+ type_name_of v)
  else if bool_decide (expected_type = "number") && negb (is_number v) then
    Some ("Parameter '" +:+ param_name +:+ "' must be a number, got "
          +:+ type_name_of v)
  else if bool_decide (expected_type = "boolean") && negb (is_bool v) then
    Some ("Parameter '" +:+ param_name +:+ "' must be a boolean, got "
          +:+ type_name_of v)
  else if bool_decide (expected_type = "array") && negb (is_list v) then
    Some ("Parameter '" +:+ param_name +:+ "' must be an array, got "
          +:+ type_name_of v)
  else None.

(** The loop over [parameters.items()]: the message for the first
    parameter of the wrong type. *)
Fixpoint check_types (param_props : list (string * Property))
    (items : list (string * ParamValue)) : option string :=
  match items with
  | [] => None
  | (param_name, param_value) :: rest =>
      match get param_name param_props with
      | Some prop =>
          match type_error param_name (ptype prop) param_value with
          | Some e => Some e
          | None => check_types param_props rest
          end
      | None => check_types param_props rest
      end
  end.

(** [VectorFunctionCallsTool._validate_parameters]: [None] when the
    parameters are accepted, the error message otherwise. *)
Definition _validate_parameters (function_name : string)
    (parameters : list (string * ParamValue)) : option string :=
  match get function_name function_definitions with
  | None => Some ("Unknown function: " +:+ function_name)
  | Some func_def =>
      match check_required function_name (required func_def) parameters with
      | Some e => Some e
      | None => check_types (properties func_def) parameters
      end
  end.

(** The dictionary returned by the handler [_search_documents],
    restricted to ["success"], ["error"], ["query"], ["parameters_used"],
    ["results"] and ["total_results"]. *)
Inductive SearchReply (R : Type) : Type :=
  | search_failed (error : string)
  | search_succeeded (query : string) (max_results : Z)
      (min_similarity : PyFloat) (results : list R) (total_results : Z).

Arguments search_failed {R} error.
Arguments search_succeeded {R} query max_results min_similarity results
  total_results.

(** [max_results] after the validation of the handler: the given value
    when it is an [int] between 1 and 50 ([True] counts as 1), else 5. *)
Definition checked_max_results (parameters : list (string * ParamValue)) : Z :=
  match get "max_results" parameters with
  | None => 5
  | Some (PInt n) => if bool_decide (n < 1) || bool_decide (n > 50) then 5 else n
  | Some (PBool b) => if b then 1 else 5
  | Some _ => 5
  end.

(** [min_similarity] after the validation of the handler: the given
    number unless it is below 0.0 or above 1.0, and 0.0 for a value that
    is not a number of type [int] or [float] and for a missing key.  Both
    tests are [False] for the float that is not a number, which is
    kept. *)
Definition checked_min_similarity (parameters : list (string * ParamValue))
    : PyFloat :=
  let check (min_similarity : PyFloat) : PyFloat :=
    if float_lt min_similarity (Finite 0) || float_lt (Finite 1) min_similarity
    then Finite 0 else min_similarity in
  match get "min_similarity" parameters with
  | None => Finite 0
  | Some (PInt n) => check (Finite (inject_Z n))
  | Some (PBool b) => check (Finite (if b then 1 else 0))
  | Some (PFloat x) => check x
  | Some _ => Finite 0
  end.

Section Handler.

Variable FormattedMetadata : Type.
Variable _format_metadata_for_display :
  list (string * MetaValue) -> Result FormattedMetadata.

(** [VectorFunctionCallsTool._search_documents] *)
Definition _search_documents (env : Search.SearchEnv)
    (parameters : list (string * ParamValue))
    : SearchReply (Search.RawResult FormattedMetadata) :=
  match get "query" parameters with
  | None => search_failed "Missing required parameter 'query'"
  | Some (PStr query) =>
      if bool_decide (query = "") then
        search_failed "Parameter 'query' must be a non-empty string"
      else
        let max_results := checked_max_results parameters in
        let min_similarity := checked_min_similarity parameters in
        match Search.search_documents FormattedMetadata
                _format_metadata_for_display env query max_results with
        | Returned results =>
            let filtered_results :=
              filter (fun r => float_le min_similarity
                                 (Finite (Search.similarity_score _ r)) = true)
                     results in
            search_succeeded query max_results min_similarity
              filtered_results (py_len filtered_results)
        | Raised e => search_failed ("Database search failed: " +:+ e)
        end
  | Some _ => search_failed "Parameter 'query' must be a non-empty string"
  end.

End Handler.

End FunctionCalls.

(** ** A search environment with two hits, and a call of the handler *)

Module HandlerExamples.

Definition two_hit_env : Search.SearchEnv :=
  {| Search.vectorstore_loaded := true;
     Search.db_path_exists := true;
     Search.chroma_open_error := None;
     Search.similarity_search_with_score :=
       fun _ _ => Returned [ (Examples.plain "alpha", 1 # 4);
                             (Examples.plain "beta", 3 # 4) ] |}.

(** A call that asks for hits with a similarity of at least one half. *)
Definition half_threshold_call : list (string * FunctionCalls.ParamValue) :=
  [ ("query", FunctionCalls.PStr "greek letters");
    ("max_results", FunctionCalls.PInt 200);
    ("min_similarity", FunctionCalls.PFloat (FunctionCalls.Finite (1 # 2))) ].

(** The same call with a threshold that is not a number. *)
Definition nan_threshold_call : list (string * FunctionCalls.ParamValue) :=
  [ ("query", FunctionCalls.PStr "greek letters");
    ("min_similarity", FunctionCalls.PFloat FunctionCalls.NaN) ].

(** The hit the handler keeps for that call. *)
Definition beta_result : Search.RawResult unit :=
  {| Search.rank := 2;
     Search.similarity_score := 3 # 4;
     Search.content := "beta";
     Search.content_preview := "beta";
     Search.formatted_metadata := tt;
     Search.raw_metadata := [] |}.

End HandlerExamples.

(** * Properties *)

(** ** Token estimation *)

Lemma _estimate_tokens_nonneg (text : string) : 0 <= _estimate_tokens text.
Proof.
  unfold _estimate_tokens, metadata_overhead.
  destruct (decide (text = "")); [lia|].
  assert (0 <= Z.of_nat (String.length text) / 3) by (apply Z.div_pos; lia).
  lia.
Qed.

(** ** The splitter *)

Lemma batch_tokens_app (a b : list Document) :
  batch_tokens (a ++ b) = batch_tokens a + batch_tokens b.
Proof.
  unfold batch_tokens. induction a as [|c a IH]; simpl; [reflexivity|].
  rewrite IH. lia.
Qed.

Lemma batch_tokens_single (c : Document) :
  batch_tokens [c] = chunk_total_tokens c.
Proof. unfold batch_tokens. simpl. lia. Qed.

Lemma batch_tokens_nil : batch_tokens [] = 0.
Proof. reflexivity. Qed.

#[local] Arguments batch_tokens : simpl never.

Section SplitLoop.

Variable safe_limit : Z.

Lemma split_step_flatten (st : SplitState) (item : Document * Z) :
  concat (batches (split_step safe_limit st item))
    ++ current_batch (split_step safe_limit st item)
  = (concat (batches st) ++ current_batch st) ++ [fst item].
Proof.
  destruct item as [chunk tokens]. unfold split_step.
  destruct (_ && _); simpl.
  - rewrite concat_app. simpl. rewrite app_nil_r. reflexivity.
  - rewrite app_assoc. reflexivity.
Qed.

Lemma split_loop_flatten (items : list (Document * Z)) (st : SplitState) :
  concat (batches (split_loop safe_limit items st))
    ++ current_batch (split_loop safe_limit items st)
  = (concat (batches st) ++ current_batch st) ++ map fst items.
Proof.
  revert st. induction items as [|item items IH]; intros st; simpl.
  - rewrite app_nil_r. reflexivity.
  - unfold split_loop in *. simpl. rewrite IH, split_step_flatten.
    rewrite <- app_assoc. reflexivity.
Qed.

Lemma split_step_nonempty (st : SplitState) (item : Document * Z) :
  Forall (fun b => b <> []) (batches st) ->
  Forall (fun b => b <> []) (batches (split_step safe_limit st item))
  /\ current_batch (split_step safe_limit st item) <> [].
Proof.
  intros Hb. destruct item as [chunk tokens]. unfold split_step.
  destruct (bool_decide (current_tokens st + tokens > safe_limit)); simpl.
  - destruct (bool_decide (current_batch st = [])) eqn:E; simpl.
    + split; [exact Hb|]. destruct (current_batch st); discriminate.
    + apply bool_decide_eq_false in E. split; [|discriminate].
      apply Forall_app. split; [exact Hb|]. constructor; [exact E|constructor].
  - split; [exact Hb|]. destruct (current_batch st); discriminate.
Qed.

Lemma split_loop_nonempty (items : list (Document * Z)) (st : SplitState) :
  Forall (fun b => b <> []) (batches st) ->
  Forall (fun b => b <> []) (batches (split_loop safe_limit items st)).
Proof.
  revert st. induction items as [|item items IH]; intros st Hb; simpl.
  - exact Hb.
  - unfold split_loop in *. simpl. apply IH.
    apply (split_step_nonempty st item Hb).
Qed.

Lemma split_step_inv (st : SplitState) (chunk : Document) :
  split_inv safe_limit st ->
  split_inv safe_limit (split_step safe_limit st (chunk, chunk_total_tokens chunk)).
Proof.
  intros (Hb & Ht & Hc). unfold split_step.
  destruct (bool_decide (current_tokens st + chunk_total_tokens chunk > safe_limit))
    eqn:Egt; simpl.
  - destruct (bool_decide (current_batch st = [])) eqn:Ee; simpl.
    + apply bool_decide_eq_true in Ee. unfold split_inv; simpl.
      rewrite Ee. simpl. split; [exact Hb|]. split.
      * rewrite batch_tokens_single, Ht, Ee, batch_tokens_nil. lia.
      * right. right. reflexivity.
    + apply bool_decide_eq_false in Ee. unfold split_inv; simpl.
      split; [|split].
      * apply Forall_app. split; [exact Hb|].
        constructor; [|constructor]. destruct Hc as [Hc|Hc]; [contradiction|exact Hc].
      * rewrite batch_tokens_single. reflexivity.
      * right. right. reflexivity.
  - apply bool_decide_eq_false in Egt. unfold split_inv; simpl.
    split; [exact Hb|]. split.
    + rewrite batch_tokens_app, batch_tokens_single, Ht. reflexivity.
    + right. left. rewrite batch_tokens_app, batch_tokens_single, <- Ht. lia.
Qed.

Lemma split_loop_inv (chunks : list Document) (st : SplitState) :
  split_inv safe_limit st ->
  split_inv safe_limit (split_loop safe_limit
               (zip chunks (map chunk_total_tokens chunks)) st).
Proof.
  revert st. induction chunks as [|c chunks IH]; intros st Hst; simpl.
  - exact Hst.
  - unfold split_loop in *. simpl. apply IH. apply split_step_inv, Hst.
Qed.

End SplitLoop.

Lemma zip_map_fst (chunks : list Document) :
  map fst (zip chunks (map chunk_total_tokens chunks)) = chunks.
Proof. induction chunks as [|c chunks IH]; simpl; [reflexivity|]. now rewrite IH. Qed.

Lemma split_sub_batches_within (batch_chunks : list Document) (target : Z) :
  Forall (within_limit (safe_limit_of target))
    (_split_batch_intelligently batch_chunks target).
Proof.
  unfold _split_batch_intelligently.
  destruct (bool_decide (length batch_chunks <= 1)%nat) eqn:El.
  - apply bool_decide_eq_true in El.
    destruct batch_chunks as [|c [|c' rest]]; simpl in *; try lia.
    + constructor.
    + constructor; [|constructor]. right. reflexivity.
  - set (st := split_loop _ _ _).
    assert (Hinv : split_inv (safe_limit_of target) st).
    { apply split_loop_inv. repeat split; simpl; [constructor|now left]. }
    destruct Hinv as (Hb & _ & Hc).
    destruct (current_batch st) eqn:Ec; [exact Hb|].
    apply Forall_app. split; [exact Hb|].
    constructor; [|constructor]. destruct Hc as [Hc|Hc]; [discriminate|exact Hc].
Qed.

Lemma split_flatten (batch_chunks : list Document) (target : Z) :
  concat (_split_batch_intelligently batch_chunks target) = batch_chunks.
Proof.
  unfold _split_batch_intelligently.
  destruct (bool_decide (length batch_chunks <= 1)%nat) eqn:El.
  - destruct batch_chunks as [|c rest]; simpl; [reflexivity|].
    rewrite app_nil_r. reflexivity.
  - set (st := split_loop _ _ _).
    pose proof (split_loop_flatten (safe_limit_of target)
                  (zip batch_chunks (map chunk_total_tokens batch_chunks))
                  {| batches := []; current_batch := []; current_tokens := 0 |})
      as Hf.
    fold st in Hf. simpl in Hf. rewrite zip_map_fst in Hf.
    destruct (current_batch st) eqn:Ec.
    + rewrite app_nil_r in Hf. exact Hf.
    + rewrite concat_app. simpl. rewrite app_nil_r. exact Hf.
Qed.

Lemma split_no_empty_sub_batch (batch_chunks : list Document) (target : Z) :
  Forall (fun b => b <> []) (_split_batch_intelligently batch_chunks target).
Proof.
  unfold _split_batch_intelligently.
  destruct (bool_decide (length batch_chunks <= 1)%nat) eqn:El.
  - destruct batch_chunks as [|c rest]; constructor; [discriminate|constructor].
  - set (st := split_loop _ _ _).
    assert (Hb : Forall (fun b => b <> []) (batches st))
      by (apply split_loop_nonempty; constructor).
    destruct (current_batch st) eqn:Ec; [exact Hb|].
    apply Forall_app. split; [exact Hb|].
    constructor; [discriminate|constructor].
Qed.

(** C10.  The sub-batches returned by the intelligent splitter,
    concatenated in order, are exactly the input list: no chunk is dropped,
    duplicated or reordered.  No sub-batch is empty, and the result is the
    empty sequence only for the empty input. *)
Theorem split_batch_partitions_input (batch_chunks : list Document) (target : Z) :
  concat (_split_batch_intelligently batch_chunks target) = batch_chunks
  /\ Forall (fun sub_batch => sub_batch <> [])
       (_split_batch_intelligently batch_chunks target)
  /\ (_split_batch_intelligently batch_chunks target = [] <-> batch_chunks = []).
Proof.
  split; [apply split_flatten|]. split; [apply split_no_empty_sub_batch|].
  split.
  - intros E. rewrite <- (split_flatten batch_chunks target), E. reflexivity.
  - intros ->. reflexivity.
Qed.

Lemma safe_limit_le (target : Z) : 0 <= target -> safe_limit_of target <= target.
Proof.
  intros H. unfold safe_limit_of.
  rewrite Z.quot_div_nonneg by lia.
  apply Z.div_le_upper_bound; lia.
Qed.

(** C3, as amended.  Whenever every chunk of a batch has an estimated cost
    within the ceiling, every sub-batch the splitter returns (these are the
    batches submitted after a token overflow) has a summed cost within the
    ceiling: it is within half the ceiling, or it holds one chunk. *)
Theorem split_sub_batches_fit (batch_chunks : list Document) (target : Z) :
  0 <= target ->
  Forall (fun chunk => chunk_total_tokens chunk <= target) batch_chunks ->
  Forall (fun sub_batch =>
            batch_tokens sub_batch <= target
            /\ (batch_tokens sub_batch <= safe_limit_of target
                \/ length sub_batch = 1%nat))
    (_split_batch_intelligently batch_chunks target).
Proof.
  intros Ht Hc.
  pose proof (split_sub_batches_within batch_chunks target) as Hw.
  pose proof (split_flatten batch_chunks target) as Hf.
  rewrite Forall_forall in Hw. apply Forall_forall. intros sub Hin.
  specialize (Hw sub Hin). split; [|exact Hw].
  destruct Hw as [Hw|Hw].
  - pose proof (safe_limit_le target Ht). lia.
  - destruct sub as [|c [|c' rest]]; simpl in Hw; try lia.
    rewrite batch_tokens_single.
    rewrite Forall_forall in Hc. apply Hc.
    rewrite <- Hf. apply list_elem_of_In, in_concat. exists [c].
    split; [apply list_elem_of_In, Hin|now left].
Qed.

(** C6, counterexample.  On the empty text the estimate is 0, not
    [len(text)/3] plus the metadata overhead. *)
Lemma estimate_tokens_empty_text :
  _estimate_tokens "" <> Z.of_nat (String.length "") / 3 + metadata_overhead.
Proof. vm_compute. discriminate. Qed.

(** C6, as amended.  For every non-empty text the estimate is
    [len(text) / 3] (integer division) plus the constant overhead 75; for
    the empty text it is 0. *)
Theorem estimate_tokens_formula (text : string) :
  (text = "" /\ _estimate_tokens text = 0)
  \/ (text <> ""
      /\ _estimate_tokens text = Z.of_nat (String.length text) / 3 + 75).
Proof.
  unfold _estimate_tokens, metadata_overhead.
  destruct (decide (text = "")) as [E|E]; [left|right]; split; auto.
Qed.

(** ** The sanitizer *)

Lemma sanitize_value_simple (v : MetaValue) : is_simple (sanitize_value v) = true.
Proof. destruct v; reflexivity. Qed.

Lemma sanitize_value_fixed (v : MetaValue) :
  is_simple v = true -> sanitize_value v = v.
Proof. unfold sanitize_value. intros ->. reflexivity. Qed.

Lemma sanitize_value_idempotent (v : MetaValue) :
  sanitize_value (sanitize_value v) = sanitize_value v.
Proof. apply sanitize_value_fixed, sanitize_value_simple. Qed.

Lemma sanitize_metadata_idempotent (m : Metadata) :
  sanitize_metadata (sanitize_metadata m) = sanitize_metadata m.
Proof.
  unfold sanitize_metadata. rewrite map_map. apply map_ext.
  intros [k v]. simpl. now rewrite sanitize_value_idempotent.
Qed.

Lemma sanitize_document_idempotent (doc : Document) :
  sanitize_document (sanitize_document doc) = sanitize_document doc.
Proof.
  destruct doc as [text m]. unfold sanitize_document. simpl.
  destruct m as [|kv m]; simpl; [reflexivity|].
  f_equal. change (sanitize_metadata (sanitize_metadata (kv :: m))
                   = sanitize_metadata (kv :: m)).
  apply sanitize_metadata_idempotent.
Qed.

(** After one pass nothing is left to convert. *)
Lemma sanitize_metadata_no_problematic_keys (m : Metadata) :
  problematic_keys_of (sanitize_metadata m) = ∅.
Proof.
  unfold problematic_keys_of.
  replace (filter _ (sanitize_metadata m)) with (@nil (string * MetaValue));
    [reflexivity|].
  symmetry. induction m as [|[k v] m IH]; [reflexivity|].
  change (sanitize_metadata ((k, v) :: m))
    with ((k, sanitize_value v) :: sanitize_metadata m).
  rewrite filter_cons_False; [exact IH|].
  simpl. rewrite sanitize_value_simple. discriminate.
Qed.


(** The manager's filter as a whole is idempotent whenever langchain's
    filter returns its own results unchanged and, having raised on some
    documents, raises again on their manually filtered form. *)
Lemma filter_document_metadata_idempotent (available : bool)
    (lib : list Document -> option (list Document)) (documents : list Document) :
  (forall d d', lib d = Some d' -> lib d' = Some d') ->
  (forall d, lib d = None -> lib (map sanitize_document d) = None) ->
  _filter_document_metadata available lib
    (_filter_document_metadata available lib documents)
  = _filter_document_metadata available lib documents.
Proof.
  intros Hfix Hraise. unfold _filter_document_metadata.
  destruct available; simpl; [|reflexivity].
  destruct (lib documents) as [d'|] eqn:E.
  - rewrite (Hfix _ _ E). reflexivity.
  - rewrite (Hraise _ E), map_map. apply map_ext.
    intros doc. apply sanitize_document_idempotent.
Qed.




(** ** Search *)

Lemma Qle_bool_false (x y : Q) : Qle_bool x y = false <-> (y < x)%Q.
Proof.
  split.
  - intros E. apply Qnot_le_lt. intros H. apply Qle_bool_iff in H. congruence.
  - intros H. destruct (Qle_bool x y) eqn:E; [|reflexivity].
    apply Qle_bool_iff in E. exfalso. exact (Qlt_not_le _ _ H E).
Qed.

#[local] Set Warnings "-inexact-float".

(** The thresholds of [_get_relevance_level]: the doubles nearest to
    0.3, 0.5, 0.7 and 0.9. *)
Lemma relevance_thresholds :
  Search.float_value 0.3 = 5404319552844595 # 18014398509481984
  /\ Search.float_value 0.5 = 4503599627370496 # 9007199254740992
  /\ Search.float_value 0.7 = 6305039478318694 # 9007199254740992
  /\ Search.float_value 0.9 = 8106479329266893 # 9007199254740992.
Proof. vm_compute. auto. Qed.

Lemma threshold_0_3_le : (Search.float_value 0.3 <= 3 # 10)%Q.
Proof. vm_compute. discriminate. Qed.

(** C8.  The relevance band of a raw distance score [s] is Very High when
    [s <= 0.3], High when [0.3 < s <= 0.5], Medium when [0.5 < s <= 0.7],
    Low when [0.7 < s <= 0.9] and Very Low otherwise, where [s] is a
    finite float and 0.3, 0.5, 0.7 and 0.9 are the floats the source
    writes: the comparisons are those of Python, so that the score that
    is the float 0.9 is in the band Low. *)
Theorem relevance_bands (s : Q) :
  ((s <= Search.float_value 0.3)%Q
   /\ Search._get_relevance_level s = "Very High")
  \/ ((Search.float_value 0.3 < s)%Q /\ (s <= Search.float_value 0.5)%Q
      /\ Search._get_relevance_level s = "High")
  \/ ((Search.float_value 0.5 < s)%Q /\ (s <= Search.float_value 0.7)%Q
      /\ Search._get_relevance_level s = "Medium")
  \/ ((Search.float_value 0.7 < s)%Q /\ (s <= Search.float_value 0.9)%Q
      /\ Search._get_relevance_level s = "Low")
  \/ ((Search.float_value 0.9 < s)%Q
      /\ Search._get_relevance_level s = "Very Low").
Proof.
  unfold Search._get_relevance_level.
  destruct (Qle_bool s (Search.float_value 0.3)) eqn:E3.
  { left. split; [now apply Qle_bool_iff|reflexivity]. }
  apply Qle_bool_false in E3. right.
  destruct (Qle_bool s (Search.float_value 0.5)) eqn:E5.
  { left. repeat split; [exact E3|now apply Qle_bool_iff]. }
  apply Qle_bool_false in E5. right.
  destruct (Qle_bool s (Search.float_value 0.7)) eqn:E7.
  { left. repeat split; [exact E5|now apply Qle_bool_iff]. }
  apply Qle_bool_false in E7. right.
  destruct (Qle_bool s (Search.float_value 0.9)) eqn:E9.
  { left. repeat split; [exact E7|now apply Qle_bool_iff]. }
  apply Qle_bool_false in E9. right. split; [exact E9|reflexivity].
Qed.

(** The score that is the float 0.9 lies above the decimal 9/10 and is in
    the band Low, as [0.9 <= 0.9] holds in Python. *)
Lemma relevance_of_float_0_9 :
  (9 # 10 < Search.float_value 0.9)%Q
  /\ Search._get_relevance_level (Search.float_value 0.9) = "Low".
Proof. split; vm_compute; reflexivity. Qed.

Section SearchProperties.

Context {FormattedMetadata Display : Type}.
Variable fmt : list (string * MetaValue) -> Result FormattedMetadata.
Variable fd : Search.RawResult FormattedMetadata -> Result Display.
Variable round4 : Q -> Q.

(** Every entry of the output list carries the band of the raw score of
    the hit it was built from. *)
Lemma format_results_bands (rs : list (Search.RawResult FormattedMetadata))
    (frs : list (Search.FormattedResult Display)) :
  Search.format_results FormattedMetadata Display fd round4 rs = Returned frs ->
  Forall2 (fun r fr =>
             Search.relevance_level Display fr
             = Search._get_relevance_level (Search.similarity_score _ r))
    rs frs.
Proof.
  revert frs. induction rs as [|r rs IH]; intros frs; simpl.
  - intros [= <-]. constructor.
  - destruct (fd r) as [d|e]; [|discriminate].
    destruct (Search.format_results _ _ fd round4 rs) as [frs'|e]; [|discriminate].
    intros [= <-]. constructor; [reflexivity|]. apply IH. reflexivity.
Qed.

End SearchProperties.

(** C7, counterexample.  Searching when no index exists goes through the
    generic exception handler of [forward]: the tool result carries an
    error, exactly as when the index directory cannot be opened. *)
Lemma search_without_index_is_an_error :
  Search.error unit (Examples.plain_forward Examples.no_index_env "query" 5)
  = Some "Error searching documents: No vector database found. Please index documents first."
  /\ Search.error unit (Examples.plain_forward Examples.no_index_env "query" 5)
     <> None
  /\ Search.error unit
       (Examples.plain_forward Examples.unreadable_index_env "query" 5)
     = Some "Error searching documents: Could not load vector database: file is not a database".
Proof. repeat split. discriminate. Qed.

(** C7, as amended.  When no index exists (no loaded store and no index
    directory), [forward] returns the error result built by its exception
    handler, with the message of the [ValueError] raised by
    [search_documents], an empty result list and count 0.  When the index
    can be queried and returns no hit, [forward] returns a result without
    error: an empty result list, count 0 and a message that nothing was
    found. *)
Theorem search_no_index_and_zero_hits
    (FormattedMetadata Display : Type)
    (fmt : list (string * MetaValue) -> Result FormattedMetadata)
    (fd : Search.RawResult FormattedMetadata -> Result Display)
    (round4 : Q -> Q)
    (env : Search.SearchEnv) (query : string) (k : Z) :
  (Search.vectorstore_loaded env = false ->
   Search.db_path_exists env = false ->
   Search.forward FormattedMetadata fmt Display fd round4 env query k
   = {| Search.output :=
          Some {| Search.query_text := query;
                  Search.results := [];
                  Search.results_count := 0;
                  Search.output_message := None;
                  Search.error_details :=
                    Some "Error searching documents: No vector database found. Please index documents first." |};
        Search.error :=
          Some "Error searching documents: No vector database found. Please index documents first." |})
  /\ (Search.vectorstore_loaded env = true
      \/ (Search.db_path_exists env = true
          /\ Search.chroma_open_error env = None) ->
      Search.similarity_search_with_score env query k = Returned [] ->
      Search.forward FormattedMetadata fmt Display fd round4 env query k
      = {| Search.output :=
             Some {| Search.query_text := query;
                     Search.results := [];
                     Search.results_count := 0;
                     Search.output_message :=
                       Some "No relevant documents found in the indexed collection";
                     Search.error_details := None |};
           Search.error := None |}).
Proof.
  split.
  - intros Hl He. unfold Search.forward, Search.search_documents.
    rewrite Hl, He. reflexivity.
  - intros Hopen Hs. unfold Search.forward, Search.search_documents.
    rewrite Hs.
    destruct Hopen as [Hl|[He Hc]].
    + rewrite Hl. reflexivity.
    + rewrite He, Hc. destruct (Search.vectorstore_loaded env); reflexivity.
Qed.

(** The amended C7 at the two example environments. *)
Lemma search_no_index_and_zero_hits_witness :
  Examples.plain_forward Examples.no_index_env "query" 5
  = Search.error_result unit "query"
      "No vector database found. Please index documents first."
  /\ Search.error unit (Examples.plain_forward Examples.empty_index_env "query" 5)
     = None.
Proof.
  split.
  - apply (proj1 (search_no_index_and_zero_hits unit unit
                    (fun _ => Returned tt) (fun _ => Returned tt)
                    (fun score => score) Examples.no_index_env "query" 5));
      reflexivity.
  - unfold Examples.plain_forward.
    rewrite (proj2 (search_no_index_and_zero_hits unit unit
                      (fun _ => Returned tt) (fun _ => Returned tt)
                      (fun score => score) Examples.empty_index_env "query" 5));
      [reflexivity|left; reflexivity|reflexivity].
Defined.

(** ** The executor *)

Section ExecutorProperties.

Context {Svc : Type}.
Variable call : Svc -> IndexOp -> list Document -> Svc * option string.
Variable sanitize : list Document -> list Document.

Lemma attempt_loop_metadata_errors
    (self : World -> list Document -> World * option bool)
    (n : nat) (attempt : Z) (w : World) (batch_chunks : list Document) :
  always_metadata_error call ->
  exists w',
    attempt_loop call sanitize self n attempt w batch_chunks = (w', Some false)
    /\ submitted w' = submitted w ++ resubmissions sanitize n batch_chunks
    /\ slept w' = slept w
    /\ chroma_store w' = chroma_store w.
Proof.
  intros H. revert attempt w batch_chunks.
  induction n as [|n IH]; intros attempt w batch_chunks.
  - exists w. simpl. rewrite app_nil_r. auto.
  - cbn [attempt_loop resubmissions]. unfold try_submit.
    destruct (H (service w)
                (if vectorstore_set w then AddDocuments else FromDocuments)
                batch_chunks) as (s' & msg & Hc & Hm).
    rewrite Hc, Hm.
    match goal with
    | |- context [attempt_loop _ _ _ n ?a ?w1 ?b] =>
        destruct (IH a w1 b) as (w' & E & Hs & Hsl & Hch)
    end.
    exists w'. rewrite E. simpl in Hs, Hsl, Hch.
    rewrite Hs, <- app_assoc. auto.
Qed.

Lemma process_sub_batches_no_submission
    (self : @World Svc -> list Document -> @World Svc * option bool)
    (w : @World Svc) (sub_batches : list (list Document)) :
  (forall w0 b, submitted (fst (self w0 b)) = submitted w0) ->
  submitted (fst (process_sub_batches self w sub_batches)) = submitted w.
Proof.
  intros Hself. revert w.
  induction sub_batches as [|b rest IH]; intros w; simpl; [reflexivity|].
  pose proof (Hself w b) as Hb.
  destruct (self w b) as [w' [[|]|]]; simpl in *; try exact Hb.
  rewrite IH. exact Hb.
Qed.

(** The retry loop hands at most [remaining] batches to the service by
    itself, whatever the service answers. *)
Lemma attempt_loop_own_submissions
    (self : World -> list Document -> World * option bool)
    (n : nat) (attempt : Z) (w : World) (batch_chunks : list Document) :
  (forall w0 b, submitted (fst (self w0 b)) = submitted w0) ->
  (length (submitted (fst (attempt_loop call sanitize self n attempt w
                             batch_chunks)))
   <= length (submitted w) + n)%nat.
Proof.
  intros Hself. revert attempt w batch_chunks.
  induction n as [|n IH]; intros attempt w batch_chunks.
  - simpl. lia.
  - cbn [attempt_loop]. unfold try_submit.
    destruct (call (service w)
                (if vectorstore_set w then AddDocuments else FromDocuments)
                batch_chunks) as [s' [msg|]].
    + destruct (str_contains "Expected metadata value to be" msg).
      { match goal with
        | |- context [attempt_loop _ _ _ n ?a ?w1 ?b] =>
            specialize (IH a w1 b)
        end.
        simpl in IH. rewrite length_app in IH. simpl in IH. lia. }
      destruct (str_contains "max_tokens_per_request" msg).
      { destruct (bool_decide (length batch_chunks <= 1)%nat).
        { simpl. rewrite length_app. simpl. lia. }
        destruct (_split_batch_intelligently batch_chunks token_ceiling)
          as [|sub subs].
        { simpl. rewrite length_app. simpl. lia. }
        rewrite process_sub_batches_no_submission by exact Hself.
        simpl. rewrite length_app. simpl. lia. }
      match goal with
      | |- context [attempt_loop _ _ _ n ?a ?w1 ?b] =>
          specialize (IH a w1 b)
      end.
      destruct (bool_decide (attempt < max_attempts));
        simpl in IH; rewrite length_app in IH; simpl in IH; lia.
    + simpl. rewrite length_app. simpl. lia.
Qed.

End ExecutorProperties.

(** C5, counterexample.  Four transient failures followed by a success
    stay within the budget of five attempts, but the same script preceded
    by one metadata failure ends in failure after five submissions: the
    sanitize-and-retry used up one attempt, and the sixth answer of the
    service is never asked for. *)
Lemma metadata_retry_uses_an_attempt :
  snd (_process_single_batch_with_splitting Examples.scripted
         Examples.manual_sanitizer 3
         (Examples.fresh_world
            [Some Examples.transient_error; Some Examples.transient_error;
             Some Examples.transient_error; Some Examples.transient_error;
             None])
         Examples.two_small_chunks) = Some true
  /\ snd (_process_single_batch_with_splitting Examples.scripted
            Examples.manual_sanitizer 3
            (Examples.fresh_world
               [Some Examples.metadata_error;
                Some Examples.transient_error; Some Examples.transient_error;
                Some Examples.transient_error; Some Examples.transient_error;
                None])
            Examples.two_small_chunks) = Some false
  /\ length (submitted
       (fst (_process_single_batch_with_splitting Examples.scripted
               Examples.manual_sanitizer 3
               (Examples.fresh_world
                  [Some Examples.metadata_error;
                   Some Examples.transient_error; Some Examples.transient_error;
                   Some Examples.transient_error; Some Examples.transient_error;
                   None])
               Examples.two_small_chunks))) = 5%nat.
Proof. vm_compute. auto. Qed.

(** C5, as amended.  When a submission fails with a metadata-serialization
    error the executor filters the batch again and retries at once, without
    any backoff sleep, and the retry counts as one of the five attempts of
    the budget it shares with the transient failures.  For every service,
    whatever it answers, the retry loop of one invocation hands at most
    five batches to it by itself (the count at depth 1, where no nested
    invocation runs), metadata failures and transient failures together;
    and after a first answer that is a metadata error the invocation goes
    on with the filtered batch as attempt 2, with four attempts left and
    no sleep.  Against a service that keeps answering with that error,
    the batch is submitted five times in all (each time filtered once
    more), nothing is committed, and the invocation reports failure. *)
Theorem metadata_retry_consumes_budget {Svc : Type}
    (call : Svc -> IndexOp -> list Document -> Svc * option string)
    (sanitize : list Document -> list Document)
    (depth : nat) (w : World) (batch_chunks : list Document) :
  (length (submitted
             (fst (_process_single_batch_with_splitting call sanitize 1 w
                     batch_chunks)))
   <= length (submitted w) + 5)%nat
  /\ (forall s' msg,
        call (service w)
          (if vectorstore_set w then AddDocuments else FromDocuments)
          batch_chunks = (s', Some msg) ->
        str_contains "Expected metadata value to be" msg = true ->
        _process_single_batch_with_splitting call sanitize (S depth) w
          batch_chunks
        = attempt_loop call sanitize
            (_process_single_batch_with_splitting call sanitize depth)
            4 2
            {| service := s';
               chroma_store := chroma_store w;
               vectorstore_set := vectorstore_set w;
               metadata_json := metadata_json w;
               submitted := submitted w ++ [batch_chunks];
               slept := slept w |}
            (sanitize batch_chunks))
  /\ (always_metadata_error call ->
      snd (_process_single_batch_with_splitting call sanitize (S depth) w
             batch_chunks)
      = Some false
      /\ submitted
           (fst (_process_single_batch_with_splitting call sanitize (S depth) w
                   batch_chunks))
         = submitted w
           ++ [batch_chunks;
               sanitize batch_chunks;
               sanitize (sanitize batch_chunks);
               sanitize (sanitize (sanitize batch_chunks));
               sanitize (sanitize (sanitize (sanitize batch_chunks)))]
      /\ slept
           (fst (_process_single_batch_with_splitting call sanitize (S depth) w
                   batch_chunks))
         = slept w
      /\ chroma_store
           (fst (_process_single_batch_with_splitting call sanitize (S depth) w
                   batch_chunks))
         = chroma_store w).
Proof.
  split.
  { apply (attempt_loop_own_submissions call sanitize
             (_process_single_batch_with_splitting call sanitize 0)
             5 1 w batch_chunks).
    reflexivity. }
  split.
  { intros s' msg Hcall Hmeta.
    cbn [_process_single_batch_with_splitting].
    change (Z.to_nat max_attempts) with 5%nat.
    cbn [attempt_loop]. unfold try_submit. rewrite Hcall, Hmeta.
    reflexivity. }
  intros H.
  cbn [_process_single_batch_with_splitting].
  destruct (attempt_loop_metadata_errors call sanitize
              (_process_single_batch_with_splitting call sanitize depth)
              (Z.to_nat max_attempts) 1 w batch_chunks H)
    as (w' & E & Hs & Hsl & Hch).
  rewrite E. simpl. auto.
Qed.

(** The amended C5 at a service that always reports a metadata error. *)
Lemma metadata_retry_consumes_budget_witness :
  snd (_process_single_batch_with_splitting Examples.rejecting_metadata
         Examples.manual_sanitizer 1 (Examples.fresh_world tt)
         Examples.two_small_chunks) = Some false.
Proof.
  apply (proj2 (proj2 (metadata_retry_consumes_budget
                         Examples.rejecting_metadata
                         Examples.manual_sanitizer 0 (Examples.fresh_world tt)
                         Examples.two_small_chunks))).
  intros s op b. exists tt, Examples.metadata_error. split; reflexivity.
Defined.

(** The bound on the submissions of one retry loop holds for every
    service. *)
Lemma own_submissions_bounded {Svc : Type}
    (call : Svc -> IndexOp -> list Document -> Svc * option string)
    (sanitize : list Document -> list Document)
    (w : World) (batch_chunks : list Document) :
  (length (submitted
             (fst (_process_single_batch_with_splitting call sanitize 1 w
                     batch_chunks)))
   <= length (submitted w) + 5)%nat.
Proof.
  apply (attempt_loop_own_submissions call sanitize
           (_process_single_batch_with_splitting call sanitize 0)
           5 1 w batch_chunks).
  reflexivity.
Qed.

(** *** A batch the splitter cannot shrink *)

(** The two small chunks are estimated far below the safe limit, so the
    splitter returns them as one sub-batch. *)
Lemma split_two_small_chunks :
  _split_batch_intelligently Examples.two_small_chunks token_ceiling
  = [Examples.two_small_chunks].
Proof. vm_compute. reflexivity. Qed.

Lemma attempt_loop_overflow_step
    (self : World -> list Document -> World * option bool)
    (n : nat) (attempt : Z) (w : @World unit) :
  attempt_loop Examples.one_chunk_only Examples.manual_sanitizer self
    (S n) attempt w Examples.two_small_chunks
  = process_sub_batches self
      {| service := tt;
         chroma_store := chroma_store w;
         vectorstore_set := vectorstore_set w;
         metadata_json := metadata_json w;
         submitted := submitted w ++ [Examples.two_small_chunks];
         slept := slept w |}
      [Examples.two_small_chunks].
Proof. reflexivity. Qed.

(** C4 fails on the code.  Against a service that rejects every request
    of more than one chunk as over the token ceiling, a batch of two small
    chunks is split into itself and submitted again at every level of the
    recursion: whatever call depth is available, the invocation uses it up
    without committing or abandoning anything. *)
Theorem overflow_recursion_never_returns (depth : nat) (w : @World unit) :
  snd (_process_single_batch_with_splitting Examples.one_chunk_only
         Examples.manual_sanitizer depth w Examples.two_small_chunks) = None
  /\ submitted
       (fst (_process_single_batch_with_splitting Examples.one_chunk_only
               Examples.manual_sanitizer depth w Examples.two_small_chunks))
     = submitted w ++ repeat Examples.two_small_chunks depth
  /\ chroma_store
       (fst (_process_single_batch_with_splitting Examples.one_chunk_only
               Examples.manual_sanitizer depth w Examples.two_small_chunks))
     = chroma_store w.
Proof.
  revert w. induction depth as [|depth IH]; intros w.
  - simpl. rewrite app_nil_r. auto.
  - cbn [_process_single_batch_with_splitting].
    change (Z.to_nat max_attempts) with 5%nat.
    rewrite attempt_loop_overflow_step. cbn [process_sub_batches].
    match goal with
    | |- context [_process_single_batch_with_splitting _ _ depth ?w1 _] =>
        destruct (IH w1) as (Hr & Hs & Hc);
        destruct (_process_single_batch_with_splitting
                    Examples.one_chunk_only Examples.manual_sanitizer
                    depth w1 Examples.two_small_chunks) as [w' r]
    end.
    simpl in Hr, Hs, Hc. subst r. simpl.
    rewrite Hs, <- app_assoc. auto.
Qed.

Lemma metadata_size_nonneg (m : list (string * MetaValue)) : 0 <= metadata_size m.
Proof. unfold metadata_size. induction m as [|kv m IH]; simpl; lia. Qed.

Lemma chunk_total_tokens_nonneg (chunk : Document) : 0 <= chunk_total_tokens chunk.
Proof.
  unfold chunk_total_tokens.
  pose proof (_estimate_tokens_nonneg (page_content chunk)).
  pose proof (metadata_size_nonneg (metadata chunk)).
  assert (0 <= metadata_size (metadata chunk) / 3) by (apply Z.div_pos; lia).
  lia.
Qed.





Section OverflowRecursion.

Context {Svc : Type}.
Variable call : Svc -> IndexOp -> list Document -> Svc * option string.
Variable sanitize : list Document -> list Document.
Variable batch_chunks : list Document.

Hypothesis two_or_more : (2 <= length batch_chunks)%nat.
Hypothesis estimated_small :
  batch_tokens batch_chunks <= safe_limit_of token_ceiling.
Hypothesis service_reports_overflow :
  forall s op, exists s' msg,
    call s op batch_chunks = (s', Some msg)
    /\ str_contains "Expected metadata value to be" msg = false
    /\ str_contains "max_tokens_per_request" msg = true.


End OverflowRecursion.

(** ** Planned batches *)

Lemma Forall_bound_map {A} (f : A -> Z) (bound : Z) (l : list A) :
  Forall (fun x => f x <= bound) l -> Forall (fun t => t <= bound) (map f l).
Proof. induction 1; simpl; constructor; assumption. Qed.

Lemma five_large_chunks_estimates :
  map chunk_total_tokens Examples.five_large_chunks
  = [100075; 100075; 100075; 100075; 100075].
Proof. vm_compute. reflexivity. Qed.

Lemma five_large_chunks_requests :
  map batch_tokens
    (submitted
       (fst (_process_chunks_in_batches Examples.estimate_guard
               Examples.manual_sanitizer 3 (Examples.fresh_world tt)
               Examples.five_large_chunks)))
  = [500375; 100075; 100075; 100075; 100075; 100075].
Proof. vm_compute. reflexivity. Qed.

Lemma five_large_chunks_accepted :
  map batch_tokens
    (submitted
       (fst (_process_chunks_in_batches Examples.accepting
               Examples.manual_sanitizer 3 (Examples.fresh_world tt)
               Examples.five_large_chunks)))
  = [500375]
  /\ option_map (map chunk_total_tokens)
       (chroma_store
          (fst (_process_chunks_in_batches Examples.accepting
                  Examples.manual_sanitizer 3 (Examples.fresh_world tt)
                  Examples.five_large_chunks)))
     = Some [100075; 100075; 100075; 100075; 100075].
Proof. vm_compute. split; reflexivity. Qed.

(** C3, counterexample.  Five chunks of 300000 characters are each
    estimated at 100075 tokens, below the ceiling of 250000.  The adaptive
    batch size is clamped up to 5, so the first request holds all five
    chunks, 500375 estimated tokens.  A service that accepts it commits
    the five chunks in that one request; with a service that enforces the
    ceiling, only after the rejection are the chunks submitted one by
    one. *)
Lemma planned_batch_exceeds_ceiling :
  Forall (fun t => t < token_ceiling)
    (map chunk_total_tokens Examples.five_large_chunks)
  /\ _calculate_adaptive_batch_size Examples.five_large_chunks token_ceiling
     = Returned 5
  /\ ~ Forall (fun batch => batch_tokens batch <= token_ceiling)
       (submitted
          (fst (_process_chunks_in_batches Examples.estimate_guard
                  Examples.manual_sanitizer 3 (Examples.fresh_world tt)
                  Examples.five_large_chunks)))
  /\ ~ Forall (fun batch => batch_tokens batch <= token_ceiling)
       (submitted
          (fst (_process_chunks_in_batches Examples.accepting
                  Examples.manual_sanitizer 3 (Examples.fresh_world tt)
                  Examples.five_large_chunks))).
Proof.
  split; [|split; [|split]].
  - rewrite five_large_chunks_estimates. unfold token_ceiling.
    repeat constructor.
  - vm_compute. reflexivity.
  - intros Hall. apply Forall_bound_map in Hall.
    rewrite five_large_chunks_requests in Hall.
    inversion Hall as [|t ts Hbad _]. unfold token_ceiling in Hbad. lia.
  - intros Hall. apply Forall_bound_map in Hall.
    rewrite (proj1 five_large_chunks_accepted) in Hall.
    inversion Hall as [|t ts Hbad _]. unfold token_ceiling in Hbad. lia.
Qed.

(** The amended C3 at three small chunks and a limit of 100 tokens. *)
Lemma split_sub_batches_fit_witness :
  Forall (fun sub_batch =>
            batch_tokens sub_batch <= 100
            /\ (batch_tokens sub_batch <= safe_limit_of 100
                \/ length sub_batch = 1%nat))
    (_split_batch_intelligently Examples.three_small_chunks 100).
Proof.
  apply (split_sub_batches_fit Examples.three_small_chunks 100).
  - lia.
  - repeat constructor; vm_compute; discriminate.
Defined.

(** ** Incremental indexing *)

(** The record built by [from_file_path] never carries the content hash:
    a file whose record was stored by [index_directory] is selected for
    processing again whenever its content can be hashed. *)
Lemma stored_record_never_matches_hash
    (stored : gmap string DocumentMetadata) (now : string) (f : FileEntry)
    (digest : string) :
  content_md5 f = Some digest ->
  digest <> "" ->
  needs_processing (<[path_str f := from_file_path now f]> stored) f = true.
Proof.
  intros Hd Hne. unfold needs_processing, _get_file_hash.
  rewrite lookup_insert_eq, Hd. simpl.
  apply negb_true_iff, bool_decide_eq_false. congruence.
Qed.

(** C1 fails on the code.  A directory with one readable text file is
    indexed from scratch with a service that accepts every request; the
    run completes and stores a record whose hash is the empty string.  A
    second run on the unchanged directory selects the file again: it
    reports one processed file, sends one more request to the embedding
    service, and replaces the stored record. *)
Theorem unchanged_directory_is_processed_again :
  let run1 :=
    index_directory Examples.accepting Examples.manual_sanitizer
      Examples.one_chunk_per_document 3 "2025-02-02T00:00:00+00:00"
      (Examples.fresh_world tt) Examples.hello_directory in
  let run2 :=
    index_directory Examples.accepting Examples.manual_sanitizer
      Examples.one_chunk_per_document 3 "2025-02-03T00:00:00+00:00"
      (fst run1) Examples.hello_directory in
  option_map status (snd run1) = Some completed
  /\ option_map file_hash
       (mbind (fun m : gmap string DocumentMetadata => m !! "docs/a.txt")
          (metadata_json (fst run1))) = Some ""
  /\ option_map files_processed (snd run2) = Some 1
  /\ length (submitted (fst run1)) = 1%nat
  /\ length (submitted (fst run2)) = 2%nat
  /\ option_map indexed_at
       (mbind (fun m : gmap string DocumentMetadata => m !! "docs/a.txt")
          (metadata_json (fst run1))) = Some "2025-02-02T00:00:00+00:00"
  /\ option_map indexed_at
       (mbind (fun m : gmap string DocumentMetadata => m !! "docs/a.txt")
          (metadata_json (fst run2))) = Some "2025-02-03T00:00:00+00:00".
Proof. vm_compute. repeat split. Qed.

(** C2 fails on the code.  Two documents are indexed from scratch; the
    service accepts the first planned batch (the five pages of [a.pdf]) and
    then fails on the second one (the page of [b.pdf]).  The run ends as
    partial, the index holds chunks of [a.pdf] only, and the Metadata Store
    is saved with a record for [b.pdf] as well. *)
Lemma partial_failure_records_uncommitted_file :
  let run :=
    index_directory Examples.scripted Examples.manual_sanitizer
      Examples.one_chunk_per_document 3 "2025-02-02T00:00:00+00:00"
      (Examples.fresh_world Examples.accept_once_then_fail)
      Examples.two_pdf_directory in
  option_map status (snd run) = Some partial
  /\ Examples.stored_sources (fst run)
     = [Some (MStr "docs/a.pdf"); Some (MStr "docs/a.pdf");
        Some (MStr "docs/a.pdf"); Some (MStr "docs/a.pdf");
        Some (MStr "docs/a.pdf")]
  /\ option_map file_name
       (mbind (fun m : gmap string DocumentMetadata => m !! "docs/b.pdf")
          (metadata_json (fst run))) = Some "b.pdf".
Proof. vm_compute. repeat split. Qed.

Section LoadLoop.

Variable now : string.

Lemma load_step_keeps
    (st : list Document * gmap string DocumentMetadata * Z) (f : FileEntry)
    (p : string) :
  is_Some (snd (fst st) !! p) ->
  is_Some (snd (fst (load_step now st f)) !! p).
Proof.
  destruct st as [[all stored] n]. unfold load_step. simpl. intros Hp.
  destruct (_load_single_document now f) as [[|d ds]|e]; simpl; try exact Hp.
  destruct (decide (path_str f = p)) as [->|Hne].
  - rewrite lookup_insert_eq. eauto.
  - rewrite lookup_insert_ne by exact Hne. exact Hp.
Qed.

Lemma load_step_records
    (st : list Document * gmap string DocumentMetadata * Z) (f : FileEntry)
    (d : Document) (ds : list Document) :
  _load_single_document now f = Returned (d :: ds) ->
  snd (fst (load_step now st f)) !! path_str f = Some (from_file_path now f).
Proof.
  destruct st as [[all stored] n]. unfold load_step. intros ->. simpl.
  apply lookup_insert_eq.
Qed.

Lemma load_loop_keeps (files : list FileEntry)
    (st : list Document * gmap string DocumentMetadata * Z) (p : string) :
  is_Some (snd (fst st) !! p) ->
  is_Some (snd (fst (fold_left (load_step now) files st)) !! p).
Proof.
  revert st. induction files as [|f files IH]; intros st Hp; simpl.
  - exact Hp.
  - apply IH, load_step_keeps, Hp.
Qed.

Lemma load_loop_records (files : list FileEntry)
    (st : list Document * gmap string DocumentMetadata * Z) (f : FileEntry)
    (d : Document) (ds : list Document) :
  f ∈ files ->
  _load_single_document now f = Returned (d :: ds) ->
  is_Some (snd (fst (fold_left (load_step now) files st)) !! path_str f).
Proof.
  revert st. induction files as [|f' files IH]; intros st Hin Hl.
  - inversion Hin.
  - simpl. apply elem_of_cons in Hin as [<-|Hin].
    + apply load_loop_keeps. erewrite load_step_records by exact Hl. eauto.
    + apply IH; assumption.
Qed.

End LoadLoop.

(** What the branch for a failed batch run does in general.  Whenever a
    run of [index_directory] ends as partial (a planned batch failed for
    good after at least one planned batch had been committed), the Metadata
    Store is saved, and the saved mapping has a record for every file
    selected for processing whose loader returned documents, whether or not
    the chunks of that file were committed. *)
Theorem partial_failure_saves_every_loaded_file {Svc : Type}
    (call : Svc -> IndexOp -> list Document -> Svc * option string)
    (sanitize split_documents : list Document -> list Document)
    (depth : nat) (now : string) (w w' : World) (directory : list FileEntry)
    (res : IndexResult) :
  index_directory call sanitize split_documents depth now w directory
  = (w', Some res) ->
  status res = partial ->
  exists saved,
    metadata_json w' = Some saved
    /\ forall f d ds,
         f ∈ _scan_directory directory ->
         needs_processing (_load_metadata w) f = true ->
         _load_single_document now f = Returned (d :: ds) ->
         is_Some (saved !! path_str f).
Proof.
  unfold index_directory. intros Hrun Hpartial.
  destruct (_scan_directory directory) as [|f0 files] eqn:Escan.
  { injection Hrun as _ <-. discriminate. }
  set (to_process := filter _ (f0 :: files)) in Hrun.
  assert (Hsel : forall f, f ∈ f0 :: files ->
                   needs_processing (_load_metadata w) f = true ->
                   f ∈ to_process).
  { intros f Hin Hn. apply list_elem_of_filter. split; assumption. }
  destruct to_process as [|f1 rest] eqn:Eproc.
  { injection Hrun as _ <-. discriminate. }
  destruct (fold_left (load_step now) (f1 :: rest) ([], _load_metadata w, 0))
    as [[all stored] n] eqn:Eload.
  destruct all as [|doc all].
  { injection Hrun as _ <-. discriminate. }
  destruct (_process_chunks_in_batches call sanitize depth w
              (split_documents (doc :: all))) as [w1 [[br|e]|]];
    [| injection Hrun as _ <-; discriminate | discriminate].
  destruct (negb (success br)).
  - destruct (bool_decide (default 0 (chunks_processed br) > 0)) eqn:Ec.
    + injection Hrun as <- <-. exists stored. split; [reflexivity|].
      intros f d ds Hin Hn Hl.
      pose proof (load_loop_records now (f1 :: rest)
                    ([], _load_metadata w, 0) f d ds (Hsel f Hin Hn) Hl) as H.
      rewrite Eload in H. exact H.
    + injection Hrun as _ <-. simpl in Hpartial. discriminate.
  - injection Hrun as _ <-. discriminate.
Qed.

(** The general statement at the run on the two documents. *)
Lemma partial_failure_saves_every_loaded_file_witness :
  exists saved,
    metadata_json
      (fst (index_directory Examples.scripted Examples.manual_sanitizer
              Examples.one_chunk_per_document 3 "2025-02-02T00:00:00+00:00"
              (Examples.fresh_world Examples.accept_once_then_fail)
              Examples.two_pdf_directory)) = Some saved
    /\ forall f d ds,
         f ∈ _scan_directory Examples.two_pdf_directory ->
         needs_processing
           (_load_metadata (Examples.fresh_world Examples.accept_once_then_fail))
           f = true ->
         _load_single_document "2025-02-02T00:00:00+00:00" f
         = Returned (d :: ds) ->
         is_Some (saved !! path_str f).
Proof.
  destruct (index_directory Examples.scripted Examples.manual_sanitizer
              Examples.one_chunk_per_document 3 "2025-02-02T00:00:00+00:00"
              (Examples.fresh_world Examples.accept_once_then_fail)
              Examples.two_pdf_directory) as [w' [res|]] eqn:Erun.
  - simpl.
    apply (partial_failure_saves_every_loaded_file Examples.scripted
             Examples.manual_sanitizer Examples.one_chunk_per_document
             3 "2025-02-02T00:00:00+00:00"
             (Examples.fresh_world Examples.accept_once_then_fail) w'
             Examples.two_pdf_directory res Erun).
    assert (Hs : option_map status
                   (snd (index_directory Examples.scripted
                           Examples.manual_sanitizer
                           Examples.one_chunk_per_document 3
                           "2025-02-02T00:00:00+00:00"
                           (Examples.fresh_world Examples.accept_once_then_fail)
                           Examples.two_pdf_directory)) = Some partial)
      by (vm_compute; reflexivity).
    rewrite Erun in Hs. simpl in Hs. congruence.
  - exfalso.
    assert (Hs : option_map status
                   (snd (index_directory Examples.scripted
                           Examples.manual_sanitizer
                           Examples.one_chunk_per_document 3
                           "2025-02-02T00:00:00+00:00"
                           (Examples.fresh_world Examples.accept_once_then_fail)
                           Examples.two_pdf_directory)) = Some partial)
      by (vm_compute; reflexivity).
    rewrite Erun in Hs. discriminate.
Defined.


(** The stored record of the example file never matches its hash. *)
Lemma stored_record_never_matches_hash_witness :
  Forall (fun f =>
            needs_processing
              (<[path_str f := from_file_path "2025-02-02T00:00:00+00:00" f]> ∅)
              f = true)
    Examples.hello_directory.
Proof.
  constructor; [|constructor].
  apply (stored_record_never_matches_hash ∅ "2025-02-02T00:00:00+00:00" _
           "5d41402abc4b2a76b9719d911017c592").
  - reflexivity.
  - discriminate.
Defined.

(** Idempotence of the manager's filter when langchain's filter raises. *)
Lemma filter_document_metadata_idempotent_witness :
  Examples.manual_sanitizer (Examples.manual_sanitizer Examples.hello_documents)
  = Examples.manual_sanitizer Examples.hello_documents.
Proof.
  apply (filter_document_metadata_idempotent true (fun _ => None)
           Examples.hello_documents).
  - intros d d' E. discriminate.
  - intros d _. reflexivity.
Defined.

(** * Further properties of the code *)

(** ** The splitter makes progress above the safe limit *)

Lemma concat_length_pos (ls : list (list Document)) :
  ls <> [] -> Forall (fun l => l <> []) ls -> (0 < length (concat ls))%nat.
Proof.
  intros Hne Hall. destruct ls as [|l ls]; [contradiction|].
  apply Forall_cons in Hall as [Hl _]. simpl. rewrite length_app.
  destruct l; [contradiction|simpl; lia].
Qed.

Lemma split_progress (batch_chunks : list Document) (target : Z) :
  (2 <= length batch_chunks)%nat ->
  safe_limit_of target < batch_tokens batch_chunks ->
  (2 <= length (_split_batch_intelligently batch_chunks target))%nat
  /\ Forall (fun sub_batch => (length sub_batch < length batch_chunks)%nat)
       (_split_batch_intelligently batch_chunks target).
Proof.
  intros Hlen Hbig.
  pose proof (split_flatten batch_chunks target) as Hf.
  pose proof (split_no_empty_sub_batch batch_chunks target) as Hne.
  pose proof (split_sub_batches_within batch_chunks target) as Hw.
  set (subs := _split_batch_intelligently batch_chunks target) in *.
  assert (H2 : (2 <= length subs)%nat).
  { destruct subs as [|s [|s' rest]]; simpl in *; try lia.
    - subst batch_chunks. simpl in Hlen. lia.
    - rewrite app_nil_r in Hf. subst s.
      apply Forall_cons in Hw as [[Hw|Hw] _]; lia. }
  split; [exact H2|].
  apply Forall_forall. intros sub Hin.
  apply list_elem_of_split in Hin as (l1 & l2 & Hsplit).
  rewrite Hsplit in Hf, Hne, H2.
  rewrite <- Hf, concat_app. simpl. rewrite !length_app.
  apply Forall_app in Hne as [Hne1 Hne2].
  apply Forall_cons in Hne2 as [_ Hne2].
  rewrite length_app in H2. simpl in H2.
  destruct l1 as [|x l1].
  - destruct l2 as [|y l2]; [simpl in H2; lia|].
    pose proof (concat_length_pos (y :: l2) ltac:(discriminate) Hne2). simpl in *. lia.
  - pose proof (concat_length_pos (x :: l1) ltac:(discriminate) Hne1). lia.
Qed.

(** A batch of two or more chunks whose estimated total exceeds the safe
    limit is cut into at least two sub-batches, each strictly shorter than
    the batch. *)
Theorem split_makes_progress (batch_chunks : list Document) (target : Z) :
  (2 <= length batch_chunks)%nat ->
  safe_limit_of target < batch_tokens batch_chunks ->
  (2 <= length (_split_batch_intelligently batch_chunks target))%nat
  /\ Forall (fun sub_batch => sub_batch <> []
                              /\ (length sub_batch < length batch_chunks)%nat)
       (_split_batch_intelligently batch_chunks target).
Proof.
  intros Hlen Hbig.
  destruct (split_progress batch_chunks target Hlen Hbig) as [H2 Hshort].
  split; [exact H2|].
  pose proof (split_no_empty_sub_batch batch_chunks target) as Hne.
  rewrite Forall_forall in Hne, Hshort. apply Forall_forall.
  intros sub Hin. split; [apply Hne|apply Hshort]; exact Hin.
Qed.

Lemma split_makes_progress_witness :
  (2 <= length (_split_batch_intelligently Examples.three_small_chunks 100))%nat
  /\ Forall (fun sub_batch =>
               sub_batch <> []
               /\ (length sub_batch < length Examples.three_small_chunks)%nat)
       (_split_batch_intelligently Examples.three_small_chunks 100).
Proof.
  apply (split_makes_progress Examples.three_small_chunks 100).
  - simpl. lia.
  - vm_compute. reflexivity.
Defined.

(** ** Termination when overflow is reported only above the safe limit *)

Section Termination.

Context {Svc : Type}.
Variable call : Svc -> IndexOp -> list Document -> Svc * option string.
Variable sanitize : list Document -> list Document.

Hypothesis honest_overflow : overflow_only_above_safe_limit call.
Hypothesis sanitize_length : forall b, length (sanitize b) = length b.

Lemma process_sub_batches_returns
    (self : @World Svc -> list Document -> @World Svc * option bool)
    (sub_batches : list (list Document)) (w : @World Svc) :
  Forall (fun sub => forall w0, snd (self w0 sub) <> None) sub_batches ->
  snd (process_sub_batches self w sub_batches) <> None.
Proof.
  revert w. induction sub_batches as [|sub rest IH]; intros w Hall; simpl.
  - discriminate.
  - apply Forall_cons in Hall as [Hsub Hrest].
    specialize (Hsub w).
    destruct (self w sub) as [w' [[|]|]]; simpl in *;
      [apply IH; exact Hrest|discriminate|contradiction].
Qed.

Lemma attempt_loop_returns
    (self : @World Svc -> list Document -> @World Svc * option bool)
    (bound : nat) (n : nat) (attempt : Z) (w : @World Svc)
    (batch_chunks : list Document) :
  (forall w0 b, (length b < bound)%nat -> (2 <= bound)%nat ->
                snd (self w0 b) <> None) ->
  (length batch_chunks <= bound)%nat ->
  snd (attempt_loop call sanitize self n attempt w batch_chunks) <> None.
Proof.
  intros Hself. revert attempt w batch_chunks.
  induction n as [|n IH]; intros attempt w batch_chunks Hlen.
  - simpl. discriminate.
  - cbn [attempt_loop]. unfold try_submit.
    destruct (call (service w)
                (if vectorstore_set w then AddDocuments else FromDocuments)
                batch_chunks) as [s' [msg|]] eqn:Ecall; [|simpl; discriminate].
    destruct (str_contains "Expected metadata value to be" msg) eqn:Em.
    { apply IH. rewrite sanitize_length. exact Hlen. }
    destruct (str_contains "max_tokens_per_request" msg) eqn:Et;
      [|apply IH; exact Hlen].
    destruct (bool_decide (length batch_chunks <= 1)%nat) eqn:El;
      [simpl; discriminate|].
    apply bool_decide_eq_false in El.
    destruct (honest_overflow _ _ _ _ _ Ecall Em Et) as [Hone|Hbig]; [lia|].
    destruct (split_progress batch_chunks token_ceiling ltac:(lia) Hbig)
      as [_ Hshort].
    destruct (_split_batch_intelligently batch_chunks token_ceiling)
      as [|sub subs]; [simpl; discriminate|].
    apply process_sub_batches_returns.
    eapply Forall_impl; [exact Hshort|].
    intros b Hb w0. simpl in Hb. apply Hself; lia.
Qed.

Lemma process_single_batch_returns (depth : nat) (w : @World Svc)
    (batch_chunks : list Document) :
  (1 <= depth)%nat ->
  (length batch_chunks <= depth)%nat ->
  snd (_process_single_batch_with_splitting call sanitize depth w batch_chunks)
  <> None.
Proof.
  revert w batch_chunks. induction depth as [|depth IH];
    intros w batch_chunks Hpos Hlen; [lia|].
  cbn [_process_single_batch_with_splitting].
  apply (attempt_loop_returns _ (S depth)); [|exact Hlen].
  intros w0 b Hb H2. apply IH; lia.
Qed.

End Termination.

(** Whenever the service reports a token-limit overflow only for
    requests that hold one chunk or are estimated above the safe limit,
    and the filter keeps the number of chunks, an invocation on a batch of
    [n] chunks returns within a call depth of [max 1 n]: the recursion
    stops. *)
Theorem splitting_terminates {Svc : Type}
    (call : Svc -> IndexOp -> list Document -> Svc * option string)
    (sanitize : list Document -> list Document)
    (depth : nat) (w : World) (batch_chunks : list Document) :
  overflow_only_above_safe_limit call ->
  (forall b, length (sanitize b) = length b) ->
  (1 <= depth)%nat ->
  (length batch_chunks <= depth)%nat ->
  exists outcome : bool,
    snd (_process_single_batch_with_splitting call sanitize depth w batch_chunks)
    = Some outcome.
Proof.
  intros Hh Hs Hpos Hlen.
  pose proof (process_single_batch_returns call sanitize Hh Hs depth w
                batch_chunks Hpos Hlen) as Hr.
  destruct (snd (_process_single_batch_with_splitting call sanitize depth w
                   batch_chunks)) as [r|]; [eauto|contradiction].
Qed.

Lemma manual_sanitizer_length (b : list Document) :
  length (Examples.manual_sanitizer b) = length b.
Proof. unfold Examples.manual_sanitizer. simpl. apply length_map. Qed.

Lemma estimate_guard_honest :
  overflow_only_above_safe_limit Examples.estimate_guard.
Proof.
  intros s op b s' msg Hc _ _. unfold Examples.estimate_guard in Hc.
  destruct (bool_decide (batch_tokens b > token_ceiling)) eqn:E;
    [|discriminate].
  apply bool_decide_eq_true in E. right.
  pose proof (safe_limit_le token_ceiling ltac:(unfold token_ceiling; lia)).
  lia.
Qed.

(** A run that splits: the request with all five large chunks is
    refused, the splitter cuts it into five sub-batches of one chunk, and
    each nested invocation is accepted. *)
Lemma five_large_chunks_split_run :
  snd (_process_single_batch_with_splitting Examples.estimate_guard
         Examples.manual_sanitizer 5 (Examples.fresh_world tt)
         Examples.five_large_chunks) = Some true
  /\ map (@length Document)
       (submitted
          (fst (_process_single_batch_with_splitting Examples.estimate_guard
                  Examples.manual_sanitizer 5 (Examples.fresh_world tt)
                  Examples.five_large_chunks)))
     = [5; 1; 1; 1; 1; 1]%nat.
Proof. vm_compute. auto. Qed.

Lemma splitting_terminates_witness :
  (exists outcome : bool,
     snd (_process_single_batch_with_splitting Examples.estimate_guard
            Examples.manual_sanitizer 5 (Examples.fresh_world tt)
            Examples.five_large_chunks) = Some outcome)
  /\ map (@length Document)
       (submitted
          (fst (_process_single_batch_with_splitting Examples.estimate_guard
                  Examples.manual_sanitizer 5 (Examples.fresh_world tt)
                  Examples.five_large_chunks)))
     = [5; 1; 1; 1; 1; 1]%nat.
Proof.
  split; [|exact (proj2 five_large_chunks_split_run)].
  apply (splitting_terminates Examples.estimate_guard
           Examples.manual_sanitizer 5 (Examples.fresh_world tt)
           Examples.five_large_chunks).
  - exact estimate_guard_honest.
  - exact manual_sanitizer_length.
  - lia.
  - unfold Examples.five_large_chunks. cbv zeta. cbn [length]. lia.
Defined.

(** ** Transient failures: retries and backoff *)

Lemma attempt_loop_transient_errors {Svc : Type}
    (call : Svc -> IndexOp -> list Document -> Svc * option string)
    (sanitize : list Document -> list Document)
    (self : @World Svc -> list Document -> @World Svc * option bool)
    (n : nat) (attempt : Z) (w : @World Svc) (batch_chunks : list Document) :
  always_transient_error call ->
  exists w',
    attempt_loop call sanitize self n attempt w batch_chunks = (w', Some false)
    /\ submitted w' = submitted w ++ repeat batch_chunks n
    /\ slept w' = slept w ++ backoff_schedule n attempt
    /\ chroma_store w' = chroma_store w.
Proof.
  intros H. revert attempt w.
  induction n as [|n IH]; intros attempt w.
  - exists w. simpl. rewrite !app_nil_r. auto.
  - cbn [attempt_loop repeat backoff_schedule]. unfold try_submit.
    destruct (H (service w)
                (if vectorstore_set w then AddDocuments else FromDocuments)
                batch_chunks) as (s' & msg & Hc & Hm & Ht).
    rewrite Hc, Hm, Ht.
    match goal with
    | |- context [attempt_loop _ _ _ n ?a ?w1 ?b] =>
        destruct (IH a w1) as (w' & E & Hs & Hsl & Hch)
    end.
    exists w'. rewrite E. split; [reflexivity|].
    unfold max_attempts in *.
    destruct (bool_decide (attempt < 5)); simpl in Hs, Hsl, Hch;
      rewrite Hs, Hsl, <- !app_assoc; auto.
Qed.

(** Against a service that keeps failing with an error that is neither a
    metadata error nor a token-limit error, one invocation submits the same
    batch five times, sleeps 2, 4, 8 and 10 seconds between the attempts
    (and not after the last one), commits nothing and reports failure. *)
Theorem transient_failures_back_off {Svc : Type}
    (call : Svc -> IndexOp -> list Document -> Svc * option string)
    (sanitize : list Document -> list Document)
    (depth : nat) (w : World) (batch_chunks : list Document) :
  always_transient_error call ->
  snd (_process_single_batch_with_splitting call sanitize (S depth) w
         batch_chunks) = Some false
  /\ submitted
       (fst (_process_single_batch_with_splitting call sanitize (S depth) w
               batch_chunks))
     = submitted w ++ repeat batch_chunks 5
  /\ slept
       (fst (_process_single_batch_with_splitting call sanitize (S depth) w
               batch_chunks))
     = slept w ++ [2; 4; 8; 10]
  /\ chroma_store
       (fst (_process_single_batch_with_splitting call sanitize (S depth) w
               batch_chunks))
     = chroma_store w.
Proof.
  intros H. cbn [_process_single_batch_with_splitting].
  destruct (attempt_loop_transient_errors call sanitize
              (_process_single_batch_with_splitting call sanitize depth)
              (Z.to_nat max_attempts) 1 w batch_chunks H)
    as (w' & E & Hs & Hsl & Hch).
  rewrite E. simpl. auto.
Qed.

Lemma transient_failures_back_off_witness :
  slept
    (fst (_process_single_batch_with_splitting Examples.failing_transient
            Examples.manual_sanitizer 1 (Examples.fresh_world tt)
            Examples.two_small_chunks)) = [] ++ [2; 4; 8; 10].
Proof.
  apply (transient_failures_back_off Examples.failing_transient
           Examples.manual_sanitizer 0 (Examples.fresh_world tt)
           Examples.two_small_chunks).
  intros s op b. exists tt, Examples.transient_error. repeat split.
Defined.

(** ** The adaptive batch size *)

Lemma avg_zero (S : Z) (n : nat) :
  (0 < n)%nat ->
  Qeq_bool (inject_Z S / inject_Z (Z.of_nat n))%Q 0 = true <-> S = 0.
Proof.
  intros Hn. rewrite Qeq_bool_iff.
  destruct n as [|n]; [lia|].
  unfold Qdiv, Qinv, Qmult, Qeq, inject_Z. simpl. lia.
Qed.

Lemma avg_nonneg (S : Z) (n : nat) :
  0 <= S -> (0 <= inject_Z S / inject_Z (Z.of_nat n))%Q.
Proof.
  intros HS. destruct n as [|n].
  - unfold Qdiv, Qinv, Qmult, Qle, inject_Z. simpl. lia.
  - unfold Qdiv, Qinv, Qmult, Qle, inject_Z. simpl. lia.
Qed.

Lemma take_min_sample (l : list Document) : take (Nat.min 50 (length l)) l = take 50 l.
Proof.
  destruct (Nat.le_ge_cases 50 (length l)).
  - rewrite Nat.min_l by lia. reflexivity.
  - rewrite Nat.min_r by lia. rewrite !take_ge by lia. reflexivity.
Qed.

Lemma sum_estimates_nonneg (l : list Document) :
  0 <= sum_Z (map chunk_total_tokens l).
Proof.
  induction l as [|c l IH]; simpl; [lia|].
  pose proof (chunk_total_tokens_nonneg c). unfold sum_Z in *. simpl. lia.
Qed.

Lemma sum_zero_all_zero (l : list Document) :
  sum_Z (map chunk_total_tokens l) = 0 ->
  Forall (fun t => t = 0) (map chunk_total_tokens l).
Proof.
  induction l as [|c l IH]; simpl; intros H; constructor.
  - pose proof (chunk_total_tokens_nonneg c).
    pose proof (sum_estimates_nonneg l). unfold sum_Z in *. simpl in H. lia.
  - apply IH. pose proof (chunk_total_tokens_nonneg c).
    pose proof (sum_estimates_nonneg l). unfold sum_Z in *. simpl in H. lia.
Qed.

Lemma nth_all_zero (l : list Z) (i : nat) :
  Forall (fun t => t = 0) l -> nth i l 0 = 0.
Proof.
  intros H. revert i. induction H as [|x l Hx _ IH]; intros [|i]; simpl; auto.
Qed.

Lemma sorted_all_zero (l : list Z) :
  Forall (fun t => t = 0) l -> Forall (fun t => t = 0) (merge_sort Z.le l).
Proof.
  intros H. rewrite merge_sort_Permutation. exact H.
Qed.

Lemma batch_size_cases (chunks : list Document) (max_tokens : Z) :
  chunks <> [] ->
  (sum_Z (map chunk_total_tokens (take 50 chunks)) = 0
   /\ _calculate_adaptive_batch_size chunks max_tokens
      = Raised "float division by zero")
  \/ (0 < sum_Z (map chunk_total_tokens (take 50 chunks))
      /\ exists batch_size,
           _calculate_adaptive_batch_size chunks max_tokens = Returned batch_size
           /\ 5 <= batch_size <= 800).
Proof.
  intros Hne. unfold _calculate_adaptive_batch_size.
  destruct chunks as [|c l]; [contradiction|].
  rewrite take_min_sample.
  set (est := map chunk_total_tokens (take 50 (c :: l))).
  assert (Hlen : (0 < length est)%nat) by (unfold est; simpl; lia).
  pose proof (sum_estimates_nonneg (take 50 (c :: l))) as Hs. fold est in Hs.
  cbv zeta.
  set (avg := (inject_Z (sum_Z est) / inject_Z (Z.of_nat (length est)))%Q).
  set (p80 := nth _ (merge_sort Z.le est) 0).
  destruct (Z.eq_dec (sum_Z est) 0) as [Hz|Hnz].
  - left. split; [exact Hz|].
    assert (Hp : p80 = 0).
    { apply nth_all_zero, sorted_all_zero, sum_zero_all_zero. exact Hz. }
    assert (Ha : Qeq_bool avg 0 = true) by (apply avg_zero; assumption).
    rewrite Hp.
    assert (Hle : Qle_bool (inject_Z 0) avg = true).
    { apply Qle_bool_iff. apply Qeq_bool_iff in Ha. rewrite Ha. apply Qle_refl. }
    rewrite Hle, Ha. reflexivity.
  - right. split; [lia|].
    assert (Ha : Qeq_bool avg 0 = false).
    { destruct (Qeq_bool avg 0) eqn:E; [|reflexivity].
      apply avg_zero in E; [contradiction|exact Hlen]. }
    destruct (Qle_bool (inject_Z p80) avg) eqn:Ele.
    + rewrite Ha. eexists. split; [reflexivity|]. lia.
    + assert (Hp : Qeq_bool (inject_Z p80) 0 = false).
      { destruct (Qeq_bool (inject_Z p80) 0) eqn:E; [|reflexivity].
        apply Qeq_bool_iff in E. exfalso.
        assert (Hle : Qle_bool (inject_Z p80) avg = true).
        { apply Qle_bool_iff. rewrite E. apply avg_nonneg. exact Hs. }
        congruence. }
      rewrite Hp. eexists. split; [reflexivity|]. lia.
Qed.


(** For a non-empty list of chunks the adaptive batch size lies between
    5 and 800, unless every chunk among the first 50 has an estimate of 0
    tokens (empty text and next to no metadata): then the division by the
    per-chunk estimate raises. *)
Theorem adaptive_batch_size_range (chunks : list Document) (max_tokens : Z) :
  chunks <> [] ->
  (sum_Z (map chunk_total_tokens (take 50 chunks)) = 0
   /\ _calculate_adaptive_batch_size chunks max_tokens
      = Raised "float division by zero")
  \/ (0 < sum_Z (map chunk_total_tokens (take 50 chunks))
      /\ exists batch_size,
           _calculate_adaptive_batch_size chunks max_tokens = Returned batch_size
           /\ 5 <= batch_size <= 800).
Proof. apply batch_size_cases. Qed.

Lemma adaptive_batch_size_range_witness :
  (sum_Z (map chunk_total_tokens (take 50 Examples.three_small_chunks)) = 0
   /\ _calculate_adaptive_batch_size Examples.three_small_chunks token_ceiling
      = Raised "float division by zero")
  \/ (0 < sum_Z (map chunk_total_tokens (take 50 Examples.three_small_chunks))
      /\ exists batch_size,
           _calculate_adaptive_batch_size Examples.three_small_chunks
             token_ceiling = Returned batch_size
           /\ 5 <= batch_size <= 800).
Proof.
  apply (adaptive_batch_size_range Examples.three_small_chunks token_ceiling).
  discriminate.
Defined.

(** Only the first 50 chunks enter the computation of the batch size. *)
Theorem adaptive_batch_size_uses_sample (chunks : list Document)
    (max_tokens : Z) :
  _calculate_adaptive_batch_size chunks max_tokens
  = _calculate_adaptive_batch_size (take 50 chunks) max_tokens.
Proof.
  unfold _calculate_adaptive_batch_size.
  destruct chunks as [|c l]; [reflexivity|].
  rewrite !take_min_sample.
  change (take 50 (c :: l)) with (c :: take 49 l) at 1 2 3 4 5.
  rewrite take_take. reflexivity.
Qed.

(** ** The executor only appends to the index *)

Section CommitInvariant.

Context {Svc : Type}.
Variable call : Svc -> IndexOp -> list Document -> Svc * option string.
Variable sanitize : list Document -> list Document.

Hypothesis sanitize_contents : forall b, contents (sanitize b) = contents b.

Lemma contents_app (a b : list Document) :
  contents (a ++ b) = contents a ++ contents b.
Proof. unfold contents. apply map_app. Qed.

Lemma commit_spec_nothing (w : @World Svc) (batch : list Document)
    (w' : @World Svc) (r : option bool) :
  stored_chunks w' = stored_chunks w ->
  metadata_json w' = metadata_json w ->
  r <> Some true ->
  commit_spec w batch w' r.
Proof.
  intros Hs Hm Hr. exists []. rewrite app_nil_r.
  repeat split; [exact Hs|apply prefix_nil|contradiction|exact Hm].
Qed.

Lemma commit_spec_step (w w1 w' : @World Svc) (b b' : list Document)
    (r : option bool) :
  stored_chunks w1 = stored_chunks w ->
  metadata_json w1 = metadata_json w ->
  contents b' = contents b ->
  commit_spec w1 b' w' r ->
  commit_spec w b w' r.
Proof.
  intros Hs Hm Hc (added & Ha & Hp & Ht & Hj).
  exists added. rewrite <- Hs, <- Hm, <- Hc. auto.
Qed.

Lemma process_sub_batches_commit
    (self : @World Svc -> list Document -> @World Svc * option bool)
    (sub_batches : list (list Document)) (w : @World Svc) :
  (forall w0 b, commit_spec w0 b (fst (self w0 b)) (snd (self w0 b))) ->
  commit_spec w (concat sub_batches)
    (fst (process_sub_batches self w sub_batches))
    (snd (process_sub_batches self w sub_batches)).
Proof.
  intros Hself. revert w.
  induction sub_batches as [|sub rest IH]; intros w; simpl.
  - exists []. rewrite app_nil_r. repeat split. apply prefix_nil.
  - pose proof (Hself w sub) as (a1 & Ha1 & Hp1 & Ht1 & Hj1).
    destruct (self w sub) as [w' [[|]|]]; simpl in *.
    + destruct (IH w') as (a2 & Ha2 & Hp2 & Ht2 & Hj2).
      exists (a1 ++ a2). rewrite Ha2, Ha1, <- app_assoc, !contents_app.
      rewrite (Ht1 eq_refl). repeat split.
      * apply prefix_app, Hp2.
      * intros Hr. rewrite (Ht2 Hr). reflexivity.
      * congruence.
    + exists a1. rewrite contents_app. repeat split;
        [exact Ha1|apply prefix_app_r, Hp1|discriminate|exact Hj1].
    + exists a1. rewrite contents_app. repeat split;
        [exact Ha1|apply prefix_app_r, Hp1|discriminate|exact Hj1].
Qed.

Lemma attempt_loop_commit
    (self : @World Svc -> list Document -> @World Svc * option bool)
    (n : nat) (attempt : Z) (w : @World Svc) (batch_chunks : list Document) :
  (forall w0 b, commit_spec w0 b (fst (self w0 b)) (snd (self w0 b))) ->
  commit_spec w batch_chunks
    (fst (attempt_loop call sanitize self n attempt w batch_chunks))
    (snd (attempt_loop call sanitize self n attempt w batch_chunks)).
Proof.
  intros Hself. revert attempt w batch_chunks.
  induction n as [|n IH]; intros attempt w batch_chunks.
  - simpl. apply commit_spec_nothing; [reflexivity|reflexivity|discriminate].
  - cbn [attempt_loop]. unfold try_submit.
    destruct (call (service w)
                (if vectorstore_set w then AddDocuments else FromDocuments)
                batch_chunks) as [s' [msg|]].
    + destruct (str_contains "Expected metadata value to be" msg).
      { eapply commit_spec_step; [| |apply sanitize_contents|apply IH];
          reflexivity. }
      destruct (str_contains "max_tokens_per_request" msg).
      { destruct (bool_decide (length batch_chunks <= 1)%nat).
        { simpl. apply commit_spec_nothing;
            [reflexivity|reflexivity|discriminate]. }
        pose proof (split_flatten batch_chunks token_ceiling) as Hf.
        destruct (_split_batch_intelligently batch_chunks token_ceiling)
          as [|sub subs].
        { simpl. apply commit_spec_nothing;
            [reflexivity|reflexivity|discriminate]. }
        eapply commit_spec_step;
          [| | |apply (process_sub_batches_commit self (sub :: subs)), Hself];
          [reflexivity|reflexivity|rewrite Hf; reflexivity]. }
      eapply commit_spec_step; [| |reflexivity|apply IH].
      * destruct (bool_decide (attempt < max_attempts)); reflexivity.
      * destruct (bool_decide (attempt < max_attempts)); reflexivity.
    + simpl. exists batch_chunks. unfold stored_chunks. simpl.
      repeat split. reflexivity.
Qed.

Lemma process_single_batch_commit (depth : nat) (w : @World Svc)
    (batch_chunks : list Document) :
  commit_spec w batch_chunks
    (fst (_process_single_batch_with_splitting call sanitize depth w
            batch_chunks))
    (snd (_process_single_batch_with_splitting call sanitize depth w
            batch_chunks)).
Proof.
  revert w batch_chunks. induction depth as [|depth IH]; intros w batch_chunks.
  - simpl. apply commit_spec_nothing; [reflexivity|reflexivity|discriminate].
  - cbn [_process_single_batch_with_splitting].
    apply attempt_loop_commit. exact IH.
Qed.

End CommitInvariant.

Lemma batch_size_positive (chunks : list Document) (max_tokens batch_size : Z) :
  _calculate_adaptive_batch_size chunks max_tokens = Returned batch_size ->
  1 <= batch_size.
Proof.
  intros E. destruct chunks as [|c l].
  - simpl in E. injection E as <-. lia.
  - destruct (batch_size_cases (c :: l) max_tokens ltac:(discriminate))
      as [[_ Hr]|[_ (b & Hb & Hrange)]]; [congruence|].
    rewrite Hb in E. injection E as <-. lia.
Qed.

Lemma drop_length_take {A} (k : nat) (l : list A) :
  drop (length (take k l)) l = drop k l.
Proof.
  rewrite length_take. destruct (Nat.le_ge_cases k (length l)).
  - rewrite Nat.min_l by lia. reflexivity.
  - rewrite Nat.min_r by lia. rewrite !drop_ge by lia. reflexivity.
Qed.

Section BatchRuns.

Context {Svc : Type}.
Variable call : Svc -> IndexOp -> list Document -> Svc * option string.
Variable sanitize : list Document -> list Document.

Hypothesis sanitize_contents : forall b, contents (sanitize b) = contents b.

Lemma commit_spec_chain (w w1 w2 : @World Svc) (first rest : list Document)
    (r : option bool) :
  commit_spec w first w1 (Some true) ->
  commit_spec w1 rest w2 r ->
  commit_spec w (first ++ rest) w2 r.
Proof.
  intros (a1 & Ha1 & Hp1 & Ht1 & Hj1) (a2 & Ha2 & Hp2 & Ht2 & Hj2).
  exists (a1 ++ a2).
  rewrite Ha2, Ha1, <- app_assoc, !contents_app, (Ht1 eq_refl).
  repeat split.
  - apply prefix_app, Hp2.
  - intros Hr. rewrite (Ht2 Hr). reflexivity.
  - congruence.
Qed.

Lemma commit_spec_stop (w w1 : @World Svc) (first rest : list Document)
    (r r' : option bool) :
  commit_spec w first w1 r ->
  r' <> Some true ->
  commit_spec w (first ++ rest) w1 r'.
Proof.
  intros (a1 & Ha1 & Hp1 & Ht1 & Hj1) Hr.
  exists a1. rewrite contents_app.
  repeat split; [exact Ha1|apply prefix_app_r, Hp1|contradiction|exact Hj1].
Qed.

Lemma batch_loop_commit (fuel depth : nat) (document_chunks : list Document)
    (batch_size batches_done chunks_done : Z) (w : @World Svc) :
  1 <= batch_size ->
  0 <= chunks_done ->
  commit_spec w (drop (Z.to_nat chunks_done) document_chunks)
    (fst (batch_loop call sanitize fuel depth document_chunks batch_size
            (py_len document_chunks) batches_done chunks_done w))
    (reported_success
       (snd (batch_loop call sanitize fuel depth document_chunks batch_size
               (py_len document_chunks) batches_done chunks_done w))).
Proof.
  intros Hbs. revert batches_done chunks_done w.
  induction fuel as [|fuel IH]; intros batches_done chunks_done w Hcd.
  - simpl. apply commit_spec_nothing; [reflexivity|reflexivity|discriminate].
  - cbn [batch_loop]. unfold py_len in *.
    destruct (bool_decide (chunks_done < Z.of_nat (length document_chunks)))
      eqn:Elt.
    + apply bool_decide_eq_true in Elt.
      unfold py_slice.
      set (k := Z.to_nat (chunks_done
                          + Z.min batch_size
                              (Z.of_nat (length document_chunks) - chunks_done)
                          - chunks_done)).
      set (rest := drop (Z.to_nat chunks_done) document_chunks).
      assert (Hk : (1 <= k)%nat) by (unfold k; lia).
      assert (Hrest : (0 < length rest)%nat)
        by (unfold rest; rewrite length_drop; lia).
      destruct (take k rest) as [|c cb] eqn:Etake.
      { exfalso. destruct rest; simpl in *; [lia|].
        destruct k; [lia|discriminate]. }
      rewrite <- Etake.
      assert (Hsplit : rest = take k rest ++ drop k rest)
        by (symmetry; apply take_drop).
      pose proof (process_single_batch_commit call sanitize sanitize_contents
                    depth w (take k rest)) as Hc.
      destruct (_process_single_batch_with_splitting call sanitize depth w
                  (take k rest)) as [w' [[|]|]]; simpl in Hc.
      * rewrite Hsplit at 1.
        eapply commit_spec_chain; [exact Hc|].
        assert (Hd : drop k rest
                     = drop (Z.to_nat (chunks_done
                                       + Z.of_nat (length (take k rest))))
                         document_chunks).
        { symmetry.
          replace (Z.to_nat (chunks_done + Z.of_nat (length (take k rest))))
            with (Z.to_nat chunks_done + length (take k rest))%nat by lia.
          rewrite <- drop_drop. fold rest. apply drop_length_take. }
        rewrite Hd. apply IH. lia.
      * simpl. rewrite Hsplit at 1.
        eapply commit_spec_stop; [exact Hc|discriminate].
      * simpl. rewrite Hsplit at 1.
        eapply commit_spec_stop; [exact Hc|discriminate].
    + apply bool_decide_eq_false in Elt. simpl.
      rewrite drop_ge by lia.
      exists []. rewrite app_nil_r. repeat split. apply prefix_nil.
Qed.

Lemma process_chunks_commit (depth : nat) (w : @World Svc)
    (document_chunks : list Document) :
  commit_spec w document_chunks
    (fst (_process_chunks_in_batches call sanitize depth w document_chunks))
    (reported_success
       (snd (_process_chunks_in_batches call sanitize depth w
               document_chunks))).
Proof.
  unfold _process_chunks_in_batches.
  destruct document_chunks as [|c l].
  { simpl. exists []. rewrite app_nil_r. repeat split. apply prefix_nil. }
  set (chunks := sanitize (c :: l)).
  eapply (commit_spec_step w w _ (c :: l) chunks);
    [reflexivity|reflexivity|apply sanitize_contents|].
  destruct (_calculate_adaptive_batch_size chunks token_ceiling)
    as [batch_size|msg] eqn:Ecalc.
  2:{ simpl. apply commit_spec_nothing;
        [reflexivity|reflexivity|discriminate]. }
  pose proof (batch_size_positive _ _ _ Ecalc) as Hbs.
  destruct (negb (vectorstore_exists w)).
  - unfold py_slice. rewrite drop_0, Z.sub_0_r.
    assert (Hsplit : chunks = take (Z.to_nat batch_size) chunks
                              ++ drop (Z.to_nat batch_size) chunks)
      by (symmetry; apply take_drop).
    pose proof (process_single_batch_commit call sanitize sanitize_contents
                  depth w (take (Z.to_nat batch_size) chunks)) as Hc.
    destruct (_process_single_batch_with_splitting call sanitize depth w
                (take (Z.to_nat batch_size) chunks)) as [w' [[|]|]];
      simpl in Hc.
    + rewrite Hsplit at 1.
      eapply commit_spec_chain; [exact Hc|].
      apply batch_loop_commit; lia.
    + simpl. rewrite Hsplit at 1.
      eapply commit_spec_stop; [exact Hc|discriminate].
    + simpl. rewrite Hsplit at 1.
      eapply commit_spec_stop; [exact Hc|discriminate].
  - eapply (commit_spec_step w (load_existing w) _ chunks chunks);
      [| |reflexivity|].
    + unfold stored_chunks, load_existing. simpl. reflexivity.
    + reflexivity.
    + change chunks with (drop (Z.to_nat 0) chunks) at 1.
      apply batch_loop_commit; lia.
Qed.

End BatchRuns.

Lemma manual_sanitizer_contents (b : list Document) :
  contents (Examples.manual_sanitizer b) = contents b.
Proof.
  unfold Examples.manual_sanitizer, _filter_document_metadata, contents.
  simpl. induction b as [|[text m] b IH]; simpl; [reflexivity|].
  rewrite IH. unfold sanitize_document. simpl. destruct m; reflexivity.
Qed.

(** An invocation of [_process_single_batch_with_splitting] only appends
    to the index and never touches the metadata file.  The text of what
    it appended is a prefix of the text of the batch, in order, and it is
    the whole batch whenever the invocation returns [True]; after [False]
    the chunks committed before the failure stay in the index.  (The
    filter is assumed to leave the text of the chunks alone.) *)
Theorem single_batch_commits_prefix {Svc : Type}
    (call : Svc -> IndexOp -> list Document -> Svc * option string)
    (sanitize : list Document -> list Document)
    (depth : nat) (w : World) (batch_chunks : list Document) :
  (forall b, contents (sanitize b) = contents b) ->
  exists added,
    stored_chunks
      (fst (_process_single_batch_with_splitting call sanitize depth w
              batch_chunks))
    = stored_chunks w ++ added
    /\ contents added `prefix_of` contents batch_chunks
    /\ (snd (_process_single_batch_with_splitting call sanitize depth w
               batch_chunks) = Some true ->
        contents added = contents batch_chunks)
    /\ metadata_json
         (fst (_process_single_batch_with_splitting call sanitize depth w
                 batch_chunks))
       = metadata_json w.
Proof.
  intros Hs.
  exact (process_single_batch_commit call sanitize Hs depth w batch_chunks).
Qed.

(** A committing run that starts from an index holding a chunk: the
    request with the five large chunks is refused, split, and committed
    sub-batch by sub-batch. *)
Lemma five_large_chunks_committed :
  snd (_process_single_batch_with_splitting Examples.estimate_guard
         Examples.manual_sanitizer 5 Examples.indexed_world
         Examples.five_large_chunks) = Some true.
Proof. vm_compute. reflexivity. Qed.

Lemma single_batch_commits_prefix_witness :
  exists added,
    stored_chunks
      (fst (_process_single_batch_with_splitting Examples.estimate_guard
              Examples.manual_sanitizer 5 Examples.indexed_world
              Examples.five_large_chunks))
    = Examples.plain "old" :: added
    /\ contents added = contents Examples.five_large_chunks
    /\ metadata_json
         (fst (_process_single_batch_with_splitting Examples.estimate_guard
                 Examples.manual_sanitizer 5 Examples.indexed_world
                 Examples.five_large_chunks))
       = metadata_json Examples.indexed_world.
Proof.
  destruct (single_batch_commits_prefix Examples.estimate_guard
              Examples.manual_sanitizer 5 Examples.indexed_world
              Examples.five_large_chunks manual_sanitizer_contents)
    as (added & Ha & _ & Hall & Hj).
  exists added. split; [exact Ha|]. split; [|exact Hj].
  apply Hall. exact five_large_chunks_committed.
Defined.

(** A run of [_process_chunks_in_batches] only appends to the index and
    never touches the metadata file.  The text of what it appended is a
    prefix of the text of the chunks it was given, in order; when the run
    reports success, every chunk was appended, once and in order.  (The
    filter is assumed to leave the text of the chunks alone.) *)
Theorem batches_commit_in_order {Svc : Type}
    (call : Svc -> IndexOp -> list Document -> Svc * option string)
    (sanitize : list Document -> list Document)
    (depth : nat) (w : World) (document_chunks : list Document) :
  (forall b, contents (sanitize b) = contents b) ->
  exists added,
    stored_chunks
      (fst (_process_chunks_in_batches call sanitize depth w document_chunks))
    = stored_chunks w ++ added
    /\ contents added `prefix_of` contents document_chunks
    /\ (reported_success
          (snd (_process_chunks_in_batches call sanitize depth w
                  document_chunks)) = Some true ->
        contents added = contents document_chunks)
    /\ metadata_json
         (fst (_process_chunks_in_batches call sanitize depth w
                 document_chunks))
       = metadata_json w.
Proof.
  intros Hs.
  exact (process_chunks_commit call sanitize Hs depth w document_chunks).
Qed.

Lemma batches_commit_in_order_witness :
  exists added,
    stored_chunks
      (fst (_process_chunks_in_batches Examples.accepting
              Examples.manual_sanitizer 2 (Examples.fresh_world tt)
              Examples.three_small_chunks))
    = stored_chunks (Examples.fresh_world tt) ++ added
    /\ contents added `prefix_of` contents Examples.three_small_chunks
    /\ (reported_success
          (snd (_process_chunks_in_batches Examples.accepting
                  Examples.manual_sanitizer 2 (Examples.fresh_world tt)
                  Examples.three_small_chunks)) = Some true ->
        contents added = contents Examples.three_small_chunks)
    /\ metadata_json
         (fst (_process_chunks_in_batches Examples.accepting
                 Examples.manual_sanitizer 2 (Examples.fresh_world tt)
                 Examples.three_small_chunks))
       = metadata_json (Examples.fresh_world tt).
Proof.
  apply (batches_commit_in_order Examples.accepting
           Examples.manual_sanitizer 2 (Examples.fresh_world tt)
           Examples.three_small_chunks).
  exact manual_sanitizer_contents.
Defined.

(** ** What a run of [index_directory] does to the two stores *)

Section IndexRuns.

Context {Svc : Type}.
Variable call : Svc -> IndexOp -> list Document -> Svc * option string.
Variable sanitize split_documents : list Document -> list Document.

Hypothesis sanitize_contents : forall b, contents (sanitize b) = contents b.

Lemma index_directory_stores (depth : nat) (now : string) (w : @World Svc)
    (directory : list FileEntry) :
  stored_chunks w
    `prefix_of` stored_chunks
                  (fst (index_directory call sanitize split_documents depth
                          now w directory))
  /\ forall p,
       is_Some (_load_metadata w !! p) ->
       is_Some (_load_metadata
                  (fst (index_directory call sanitize split_documents depth
                          now w directory)) !! p).
Proof.
  unfold index_directory.
  destruct (_scan_directory directory) as [|f0 files]; [simpl; auto|].
  destruct (filter _ (f0 :: files)) as [|f1 rest]; [simpl; auto|].
  pose proof (load_loop_keeps now (f1 :: rest) ([], _load_metadata w, 0))
    as Hkeep.
  destruct (fold_left (load_step now) (f1 :: rest) ([], _load_metadata w, 0))
    as [[all stored] n].
  simpl in Hkeep.
  destruct all as [|doc all]; [simpl; auto|].
  pose proof (process_chunks_commit call sanitize sanitize_contents depth w
                (split_documents (doc :: all)))
    as (added & Ha & _ & _ & Hj).
  destruct (_process_chunks_in_batches call sanitize depth w
              (split_documents (doc :: all))) as [w1 [[br|e]|]];
    simpl in Ha, Hj.
  - destruct (negb (success br)).
    + destruct (bool_decide (default 0 (chunks_processed br) > 0)); simpl.
      * split; [exists added; exact Ha|]. intros p Hp. apply Hkeep, Hp.
      * split; [exists added; exact Ha|].
        unfold _load_metadata. rewrite Hj. auto.
    + simpl. split; [exists added; exact Ha|]. intros p Hp. apply Hkeep, Hp.
  - simpl. split; [exists added; exact Ha|]. intros p Hp. apply Hkeep, Hp.
  - simpl. split; [exists added; exact Ha|].
    unfold _load_metadata. rewrite Hj. auto.
Qed.

Lemma index_directory_completed (depth : nat) (now : string)
    (w w' : @World Svc) (directory : list FileEntry) (res : IndexResult) :
  index_directory call sanitize split_documents depth now w directory
  = (w', Some res) ->
  status res = completed ->
  0 < files_processed res ->
  exists added,
    stored_chunks w' = stored_chunks w ++ added
    /\ contents added
       = contents (split_documents (loaded_documents now w directory))
    /\ documents_indexed res
       = py_len (split_documents (loaded_documents now w directory)).
Proof.
  unfold index_directory, loaded_documents. intros Hrun Hst Hfp.
  destruct (_scan_directory directory) as [|f0 files].
  { injection Hrun as _ <-. simpl in Hfp. lia. }
  destruct (filter _ (f0 :: files)) as [|f1 rest].
  { injection Hrun as _ <-. simpl in Hfp. lia. }
  destruct (fold_left (load_step now) (f1 :: rest) ([], _load_metadata w, 0))
    as [[all stored] n].
  simpl fst.
  destruct all as [|doc all].
  { injection Hrun as _ <-. discriminate. }
  pose proof (process_chunks_commit call sanitize sanitize_contents depth w
                (split_documents (doc :: all)))
    as (added & Ha & _ & Ht & _).
  destruct (_process_chunks_in_batches call sanitize depth w
              (split_documents (doc :: all))) as [w1 [[br|e]|]];
    simpl in Ha, Ht; [| injection Hrun as _ <-; discriminate | discriminate].
  destruct (success br) eqn:Es; simpl in Hrun.
  - injection Hrun as <- <-. exists added. simpl.
    split; [exact Ha|]. split; [apply Ht; reflexivity|reflexivity].
  - destruct (bool_decide (default 0 (chunks_processed br) > 0));
      injection Hrun as _ <-; discriminate.
Qed.

End IndexRuns.

(** A run of [index_directory] never removes a chunk from the index and
    never drops a path from the Metadata Store: what the index held before
    is a prefix of what it holds afterwards, and every path that had a
    record still has one. *)
Theorem index_directory_never_removes {Svc : Type}
    (call : Svc -> IndexOp -> list Document -> Svc * option string)
    (sanitize split_documents : list Document -> list Document)
    (depth : nat) (now : string) (w : World) (directory : list FileEntry) :
  (forall b, contents (sanitize b) = contents b) ->
  stored_chunks w
    `prefix_of` stored_chunks
                  (fst (index_directory call sanitize split_documents depth
                          now w directory))
  /\ forall p,
       is_Some (_load_metadata w !! p) ->
       is_Some (_load_metadata
                  (fst (index_directory call sanitize split_documents depth
                          now w directory)) !! p).
Proof.
  intros Hs.
  exact (index_directory_stores call sanitize split_documents Hs depth now w
           directory).
Qed.

Lemma index_directory_never_removes_witness :
  [Examples.plain "old"]
    `prefix_of` stored_chunks
                  (fst (index_directory Examples.accepting
                          Examples.manual_sanitizer
                          Examples.one_chunk_per_document 3
                          "2025-02-02T00:00:00+00:00"
                          Examples.indexed_world Examples.hello_directory))
  /\ is_Some (_load_metadata
                (fst (index_directory Examples.accepting
                        Examples.manual_sanitizer
                        Examples.one_chunk_per_document 3
                        "2025-02-02T00:00:00+00:00"
                        Examples.indexed_world Examples.hello_directory))
              !! "docs/old.txt")
  /\ length (stored_chunks
               (fst (index_directory Examples.accepting
                       Examples.manual_sanitizer
                       Examples.one_chunk_per_document 3
                       "2025-02-02T00:00:00+00:00"
                       Examples.indexed_world Examples.hello_directory)))
     = 2%nat.
Proof.
  destruct (index_directory_never_removes Examples.accepting
              Examples.manual_sanitizer Examples.one_chunk_per_document 3
              "2025-02-02T00:00:00+00:00" Examples.indexed_world
              Examples.hello_directory manual_sanitizer_contents)
    as [Hchunks Hpaths].
  split; [exact Hchunks|]. split.
  - apply Hpaths. vm_compute. eauto.
  - vm_compute. reflexivity.
Defined.

(** When [index_directory] reports [completed] with at least one file
    processed, every chunk the text splitter produced from the loaded
    documents was appended to the index, once and in order, and
    [documents_indexed] is the number of those chunks. *)
Theorem completed_run_commits_every_chunk {Svc : Type}
    (call : Svc -> IndexOp -> list Document -> Svc * option string)
    (sanitize split_documents : list Document -> list Document)
    (depth : nat) (now : string) (w w' : World) (directory : list FileEntry)
    (res : IndexResult) :
  (forall b, contents (sanitize b) = contents b) ->
  index_directory call sanitize split_documents depth now w directory
  = (w', Some res) ->
  status res = completed ->
  0 < files_processed res ->
  exists added,
    stored_chunks w' = stored_chunks w ++ added
    /\ contents added
       = contents (split_documents (loaded_documents now w directory))
    /\ documents_indexed res
       = py_len (split_documents (loaded_documents now w directory)).
Proof.
  intros Hs.
  exact (index_directory_completed call sanitize split_documents Hs depth now
           w w' directory res).
Qed.

Lemma hello_run_completed :
  option_map (fun res => (status res, bool_decide (0 < files_processed res)))
    (snd (index_directory Examples.accepting Examples.manual_sanitizer
            Examples.one_chunk_per_document 3 "2025-02-02T00:00:00+00:00"
            (Examples.fresh_world tt) Examples.hello_directory))
  = Some (completed, true).
Proof. vm_compute. reflexivity. Qed.

Lemma completed_run_commits_every_chunk_witness :
  exists added,
    stored_chunks
      (fst (index_directory Examples.accepting Examples.manual_sanitizer
              Examples.one_chunk_per_document 3 "2025-02-02T00:00:00+00:00"
              (Examples.fresh_world tt) Examples.hello_directory))
    = stored_chunks (Examples.fresh_world tt) ++ added
    /\ contents added
       = contents
           (Examples.one_chunk_per_document
              (loaded_documents "2025-02-02T00:00:00+00:00"
                 (Examples.fresh_world tt) Examples.hello_directory)).
Proof.
  pose proof hello_run_completed as Hc.
  destruct (index_directory Examples.accepting Examples.manual_sanitizer
              Examples.one_chunk_per_document 3 "2025-02-02T00:00:00+00:00"
              (Examples.fresh_world tt) Examples.hello_directory)
    as [w' [res|]] eqn:Erun; [|discriminate].
  simpl in Hc. injection Hc as Hst Hfp. apply bool_decide_eq_true in Hfp.
  destruct (completed_run_commits_every_chunk Examples.accepting
              Examples.manual_sanitizer Examples.one_chunk_per_document 3
              "2025-02-02T00:00:00+00:00" (Examples.fresh_world tt) w'
              Examples.hello_directory res manual_sanitizer_contents Erun
              Hst Hfp) as (added & Ha & Hcn & _).
  exists added. split; [exact Ha|exact Hcn].
Defined.

(** ** The metadata file: what is saved is what is loaded *)

Lemma from_dict_to_dict (d : DocumentMetadata) : from_dict (to_dict d) = Some d.
Proof. destruct d. reflexivity. Qed.

Lemma get_str_missing (k : string) (m : list (string * MetaValue)) :
  dict_get k m = None -> get_str k m = None.
Proof. unfold get_str. intros ->. reflexivity. Qed.

Lemma get_int_missing (k : string) (m : list (string * MetaValue)) :
  dict_get k m = None -> get_int k m = None.
Proof. unfold get_int. intros ->. reflexivity. Qed.

Lemma get_bool_missing (k : string) (m : list (string * MetaValue)) :
  dict_get k m = None -> get_bool k m = None.
Proof. unfold get_bool. intros ->. reflexivity. Qed.

Lemma from_dict_missing_field (k : string) (meta : list (string * MetaValue)) :
  k ∈ metadata_fields ->
  dict_get k meta = None ->
  from_dict meta = None.
Proof.
  intros Hk Hmiss. unfold from_dict.
  destruct (bool_decide (length meta = 18%nat)); [|reflexivity].
  pose proof (get_str_missing k meta Hmiss) as Hs.
  pose proof (get_int_missing k meta Hmiss) as Hi.
  pose proof (get_bool_missing k meta Hmiss) as Hb.
  unfold metadata_fields in Hk.
  repeat (apply elem_of_cons in Hk as [->|Hk];
          [ try rewrite Hs; try rewrite Hi; try rewrite Hb;
            repeat (match goal with
                    | |- mbind _ None = None => reflexivity
                    | |- mbind _ ?x = None =>
                        destruct x; simpl; try reflexivity
                    end)
          | ]).
  inversion Hk.
Qed.

(** The mapping [_save_metadata] writes is read back unchanged by
    [_load_metadata]: every record, with every field, survives the trip
    through the metadata file. *)
Theorem metadata_file_round_trip (stored : gmap string DocumentMetadata) :
  metadata_of_json (metadata_to_json stored) = stored.
Proof.
  unfold metadata_of_json, metadata_to_json.
  rewrite bool_decide_eq_true_2.
  - apply map_eq. intros p. rewrite lookup_omap, lookup_fmap.
    destruct (stored !! p) as [d|]; simpl; [apply from_dict_to_dict|reflexivity].
  - intros p meta Hp. apply lookup_fmap_Some in Hp as (d & <- & _).
    rewrite from_dict_to_dict. eauto.
Qed.

(** One entry of the metadata file that lacks a field is enough for
    [_load_metadata] to return the empty mapping: all records are
    forgotten, not only the malformed one. *)
Theorem incomplete_record_empties_mapping
    (data : gmap string (list (string * MetaValue)))
    (p k : string) (meta : list (string * MetaValue)) :
  data !! p = Some meta ->
  k ∈ metadata_fields ->
  dict_get k meta = None ->
  metadata_of_json data = ∅.
Proof.
  intros Hp Hk Hmiss. unfold metadata_of_json.
  rewrite bool_decide_eq_false_2; [reflexivity|].
  intros Hall. specialize (Hall p meta Hp). simpl in Hall.
  rewrite (from_dict_missing_field k meta Hk Hmiss) in Hall.
  destruct Hall as [? ?]. discriminate.
Qed.

Lemma incomplete_record_empties_mapping_witness :
  metadata_of_json
    (<["docs/old.txt" := [("file_path", MStr "/home/user/docs/old.txt")]]>
       (metadata_to_json
          {[ "docs/a.txt" :=
               from_file_path "2025-02-02T00:00:00+00:00"
                 (Examples.example_file "a.txt" ".txt" "text/plain"
                    "5d41402abc4b2a76b9719d911017c592" 5 []) ]}))
  = ∅.
Proof.
  apply (incomplete_record_empties_mapping _ "docs/old.txt" "file_hash"
           [("file_path", MStr "/home/user/docs/old.txt")]).
  - apply lookup_insert_eq.
  - unfold metadata_fields. repeat constructor.
  - reflexivity.
Defined.

(** ** Loading a file *)

Lemma dict_get_set_eq (k : string) (v : MetaValue) (m : list (string * MetaValue)) :
  dict_get k (dict_set k v m) = Some v.
Proof.
  induction m as [|[k' v'] m IH]; simpl.
  - rewrite decide_True; reflexivity.
  - destruct (decide (k = k')) as [->|Hne]; simpl.
    + rewrite decide_True; reflexivity.
    + rewrite decide_False by exact Hne. exact IH.
Qed.

Lemma dict_get_set_ne (k k' : string) (v : MetaValue) (m : list (string * MetaValue)) :
  k <> k' -> dict_get k (dict_set k' v m) = dict_get k m.
Proof.
  intros Hne. induction m as [|[k0 v0] m IH]; simpl.
  - rewrite decide_False by exact Hne. reflexivity.
  - destruct (decide (k' = k0)) as [->|Hne0]; simpl.
    + rewrite !decide_False by exact Hne. reflexivity.
    + destruct (decide (k = k0)); [reflexivity|exact IH].
Qed.

Lemma dict_get_app (k : string) (m1 m2 : list (string * MetaValue)) :
  dict_get k (m1 ++ m2)
  = match dict_get k m1 with Some v => Some v | None => dict_get k m2 end.
Proof.
  induction m1 as [|[k' v'] m1 IH]; simpl; [reflexivity|].
  destruct (decide (k = k')); [reflexivity|exact IH].
Qed.

(** [d.update(other)] read at one key: the last binding of [other] wins,
    and a key [other] does not bind keeps its value. *)
Lemma dict_get_update (k : string) (m other : list (string * MetaValue)) :
  dict_get k (dict_update m other)
  = match dict_get k (reverse other) with
    | Some v => Some v
    | None => dict_get k m
    end.
Proof.
  unfold dict_update. revert m.
  induction other as [|[k' v'] other IH]; intros m; simpl; [reflexivity|].
  rewrite IH, reverse_cons, dict_get_app. simpl.
  destruct (dict_get k (reverse other)); [reflexivity|].
  destruct (decide (k = k')) as [->|Hne].
  - apply dict_get_set_eq.
  - apply dict_get_set_ne, Hne.
Qed.

Lemma dict_get_unbound (k : string) (m : list (string * MetaValue)) :
  k ∉ m.*1 -> dict_get k m = None.
Proof.
  induction m as [|[k' v'] m IH]; simpl; intros Hk; [reflexivity|].
  rewrite not_elem_of_cons in Hk. destruct Hk as [Hne Hk].
  rewrite decide_False by exact Hne. apply IH, Hk.
Qed.

Lemma safe_metadata_keys (f : FileEntry) (fm : DocumentMetadata) (i : nat)
    (doc : Document) :
  (dict_update (sanitize_metadata (to_dict fm)) (chunk_metadata f fm i doc)).*1
  = stamped_keys.
Proof. reflexivity. Qed.

Lemma load_single_supported (now : string) (f : FileEntry) :
  str_lower (path_suffix f) ∈ file_loaders ->
  _load_single_document now f
  = Returned
      (match loader_output f with
       | None => []
       | Some documents =>
           imap (fun i doc =>
                   {| page_content := page_content doc;
                      metadata :=
                        dict_update (metadata doc)
                          (dict_update
                             (sanitize_metadata
                                (to_dict
                                   (let fm := from_file_path now f in
                                    {| file_path := file_path fm;
                                       file_name := file_name fm;
                                       file_directory := file_directory fm;
                                       relative_path := relative_path fm;
                                       file_size := file_size fm;
                                       file_type := file_type fm;
                                       mime_type := mime_type fm;
                                       file_extension := file_extension fm;
                                       created_at := created_at fm;
                                       modified_at := modified_at fm;
                                       accessed_at := accessed_at fm;
                                       indexed_at := indexed_at fm;
                                       chunk_count := Z.of_nat (length documents);
                                       total_characters :=
                                         sum_Z (map (fun doc =>
                                                       Z.of_nat (String.length
                                                                   (page_content doc)))
                                                    documents);
                                       file_hash := _get_file_hash f;
                                       file_permissions := file_permissions fm;
                                       is_hidden := is_hidden fm;
                                       is_symlink := is_symlink fm |})))
                             (chunk_metadata f
                                (let fm := from_file_path now f in
                                    {| file_path := file_path fm;
                                       file_name := file_name fm;
                                       file_directory := file_directory fm;
                                       relative_path := relative_path fm;
                                       file_size := file_size fm;
                                       file_type := file_type fm;
                                       mime_type := mime_type fm;
                                       file_extension := file_extension fm;
                                       created_at := created_at fm;
                                       modified_at := modified_at fm;
                                       accessed_at := accessed_at fm;
                                       indexed_at := indexed_at fm;
                                       chunk_count := Z.of_nat (length documents);
                                       total_characters :=
                                         sum_Z (map (fun doc =>
                                                       Z.of_nat (String.length
                                                                   (page_content doc)))
                                                    documents);
                                       file_hash := _get_file_hash f;
                                       file_permissions := file_permissions fm;
                                       is_hidden := is_hidden fm;
                                       is_symlink := is_symlink fm |}) i doc)) |})
                documents
       end).
Proof.
  intros Hext. unfold _load_single_document.
  rewrite bool_decide_eq_true_2 by exact Hext. cbn [negb].
  destruct (loader_output f); reflexivity.
Qed.

(** For a file of a supported type whose loader returns [documents],
    [_load_single_document] returns as many documents, in the same order
    and with the same text.  Each carries the path of its file under
    [source_file], the hash of the file content under [file_hash], its
    position under [chunk_index] and [chunk_id], and the number of
    documents of the file under [chunk_count]; a key the loader set that
    is not one of the stamped keys keeps the loader's value. *)
Theorem loader_stamps_every_document (now : string) (f : FileEntry)
    (documents : list Document) :
  str_lower (path_suffix f) ∈ file_loaders ->
  loader_output f = Some documents ->
  exists loaded,
    _load_single_document now f = Returned loaded
    /\ length loaded = length documents
    /\ forall (i : nat) (doc : Document),
         documents !! i = Some doc ->
         exists doc',
           loaded !! i = Some doc'
           /\ page_content doc' = page_content doc
           /\ dict_get "source_file" (metadata doc') = Some (MStr (path_str f))
           /\ dict_get "file_hash" (metadata doc')
              = Some (MStr (_get_file_hash f))
           /\ dict_get "chunk_index" (metadata doc') = Some (MInt (Z.of_nat i))
           /\ dict_get "chunk_id" (metadata doc')
              = Some (MStr (_get_file_hash f +:+ "_" +:+ pretty (Z.of_nat i)))
           /\ dict_get "chunk_count" (metadata doc')
              = Some (MInt (Z.of_nat (length documents)))
           /\ forall k, k ∉ stamped_keys ->
                dict_get k (metadata doc') = dict_get k (metadata doc).
Proof.
  intros Hext Hout. rewrite (load_single_supported now f Hext), Hout.
  eexists. split; [reflexivity|]. split; [apply length_imap|].
  intros i doc Hi. rewrite list_lookup_imap, Hi.
  eexists. split; [reflexivity|]. cbv beta zeta. cbn [page_content metadata].
  split; [reflexivity|].
  do 5 (split; [rewrite dict_get_update; reflexivity|]).
  intros k Hk. rewrite dict_get_update.
  rewrite dict_get_unbound; [reflexivity|].
  rewrite fmap_reverse, safe_metadata_keys, elem_of_reverse. exact Hk.
Qed.

Lemma loader_stamps_every_document_witness :
  exists loaded,
    _load_single_document "2025-02-02T00:00:00+00:00"
      (Examples.example_file "a.txt" ".txt" "text/plain"
         "5d41402abc4b2a76b9719d911017c592" 5
         [ {| page_content := "hello";
              metadata := [("source", MStr "docs/a.txt")] |} ])
    = Returned loaded
    /\ length loaded = 1%nat.
Proof.
  destruct (loader_stamps_every_document "2025-02-02T00:00:00+00:00"
              (Examples.example_file "a.txt" ".txt" "text/plain"
                 "5d41402abc4b2a76b9719d911017c592" 5
                 [ {| page_content := "hello";
                      metadata := [("source", MStr "docs/a.txt")] |} ])
              [ {| page_content := "hello";
                   metadata := [("source", MStr "docs/a.txt")] |} ])
    as (loaded & Hrun & Hlen & _).
  - vm_compute. repeat constructor.
  - reflexivity.
  - exists loaded. split; [exact Hrun|exact Hlen].
Defined.

(** ** Runs of [index_directory] that load nothing, and the file count *)

Section LoadRuns.

Context {Svc : Type}.
Variable call : Svc -> IndexOp -> list Document -> Svc * option string.
Variable sanitize : list Document -> list Document.
Variable split_documents : list Document -> list Document.

Lemma load_loop_counts (now : string) (files : list FileEntry)
    (st : list Document * gmap string DocumentMetadata * Z) :
  Forall (fun f => str_lower (path_suffix f) ∈ file_loaders) files ->
  snd (fold_left (load_step now) files st) = snd st + py_len files.
Proof.
  unfold py_len. intros Hall. revert st.
  induction Hall as [|f files Hf _ IH]; intros st; simpl; [lia|].
  rewrite IH. destruct st as [[all stored] n]. unfold load_step.
  rewrite (load_single_supported now f Hf).
  destruct (match loader_output f with Some _ => _ | None => _ end);
    simpl; lia.
Qed.

Lemma load_loop_nothing (now : string) (files : list FileEntry)
    (st : list Document * gmap string DocumentMetadata * Z) :
  Forall (fun f => str_lower (path_suffix f) ∈ file_loaders
                   /\ (loader_output f = None \/ loader_output f = Some []))
         files ->
  fst (fold_left (load_step now) files st) = fst st.
Proof.
  intros Hall. revert st.
  induction Hall as [|f files [Hf Hout] _ IH]; intros st; simpl; [reflexivity|].
  rewrite IH. destruct st as [[all stored] n]. unfold load_step.
  rewrite (load_single_supported now f Hf).
  destruct Hout as [-> | ->]; reflexivity.
Qed.

Lemma scanned_supported (directory : list FileEntry) :
  Forall (fun f => str_lower (path_suffix f) ∈ file_loaders)
         (_scan_directory directory).
Proof.
  unfold _scan_directory. apply Forall_forall. intros f Hf.
  apply list_elem_of_filter in Hf. tauto.
Qed.

Lemma to_process_supported (stored : gmap string DocumentMetadata)
    (directory : list FileEntry) :
  Forall (fun f => str_lower (path_suffix f) ∈ file_loaders)
         (filter (fun f => needs_processing stored f = true)
                 (_scan_directory directory)).
Proof.
  apply Forall_forall. intros f Hf.
  apply list_elem_of_filter in Hf as [_ Hf].
  pose proof (scanned_supported directory) as Hs.
  rewrite Forall_forall in Hs. apply Hs, Hf.
Qed.

Lemma index_directory_files_processed (depth : nat) (now : string)
    (w w' : World) (directory : list FileEntry) (res : IndexResult) :
  index_directory call sanitize split_documents depth now w directory
  = (w', Some res) ->
  files_processed res
  = py_len (filter (fun f => needs_processing (_load_metadata w) f = true)
                   (_scan_directory directory)).
Proof.
  unfold index_directory.
  pose proof (to_process_supported (_load_metadata w) directory) as Hsup.
  destruct (_scan_directory directory) as [|f0 files] eqn:Escan.
  { intros [= <- <-]. reflexivity. }
  destruct (filter _ (f0 :: files)) as [|f1 rest] eqn:Eproc.
  { intros [= <- <-]. reflexivity. }
  pose proof (load_loop_counts now (f1 :: rest) ([], _load_metadata w, 0) Hsup)
    as Hcount.
  destruct (fold_left (load_step now) (f1 :: rest) ([], _load_metadata w, 0))
    as [[all stored'] n].
  simpl in Hcount.
  destruct all as [|d ds].
  { intros [= <- <-]. simpl. lia. }
  destruct (_process_chunks_in_batches call sanitize depth w
              (split_documents (d :: ds))) as [w1 [[r|e]|]].
  - destruct (negb (success r)); intros [= <- <-]; simpl; lia.
  - intros [= <- <-]. simpl. lia.
  - discriminate.
Qed.

(** Whenever [index_directory] returns, [files_processed] is the number
    of files found new or changed: a file whose loader failed or gave no
    document, and a file none of whose chunks was stored, are counted as
    processed. *)
Theorem files_processed_counts_every_attempt (depth : nat) (now : string)
    (w w' : World) (directory : list FileEntry) (res : IndexResult) :
  index_directory call sanitize split_documents depth now w directory
  = (w', Some res) ->
  files_processed res
  = py_len (filter (fun f => needs_processing (_load_metadata w) f = true)
                   (_scan_directory directory)).
Proof. apply index_directory_files_processed. Qed.

(** A run in which no file that needs processing yields a document
    (there is no supported file, every file is up to date, or every
    loader fails or returns nothing) leaves the index, the metadata file
    and the service untouched.  It reports [completed] when nothing
    needed processing and [error] otherwise. *)
Theorem run_without_documents_changes_nothing (depth : nat) (now : string)
    (w : World) (directory : list FileEntry) :
  (forall f, f ∈ _scan_directory directory ->
             needs_processing (_load_metadata w) f = true ->
             loader_output f = None \/ loader_output f = Some []) ->
  exists res,
    index_directory call sanitize split_documents depth now w directory
    = (w, Some res)
    /\ documents_indexed res
       = (if bool_decide
               (filter (fun f => needs_processing (_load_metadata w) f = true)
                       (_scan_directory directory) = [])
          then py_len (_scan_directory directory) else 0)
    /\ status res
       = (if bool_decide
               (filter (fun f => needs_processing (_load_metadata w) f = true)
                       (_scan_directory directory) = [])
          then completed else error_status).
Proof.
  intros Hnone. unfold index_directory.
  pose proof (to_process_supported (_load_metadata w) directory) as Hsup.
  assert (Forall (fun f => str_lower (path_suffix f) ∈ file_loaders
                           /\ (loader_output f = None
                               \/ loader_output f = Some []))
                 (filter (fun f => needs_processing (_load_metadata w) f = true)
                         (_scan_directory directory))) as Hall.
  { apply Forall_forall. intros f Hf. rewrite Forall_forall in Hsup.
    split; [apply Hsup, Hf|].
    apply list_elem_of_filter in Hf as [Hneed Hf]. apply Hnone; assumption. }
  clear Hnone Hsup.
  destruct (_scan_directory directory) as [|f0 files] eqn:Escan.
  { eexists. split; [reflexivity|]. simpl. split; reflexivity. }
  destruct (filter _ (f0 :: files)) as [|f1 rest] eqn:Eproc.
  { eexists. split; [reflexivity|]. simpl. split; reflexivity. }
  pose proof (load_loop_nothing now (f1 :: rest) ([], _load_metadata w, 0) Hall)
    as Hload.
  destruct (fold_left (load_step now) (f1 :: rest) ([], _load_metadata w, 0))
    as [[all stored'] n].
  simpl in Hload. injection Hload as -> ->.
  eexists. split; [reflexivity|]. split; reflexivity.
Qed.

End LoadRuns.

Lemma files_processed_counts_every_attempt_witness :
  exists w' res,
    index_directory Examples.accepting Examples.manual_sanitizer
      Examples.one_chunk_per_document 3 "2025-02-02T00:00:00+00:00"
      (Examples.fresh_world tt) Examples.hello_directory
    = (w', Some res)
    /\ files_processed res = 1.
Proof.
  pose proof hello_run_completed as Hc.
  destruct (index_directory Examples.accepting Examples.manual_sanitizer
              Examples.one_chunk_per_document 3 "2025-02-02T00:00:00+00:00"
              (Examples.fresh_world tt) Examples.hello_directory)
    as [w' [res|]] eqn:Erun; [|discriminate].
  exists w', res. split; [reflexivity|].
  exact (files_processed_counts_every_attempt Examples.accepting
           Examples.manual_sanitizer Examples.one_chunk_per_document 3
           "2025-02-02T00:00:00+00:00" (Examples.fresh_world tt) w'
           Examples.hello_directory res Erun).
Defined.

Lemma run_without_documents_changes_nothing_witness :
  exists res,
    index_directory Examples.accepting Examples.manual_sanitizer
      Examples.one_chunk_per_document 3 "2025-02-02T00:00:00+00:00"
      Examples.indexed_world [Examples.encrypted_pdf]
    = (Examples.indexed_world, Some res)
    /\ status res = error_status.
Proof.
  destruct (run_without_documents_changes_nothing Examples.accepting
              Examples.manual_sanitizer Examples.one_chunk_per_document 3
              "2025-02-02T00:00:00+00:00" Examples.indexed_world
              [Examples.encrypted_pdf])
    as (res & Hrun & _ & Hstatus).
  - intros f Hf _. unfold _scan_directory in Hf.
    apply list_elem_of_filter in Hf as [_ Hf].
    apply list_elem_of_singleton in Hf as ->. left. reflexivity.
  - exists res. split; [exact Hrun|exact Hstatus].
Defined.

(** ** Search: failures and the order of the hits *)

Section SearchProperties.

Variables FormattedMetadata Display : Type.
Variable fmt : list (string * MetaValue) -> Result FormattedMetadata.
Variable fd : Search.RawResult FormattedMetadata -> Result Display.
Variable round4 : Q -> Q.

Lemma format_hits_raises (i : Z) (hits : list (Document * Q))
    (doc : Document) (score : Q) (e : string) :
  (doc, score) ∈ hits ->
  fmt (metadata doc) = Raised e ->
  exists e', Search.format_hits FormattedMetadata fmt i hits = Raised e'.
Proof.
  intros Hin Hraise. revert i.
  induction hits as [|[d s] hits IH]; intros i; [inversion Hin|].
  simpl. destruct (fmt (metadata d)) as [fm|e0] eqn:Efmt; [|eauto].
  apply elem_of_cons in Hin as [Heq|Hin].
  - injection Heq as <- <-. congruence.
  - destruct (IH Hin (i + 1)) as [e' ->]. eauto.
Qed.

Lemma format_hits_returns (i : Z) (hits : list (Document * Q)) :
  (forall doc score, (doc, score) ∈ hits ->
     exists fm, fmt (metadata doc) = Returned fm) ->
  exists rs,
    Search.format_hits FormattedMetadata fmt i hits = Returned rs
    /\ length rs = length hits
    /\ forall (j : nat) doc score,
         hits !! j = Some (doc, score) ->
         exists r,
           rs !! j = Some r
           /\ Search.rank _ r = i + Z.of_nat j + 1
           /\ Search.similarity_score _ r = score
           /\ Search.raw_metadata _ r = metadata doc.
Proof.
  revert i. induction hits as [|[d s] hits IH]; intros i Hfmt.
  - exists []. split; [reflexivity|]. split; [reflexivity|].
    intros j doc score Hj. rewrite lookup_nil in Hj. discriminate.
  - simpl. destruct (Hfmt d s) as [fm ->]; [left|].
    destruct (IH (i + 1)) as (rs & -> & Hlen & Hrs).
    { intros doc score Hin. apply (Hfmt doc score). right. exact Hin. }
    eexists. split; [reflexivity|]. split; [simpl; congruence|].
    intros [|j] doc score Hj; simpl in Hj.
    + injection Hj as <- <-. eexists. split; [reflexivity|]. simpl.
      repeat split. lia.
    + destruct (Hrs j doc score Hj) as (r & Hr & Hrank & Hscore & Hmeta).
      exists r. split; [exact Hr|]. repeat split; try assumption. lia.
Qed.

Lemma format_results_returns (rs : list (Search.RawResult FormattedMetadata)) :
  (forall r, exists d, fd r = Returned d) ->
  exists frs,
    Search.format_results FormattedMetadata Display fd round4 rs = Returned frs
    /\ length frs = length rs
    /\ forall (j : nat) r,
         rs !! j = Some r ->
         exists fr,
           frs !! j = Some fr
           /\ Search.result_rank _ fr = Search.rank _ r
           /\ Search.rounded_score _ fr = round4 (Search.similarity_score _ r)
           /\ Search.relevance_level _ fr
              = Search._get_relevance_level (Search.similarity_score _ r)
           /\ Search.result_metadata _ fr = Search.raw_metadata _ r.
Proof.
  intros Hfd. induction rs as [|r0 rs IH].
  - exists []. split; [reflexivity|]. split; [reflexivity|].
    intros j r Hj. rewrite lookup_nil in Hj. discriminate.
  - simpl. destruct (Hfd r0) as [d ->].
    destruct IH as (frs & -> & Hlen & Hfrs).
    eexists. split; [reflexivity|]. split; [simpl; congruence|].
    intros [|j] r Hj; simpl in Hj.
    + injection Hj as <-. eexists. split; [reflexivity|]. simpl. auto.
    + exact (Hfrs j r Hj).
Qed.

(** A search that fails inside [search_documents] is reported as a
    search without hits.  When the index opens but the query raises, or a
    single hit has metadata that [_format_metadata_for_display] cannot
    format, [forward] returns the result of an empty search: no error, no
    result, and the message that nothing relevant was found. *)
Theorem failed_search_reads_as_no_hits (env : Search.SearchEnv)
    (query : string) (k : Z) :
  (Search.vectorstore_loaded env = true
   \/ (Search.db_path_exists env = true
       /\ Search.chroma_open_error env = None)) ->
  (exists e, Search.similarity_search_with_score env query k = Raised e)
  \/ (exists hits doc score e,
        Search.similarity_search_with_score env query k = Returned hits
        /\ (doc, score) ∈ hits
        /\ fmt (metadata doc) = Raised e) ->
  Search.forward FormattedMetadata fmt Display fd round4 env query k
  = {| Search.output :=
         Some {| Search.query_text := query;
                 Search.results := [];
                 Search.results_count := 0;
                 Search.output_message :=
                   Some "No relevant documents found in the indexed collection";
                 Search.error_details := None |};
       Search.error := None |}.
Proof.
  intros Hopen Hfail. unfold Search.forward, Search.search_documents.
  assert ((if Search.vectorstore_loaded env then Returned tt
           else if Search.db_path_exists env then
                  match Search.chroma_open_error env with
                  | Some e => Raised ("Could not load vector database: " +:+ e)
                  | None => Returned tt
                  end
                else Raised "No vector database found. Please index documents first.")
          = Returned tt) as ->.
  { destruct Hopen as [->|[-> ->]]; [reflexivity|].
    destruct (Search.vectorstore_loaded env); reflexivity. }
  destruct Hfail as [[e ->]|(hits & doc & score & e & -> & Hin & Hraise)].
  - reflexivity.
  - destruct (format_hits_raises 0 hits doc score e Hin Hraise) as [e' ->].
    reflexivity.
Qed.

(** When the query returns hits and no formatting step raises,
    [forward] reports them all, in the order of the index: the count is
    the number of hits, and the result at position [j] has rank [j + 1],
    the rounded score, the relevance band and the metadata of the hit at
    position [j]. *)
Theorem forward_reports_hits_in_order (env : Search.SearchEnv)
    (query : string) (k : Z) (hits : list (Document * Q)) :
  (Search.vectorstore_loaded env = true
   \/ (Search.db_path_exists env = true
       /\ Search.chroma_open_error env = None)) ->
  Search.similarity_search_with_score env query k = Returned hits ->
  hits <> [] ->
  (forall doc score, (doc, score) ∈ hits ->
     exists fm, fmt (metadata doc) = Returned fm) ->
  (forall r, exists d, fd r = Returned d) ->
  exists out,
    Search.forward FormattedMetadata fmt Display fd round4 env query k
    = {| Search.output := Some out; Search.error := None |}
    /\ Search.query_text _ out = query
    /\ Search.results_count _ out = Z.of_nat (length hits)
    /\ length (Search.results _ out) = length hits
    /\ forall (j : nat) doc score,
         hits !! j = Some (doc, score) ->
         exists fr,
           Search.results _ out !! j = Some fr
           /\ Search.result_rank _ fr = Z.of_nat j + 1
           /\ Search.rounded_score _ fr = round4 score
           /\ Search.relevance_level _ fr = Search._get_relevance_level score
           /\ Search.result_metadata _ fr = metadata doc.
Proof.
  intros Hopen Hsearch Hne Hfmt Hfd.
  unfold Search.forward, Search.search_documents.
  assert ((if Search.vectorstore_loaded env then Returned tt
           else if Search.db_path_exists env then
                  match Search.chroma_open_error env with
                  | Some e => Raised ("Could not load vector database: " +:+ e)
                  | None => Returned tt
                  end
                else Raised "No vector database found. Please index documents first.")
          = Returned tt) as ->.
  { destruct Hopen as [->|[-> ->]]; [reflexivity|].
    destruct (Search.vectorstore_loaded env); reflexivity. }
  rewrite Hsearch.
  destruct (format_hits_returns 0 hits Hfmt) as (rs & -> & Hlen & Hrs).
  destruct (format_results_returns rs Hfd) as (frs & Hfrs & Hlen' & Hfr).
  destruct rs as [|r0 rs'].
  { destruct hits; [congruence|discriminate]. }
  rewrite Hfrs. eexists. split; [reflexivity|]. simpl.
  split; [reflexivity|]. split; [simpl in Hlen; lia|].
  split; [simpl in Hlen, Hlen'; lia|].
  intros j doc score Hj.
  destruct (Hrs j doc score Hj) as (r & Hr & Hrank & Hscore & Hmeta).
  destruct (Hfr j r Hr) as (fr & Hfrj & H1 & H2 & H3 & H4).
  exists fr. split; [exact Hfrj|].
  rewrite H1, H2, H3, H4, Hrank, Hscore, Hmeta. repeat split; lia.
Qed.

End SearchProperties.

Lemma failed_search_reads_as_no_hits_witness :
  Search.error unit
    (Examples.plain_forward
       {| Search.vectorstore_loaded := true;
          Search.db_path_exists := true;
          Search.chroma_open_error := None;
          Search.similarity_search_with_score :=
            fun _ _ => Raised "Connection refused" |}
       "query" 5)
  = None.
Proof.
  unfold Examples.plain_forward.
  rewrite (failed_search_reads_as_no_hits unit unit
             (fun _ => Returned tt) (fun _ => Returned tt) (fun score => score)
             {| Search.vectorstore_loaded := true;
                Search.db_path_exists := true;
                Search.chroma_open_error := None;
                Search.similarity_search_with_score :=
                  fun _ _ => Raised "Connection refused" |}
             "query" 5).
  - reflexivity.
  - left. reflexivity.
  - left. exists "Connection refused". reflexivity.
Defined.

Lemma forward_reports_hits_in_order_witness :
  exists out,
    Examples.plain_forward
      {| Search.vectorstore_loaded := true;
         Search.db_path_exists := true;
         Search.chroma_open_error := None;
         Search.similarity_search_with_score :=
           fun _ _ => Returned [ (Examples.plain "alpha", 1 # 4);
                                 (Examples.plain "beta", 3 # 4) ] |}
      "query" 5
    = {| Search.output := Some out; Search.error := None |}
    /\ Search.results_count unit out = 2.
Proof.
  destruct (forward_reports_hits_in_order unit unit
              (fun _ => Returned tt) (fun _ => Returned tt) (fun score => score)
              {| Search.vectorstore_loaded := true;
                 Search.db_path_exists := true;
                 Search.chroma_open_error := None;
                 Search.similarity_search_with_score :=
                   fun _ _ => Returned [ (Examples.plain "alpha", 1 # 4);
                                         (Examples.plain "beta", 3 # 4) ] |}
              "query" 5
              [ (Examples.plain "alpha", 1 # 4); (Examples.plain "beta", 3 # 4) ])
    as (out & Hrun & _ & Hcount & _).
  - left. reflexivity.
  - reflexivity.
  - discriminate.
  - intros doc score _. exists tt. reflexivity.
  - intros r. exists tt. reflexivity.
  - exists out. split; [exact Hrun|exact Hcount].
Defined.

(** ** Runs over a directory that was indexed before *)

Section Reruns.

Context {Svc : Type}.
Variable call : Svc -> IndexOp -> list Document -> Svc * option string.
Variable sanitize split_documents : list Document -> list Document.

Hypothesis sanitize_contents : forall b, contents (sanitize b) = contents b.

Lemma load_loop_documents (now : string) (files : list FileEntry)
    (st : list Document * gmap string DocumentMetadata * Z) :
  fst (fst (fold_left (load_step now) files st))
  = fst (fst st) ++ concat (map (documents_of now) files).
Proof.
  revert st. induction files as [|f files IH]; intros st; simpl.
  - rewrite app_nil_r. reflexivity.
  - rewrite IH. destruct st as [[all stored] n].
    unfold load_step, documents_of.
    destruct (_load_single_document now f) as [[|d ds]|e]; simpl;
      rewrite ?app_nil_r, <- ?app_assoc; reflexivity.
Qed.

Lemma load_loop_unhashed (now : string) (files : list FileEntry)
    (st : list Document * gmap string DocumentMetadata * Z) :
  records_unhashed (snd (fst st)) ->
  records_unhashed (snd (fst (fold_left (load_step now) files st))).
Proof.
  revert st. induction files as [|f files IH]; intros st Hst; simpl;
    [exact Hst|].
  apply IH. destruct st as [[all stored] n]. unfold load_step.
  destruct (_load_single_document now f) as [[|d ds]|e]; simpl;
    try exact Hst.
  apply map_Forall_insert_2; [reflexivity|exact Hst].
Qed.

Lemma unhashed_needs_processing (stored : gmap string DocumentMetadata)
    (f : FileEntry) :
  records_unhashed stored -> hashable f -> needs_processing stored f = true.
Proof.
  intros Hst (digest & Hd & Hne). unfold needs_processing, _get_file_hash.
  destruct (stored !! path_str f) as [record|] eqn:Hrec; [|reflexivity].
  rewrite (Hst _ _ Hrec), Hd. simpl.
  rewrite bool_decide_eq_false_2; [reflexivity|congruence].
Qed.

Lemma filter_all {A : Type} (P : A -> Prop) `{forall x, Decision (P x)}
    (l : list A) :
  Forall P l -> filter P l = l.
Proof.
  induction 1 as [|x l Hx _ IH]; [reflexivity|].
  rewrite filter_cons_True by exact Hx. rewrite IH. reflexivity.
Qed.

Lemma rerun_loads_everything (now : string) (w : @World Svc)
    (directory : list FileEntry) :
  records_unhashed (_load_metadata w) ->
  Forall hashable (_scan_directory directory) ->
  filter (fun f => needs_processing (_load_metadata w) f = true)
         (_scan_directory directory)
  = _scan_directory directory
  /\ loaded_documents now w directory = all_documents now directory.
Proof.
  intros Hst Hall.
  assert (filter (fun f => needs_processing (_load_metadata w) f = true)
                 (_scan_directory directory)
          = _scan_directory directory) as Hfilter.
  { apply filter_all. eapply Forall_impl; [exact Hall|].
    intros f Hf. apply unhashed_needs_processing; assumption. }
  split; [exact Hfilter|].
  unfold loaded_documents, all_documents.
  rewrite Hfilter, load_loop_documents. reflexivity.
Qed.

Lemma index_directory_unhashed (depth : nat) (now : string) (w : @World Svc)
    (directory : list FileEntry) :
  records_unhashed (_load_metadata w) ->
  records_unhashed
    (_load_metadata
       (fst (index_directory call sanitize split_documents depth now w
               directory))).
Proof.
  intros Hst. unfold index_directory.
  destruct (_scan_directory directory) as [|f0 files]; [exact Hst|].
  destruct (filter _ (f0 :: files)) as [|f1 rest]; [exact Hst|].
  pose proof (load_loop_unhashed now (f1 :: rest) ([], _load_metadata w, 0) Hst)
    as Hloop.
  destruct (fold_left (load_step now) (f1 :: rest) ([], _load_metadata w, 0))
    as [[all stored] n].
  simpl in Hloop.
  destruct all as [|doc all]; [exact Hst|].
  pose proof (process_chunks_commit call sanitize sanitize_contents depth w
                (split_documents (doc :: all)))
    as (added & _ & _ & _ & Hj).
  destruct (_process_chunks_in_batches call sanitize depth w
              (split_documents (doc :: all))) as [w1 [[br|e]|]];
    simpl in Hj.
  - destruct (negb (success br)); [|exact Hloop].
    destruct (bool_decide (default 0 (chunks_processed br) > 0)); simpl;
      [exact Hloop|].
    unfold _load_metadata. rewrite Hj. exact Hst.
  - exact Hloop.
  - simpl. unfold _load_metadata. rewrite Hj. exact Hst.
Qed.

Lemma rerun_stores_everything (depth : nat) (now : string)
    (w w' : @World Svc) (directory : list FileEntry) (res : IndexResult) :
  records_unhashed (_load_metadata w) ->
  Forall hashable (_scan_directory directory) ->
  _scan_directory directory <> [] ->
  index_directory call sanitize split_documents depth now w directory
  = (w', Some res) ->
  status res = completed ->
  exists added,
    stored_chunks w' = stored_chunks w ++ added
    /\ contents added
       = contents (split_documents (all_documents now directory))
    /\ documents_indexed res
       = py_len (split_documents (all_documents now directory)).
Proof.
  intros Hst Hall Hne Hrun Hdone.
  destruct (rerun_loads_everything now w directory Hst Hall)
    as [Hfilter Hloaded].
  pose proof (index_directory_files_processed call sanitize split_documents
                depth now w w' directory res Hrun) as Hcount.
  rewrite Hfilter in Hcount.
  assert (0 < files_processed res) as Hpos.
  { rewrite Hcount. unfold py_len.
    destruct (_scan_directory directory); [congruence|simpl; lia]. }
  destruct (index_directory_completed call sanitize split_documents
              sanitize_contents depth now w w' directory res Hrun Hdone Hpos)
    as (added & Ha & Hc & Hn).
  exists added. rewrite <- Hloaded. auto.
Qed.

(** Every record [index_directory] leaves in the metadata file has an
    empty [file_hash]: when the records it finds have none, so have the
    records it leaves, whatever the outcome of the run. *)
Theorem stored_records_never_carry_a_hash (depth : nat) (now : string)
    (w : @World Svc) (directory : list FileEntry) :
  records_unhashed (_load_metadata w) ->
  records_unhashed
    (_load_metadata
       (fst (index_directory call sanitize split_documents depth now w
               directory))).
Proof. apply index_directory_unhashed. Qed.

(** A completed run indexes every supported file again, however often
    the directory was indexed before.  When the stored records have no
    hash (as all records written by [index_directory] do) and the files
    can be hashed, a run that reports [completed] appends the chunks of
    all supported files to the index, next to the chunks stored for them
    by earlier runs. *)
Theorem every_run_indexes_all_files_again (depth : nat) (now : string)
    (w w' : @World Svc) (directory : list FileEntry) (res : IndexResult) :
  records_unhashed (_load_metadata w) ->
  Forall hashable (_scan_directory directory) ->
  _scan_directory directory <> [] ->
  index_directory call sanitize split_documents depth now w directory
  = (w', Some res) ->
  status res = completed ->
  exists added,
    stored_chunks w' = stored_chunks w ++ added
    /\ contents added
       = contents (split_documents (all_documents now directory))
    /\ documents_indexed res
       = py_len (split_documents (all_documents now directory)).
Proof. apply rerun_stores_everything. Qed.

(** A forced re-index replaces the index.  With a manager that has not
    opened the index yet, [forward] called with [force_reindex] on a
    directory with supported files, when it reports [completed], leaves
    an index that holds the chunks of the supported files and nothing
    else.  A path that is missing or is not a directory gives an error
    and leaves the index as it is, also with [force_reindex]. *)
Theorem forced_reindex_replaces_index (depth : nat) (now : string)
    (w w' : @World Svc) (directory_path : string) (files : list FileEntry)
    (force_reindex : bool) (res : IndexResult) :
  (vectorstore_set w = false ->
   _scan_directory files <> [] ->
   VectorIndexerTool.forward call sanitize split_documents depth now w
     directory_path (VectorIndexerTool.path_directory files) true
   = (w', Some {| VectorIndexerTool.output := Some res;
                  VectorIndexerTool.error := None |}) ->
   status res = completed ->
   contents (stored_chunks w')
   = contents (split_documents (all_documents now files)))
  /\ fst (VectorIndexerTool.forward call sanitize split_documents depth now w
            directory_path VectorIndexerTool.path_missing force_reindex) = w
  /\ fst (VectorIndexerTool.forward call sanitize split_documents depth now w
            directory_path VectorIndexerTool.path_not_directory force_reindex)
     = w.
Proof.
  split; [|split; reflexivity].
  intros _ Hne Hrun Hdone. unfold VectorIndexerTool.forward in Hrun.
  simpl andb in Hrun.
  set (w1 := if vectorstore_exists w
             then VectorIndexerTool.rmtree_db_path w else w) in Hrun.
  assert (stored_chunks w1 = [] /\ _load_metadata w1 = ∅) as [Hchunks Hmeta].
  { unfold w1, vectorstore_exists, stored_chunks, _load_metadata.
    destruct (chroma_store w) eqn:Ec, (metadata_json w) eqn:Em; simpl;
      rewrite ?Ec, ?Em; auto. }
  destruct (index_directory call sanitize split_documents depth now w1 files)
    as [w2 [res'|]] eqn:Erun; [|discriminate].
  injection Hrun as <- <-.
  assert (filter (fun f => needs_processing (_load_metadata w1) f = true)
                 (_scan_directory files) = _scan_directory files) as Hfilter.
  { apply filter_all. apply Forall_forall. intros f _.
    unfold needs_processing. rewrite Hmeta, lookup_empty. reflexivity. }
  pose proof (index_directory_files_processed call sanitize split_documents
                depth now w1 w2 files res' Erun) as Hcount.
  rewrite Hfilter in Hcount.
  assert (0 < files_processed res') as Hpos.
  { rewrite Hcount. unfold py_len.
    destruct (_scan_directory files); [congruence|simpl; lia]. }
  destruct (index_directory_completed call sanitize split_documents
              sanitize_contents depth now w1 w2 files res' Erun Hdone Hpos)
    as (added & Ha & Hc & _).
  rewrite Ha, Hchunks. simpl. rewrite Hc.
  unfold loaded_documents, all_documents.
  rewrite Hfilter, load_loop_documents. reflexivity.
Qed.

End Reruns.

Lemma stored_records_never_carry_a_hash_witness :
  records_unhashed
    (_load_metadata
       (fst (index_directory Examples.accepting Examples.manual_sanitizer
               Examples.one_chunk_per_document 3 "2025-02-02T00:00:00+00:00"
               (Examples.fresh_world tt) Examples.hello_directory))).
Proof.
  apply (stored_records_never_carry_a_hash Examples.accepting
           Examples.manual_sanitizer Examples.one_chunk_per_document
           manual_sanitizer_contents 3 "2025-02-02T00:00:00+00:00"
           (Examples.fresh_world tt) Examples.hello_directory).
  intros p record Hp. vm_compute in Hp. discriminate.
Defined.

Lemma hello_second_run_completed :
  option_map status
    (snd (index_directory Examples.accepting Examples.manual_sanitizer
            Examples.one_chunk_per_document 3 "2025-03-03T00:00:00+00:00"
            (fst (index_directory Examples.accepting Examples.manual_sanitizer
                    Examples.one_chunk_per_document 3
                    "2025-02-02T00:00:00+00:00"
                    (Examples.fresh_world tt) Examples.hello_directory))
            Examples.hello_directory))
  = Some completed.
Proof. vm_compute. reflexivity. Qed.

Lemma every_run_indexes_all_files_again_witness :
  exists added,
    stored_chunks
      (fst (index_directory Examples.accepting Examples.manual_sanitizer
              Examples.one_chunk_per_document 3 "2025-03-03T00:00:00+00:00"
              (fst (index_directory Examples.accepting
                      Examples.manual_sanitizer
                      Examples.one_chunk_per_document 3
                      "2025-02-02T00:00:00+00:00"
                      (Examples.fresh_world tt) Examples.hello_directory))
              Examples.hello_directory))
    = stored_chunks
        (fst (index_directory Examples.accepting Examples.manual_sanitizer
                Examples.one_chunk_per_document 3 "2025-02-02T00:00:00+00:00"
                (Examples.fresh_world tt) Examples.hello_directory))
      ++ added
    /\ contents added = ["hello"].
Proof.
  pose proof hello_second_run_completed as Hc.
  destruct (index_directory Examples.accepting Examples.manual_sanitizer
              Examples.one_chunk_per_document 3 "2025-03-03T00:00:00+00:00"
              (fst (index_directory Examples.accepting
                      Examples.manual_sanitizer
                      Examples.one_chunk_per_document 3
                      "2025-02-02T00:00:00+00:00"
                      (Examples.fresh_world tt) Examples.hello_directory))
              Examples.hello_directory)
    as [w' [res|]] eqn:Erun; [|discriminate].
  simpl in Hc. injection Hc as Hc.
  destruct (every_run_indexes_all_files_again Examples.accepting
              Examples.manual_sanitizer Examples.one_chunk_per_document
              manual_sanitizer_contents 3 "2025-03-03T00:00:00+00:00"
              (fst (index_directory Examples.accepting
                      Examples.manual_sanitizer
                      Examples.one_chunk_per_document 3
                      "2025-02-02T00:00:00+00:00"
                      (Examples.fresh_world tt) Examples.hello_directory))
              w' Examples.hello_directory res)
    as (added & Ha & Hcontents & _).
  - apply index_directory_unhashed; [apply manual_sanitizer_contents|].
    intros p record Hp. vm_compute in Hp. discriminate.
  - repeat constructor.
    exists "5d41402abc4b2a76b9719d911017c592". split; [reflexivity|discriminate].
  - discriminate.
  - exact Erun.
  - exact Hc.
  - exists added. split; [exact Ha|exact Hcontents].
Defined.

Lemma forced_run_completed :
  option_map (fun r => (option_map status (VectorIndexerTool.output r),
                        VectorIndexerTool.error r))
    (snd (VectorIndexerTool.forward Examples.accepting
            Examples.manual_sanitizer Examples.one_chunk_per_document 3
            "2025-03-03T00:00:00+00:00"
            {| service := tt;
               chroma_store := Some [Examples.plain "stale"];
               vectorstore_set := false;
               metadata_json := None;
               submitted := [];
               slept := [] |}
            "docs" (VectorIndexerTool.path_directory Examples.hello_directory)
            true))
  = Some (Some completed, None).
Proof. vm_compute. reflexivity. Qed.

Lemma forced_reindex_replaces_index_witness :
  contents
    (stored_chunks
       (fst (VectorIndexerTool.forward Examples.accepting
               Examples.manual_sanitizer Examples.one_chunk_per_document 3
               "2025-03-03T00:00:00+00:00"
               {| service := tt;
                  chroma_store := Some [Examples.plain "stale"];
                  vectorstore_set := false;
                  metadata_json := None;
                  submitted := [];
                  slept := [] |}
               "docs"
               (VectorIndexerTool.path_directory Examples.hello_directory)
               true)))
  = ["hello"].
Proof.
  pose proof forced_run_completed as Hc.
  destruct (VectorIndexerTool.forward Examples.accepting
              Examples.manual_sanitizer Examples.one_chunk_per_document 3
              "2025-03-03T00:00:00+00:00"
              {| service := tt;
                 chroma_store := Some [Examples.plain "stale"];
                 vectorstore_set := false;
                 metadata_json := None;
                 submitted := [];
                 slept := [] |}
              "docs" (VectorIndexerTool.path_directory Examples.hello_directory)
              true)
    as [w' [[[res|] [err|]]|]] eqn:Erun; try discriminate Hc.
  simpl in Hc. injection Hc as Hc.
  apply (proj1 (forced_reindex_replaces_index Examples.accepting
                  Examples.manual_sanitizer Examples.one_chunk_per_document
                  manual_sanitizer_contents 3 "2025-03-03T00:00:00+00:00"
                  {| service := tt;
                     chroma_store := Some [Examples.plain "stale"];
                     vectorstore_set := false;
                     metadata_json := None;
                     submitted := [];
                     slept := [] |}
                  w' "docs" Examples.hello_directory true res)).
  - reflexivity.
  - vm_compute. discriminate.
  - exact Erun.
  - exact Hc.
Defined.

(** ** The function-call interface *)

Lemma get_Some_elem {A : Type} (k : string) (d : list (string * A)) (v : A) :
  FunctionCalls.get k d = Some v -> (k, v) ∈ d.
Proof.
  induction d as [|[k' v'] d IH]; simpl; [discriminate|].
  destruct (decide (k = k')) as [->|_].
  - intros [= ->]. left.
  - intros Hd. right. apply IH, Hd.
Qed.

Lemma schema_types (function_name p : string)
    (func_def : FunctionCalls.FunctionDefinition) (prop : FunctionCalls.Property) :
  FunctionCalls.get function_name FunctionCalls.function_definitions
  = Some func_def ->
  FunctionCalls.get p (FunctionCalls.properties func_def) = Some prop ->
  FunctionCalls.ptype prop
  ∈ ["string"; "integer"; "number"; "boolean"; "array"].
Proof.
  intros Hdef Hprop.
  apply get_Some_elem in Hdef. apply get_Some_elem in Hprop.
  assert (forallb
            (fun fd =>
               forallb
                 (fun pp =>
                    bool_decide
                      (FunctionCalls.ptype (snd pp)
                       ∈ ["string"; "integer"; "number"; "boolean"; "array"]))
                 (FunctionCalls.properties (snd fd)))
            FunctionCalls.function_definitions = true) as Hall.
  { vm_compute. reflexivity. }
  rewrite forallb_forall in Hall.
  apply list_elem_of_In in Hdef. specialize (Hall _ Hdef). simpl in Hall.
  rewrite forallb_forall in Hall.
  apply list_elem_of_In in Hprop. specialize (Hall _ Hprop). simpl in Hall.
  apply bool_decide_eq_true in Hall. exact Hall.
Qed.

Lemma type_error_None (p expected_type : string) :
  expected_type ∈ ["string"; "integer"; "number"; "boolean"; "array"] ->
  is_Some (FunctionCalls.type_error p expected_type FunctionCalls.PNone).
Proof.
  intros Hty.
  repeat (apply elem_of_cons in Hty as [->|Hty]; [vm_compute; eauto|]).
  inversion Hty.
Qed.

Lemma check_types_rejects (param_props : list (string * FunctionCalls.Property))
    (items : list (string * FunctionCalls.ParamValue))
    (p : string) (prop : FunctionCalls.Property) (v : FunctionCalls.ParamValue) :
  FunctionCalls.get p param_props = Some prop ->
  is_Some (FunctionCalls.type_error p (FunctionCalls.ptype prop) v) ->
  FunctionCalls.get p items = Some v ->
  is_Some (FunctionCalls.check_types param_props items).
Proof.
  intros Hprop Herr. induction items as [|[k v0] items IH]; simpl;
    [discriminate|].
  destruct (decide (p = k)) as [<-|Hne].
  - intros [= ->]. rewrite Hprop. destruct Herr as [e ->]. eauto.
  - intros Hget. specialize (IH Hget).
    destruct (FunctionCalls.get k param_props) as [prop'|]; [|exact IH].
    destruct (FunctionCalls.type_error k (FunctionCalls.ptype prop') v0);
      [eauto|exact IH].
Qed.

(** [_validate_parameters] never accepts [None] as the value of a
    parameter the function definition describes, although the
    definitions mark most parameters as nullable: a call that passes
    [None] for a described parameter is answered with an error
    message. *)
Theorem none_is_rejected_for_described_parameters
    (function_name p : string)
    (func_def : FunctionCalls.FunctionDefinition) (prop : FunctionCalls.Property)
    (parameters : list (string * FunctionCalls.ParamValue)) :
  FunctionCalls.get function_name FunctionCalls.function_definitions
  = Some func_def ->
  FunctionCalls.get p (FunctionCalls.properties func_def) = Some prop ->
  FunctionCalls.get p parameters = Some FunctionCalls.PNone ->
  is_Some (FunctionCalls._validate_parameters function_name parameters).
Proof.
  intros Hdef Hprop Hnone. unfold FunctionCalls._validate_parameters.
  rewrite Hdef.
  destruct (FunctionCalls.check_required function_name
              (FunctionCalls.required func_def) parameters); [eauto|].
  apply (check_types_rejects _ _ p prop FunctionCalls.PNone);
    [exact Hprop| |exact Hnone].
  apply type_error_None. exact (schema_types _ _ _ _ Hdef Hprop).
Qed.

Lemma none_is_rejected_for_described_parameters_witness :
  FunctionCalls._validate_parameters "search_documents"
    [ ("query", FunctionCalls.PStr "solar panels");
      ("max_results", FunctionCalls.PNone) ]
  = Some "Parameter 'max_results' must be an integer, got NoneType".
Proof.
  destruct (none_is_rejected_for_described_parameters "search_documents"
              "max_results"
              {| FunctionCalls.properties :=
                   [ ("query", FunctionCalls.mkProperty "string" false);
                     ("max_results", FunctionCalls.mkProperty "integer" true);
                     ("min_similarity", FunctionCalls.mkProperty "number" true) ];
                 FunctionCalls.required := ["query"] |}
              (FunctionCalls.mkProperty "integer" true)
              [ ("query", FunctionCalls.PStr "solar panels");
                ("max_results", FunctionCalls.PNone) ])
    as [e He]; [reflexivity|reflexivity|reflexivity|].
  reflexivity.
Defined.

Section HandlerProperties.

Variable FormattedMetadata : Type.
Variable fmt : list (string * MetaValue) -> Result FormattedMetadata.

Lemma checked_max_results_range
    (parameters : list (string * FunctionCalls.ParamValue)) :
  1 <= FunctionCalls.checked_max_results parameters <= 50.
Proof.
  unfold FunctionCalls.checked_max_results.
  destruct (FunctionCalls.get "max_results" parameters) as [[s|n|x|[|]| | |t]|];
    try lia.
  destruct (bool_decide (n < 1)) eqn:E1; simpl; [lia|].
  destruct (bool_decide (n > 50)) eqn:E2; simpl; [lia|].
  apply bool_decide_eq_false in E1. apply bool_decide_eq_false in E2. lia.
Qed.

Lemma checked_min_similarity_cases
    (parameters : list (string * FunctionCalls.ParamValue)) :
  (exists x,
      FunctionCalls.checked_min_similarity parameters = FunctionCalls.Finite x
      /\ (0 <= x <= 1)%Q)
  \/ (FunctionCalls.checked_min_similarity parameters = FunctionCalls.NaN
      /\ FunctionCalls.get "min_similarity" parameters
         = Some (FunctionCalls.PFloat FunctionCalls.NaN)).
Proof.
  assert (forall x,
            exists y,
              (if FunctionCalls.float_lt (FunctionCalls.Finite x)
                    (FunctionCalls.Finite 0)
                  || FunctionCalls.float_lt (FunctionCalls.Finite 1)
                       (FunctionCalls.Finite x)
               then FunctionCalls.Finite 0 else FunctionCalls.Finite x)
              = FunctionCalls.Finite y /\ (0 <= y <= 1)%Q) as Hcheck.
  { intros x. simpl.
    destruct (Qle_bool 0 x) eqn:E0; simpl.
    - destruct (Qle_bool x 1) eqn:E1; simpl.
      + exists x. split; [reflexivity|].
        split; apply Qle_bool_iff; assumption.
      + exists 0%Q. split; [reflexivity|]. split; discriminate.
    - exists 0%Q. split; [reflexivity|]. split; discriminate. }
  unfold FunctionCalls.checked_min_similarity.
  destruct (FunctionCalls.get "min_similarity" parameters)
    as [[s|n|[x| | |]|b| | |t]|].
  - left. exists 0%Q. split; [reflexivity|]. split; discriminate.
  - left. apply Hcheck.
  - left. apply Hcheck.
  - left. exists 0%Q. split; [reflexivity|]. split; discriminate.
  - left. exists 0%Q. split; [reflexivity|]. split; discriminate.
  - right. split; reflexivity.
  - left. apply Hcheck.
  - left. exists 0%Q. split; [reflexivity|]. split; discriminate.
  - left. exists 0%Q. split; [reflexivity|]. split; discriminate.
  - left. exists 0%Q. split; [reflexivity|]. split; discriminate.
  - left. exists 0%Q. split; [reflexivity|]. split; discriminate.
Qed.

Lemma search_handler_reply (env : Search.SearchEnv)
    (parameters : list (string * FunctionCalls.ParamValue))
    (query : string) (k : Z) (m : FunctionCalls.PyFloat)
    (results : list (Search.RawResult FormattedMetadata)) (total : Z) :
  FunctionCalls._search_documents FormattedMetadata fmt env parameters
  = FunctionCalls.search_succeeded query k m results total ->
  FunctionCalls.get "query" parameters = Some (FunctionCalls.PStr query)
  /\ query <> ""
  /\ k = FunctionCalls.checked_max_results parameters
  /\ m = FunctionCalls.checked_min_similarity parameters
  /\ total = Z.of_nat (length results)
  /\ exists found,
       Search.search_documents FormattedMetadata fmt env query k
       = Returned found
       /\ results
          = filter (fun r =>
                      FunctionCalls.float_le m
                        (FunctionCalls.Finite (Search.similarity_score _ r))
                      = true)
                   found.
Proof.
  unfold FunctionCalls._search_documents.
  destruct (FunctionCalls.get "query" parameters) as [[q|n|x|b| | |t]|];
    try discriminate.
  destruct (bool_decide (q = "")) eqn:Eq; [discriminate|].
  apply bool_decide_eq_false in Eq.
  destruct (Search.search_documents FormattedMetadata fmt env q
              (FunctionCalls.checked_max_results parameters))
    as [found|e] eqn:Esearch; [|discriminate].
  intros [= <- <- <- <- <-].
  repeat split; try assumption. eauto.
Qed.

Lemma filter_nothing {A : Type} (P : A -> Prop) `{forall x, Decision (P x)}
    (l : list A) :
  (forall x, ~ P x) -> filter P l = [].
Proof.
  intros Hno. induction l as [|x l IH]; [reflexivity|].
  rewrite filter_cons_False by apply Hno. exact IH.
Qed.

(** A successful reply of the handler [_search_documents] was computed
    from checked parameters, whatever the caller passed: the query is a
    non-empty string, the number of hits asked from the index lies
    between 1 and 50, every result is one of the hits [search_documents]
    returned, and [total_results] is the number of results.  The
    threshold is a number between 0 and 1, and every result has a score
    at or above it; or the caller passed the float that is not a number,
    which the range test lets through, and then the threshold is that
    float and the reply holds no result at all. *)
Theorem search_handler_checks_its_parameters (env : Search.SearchEnv)
    (parameters : list (string * FunctionCalls.ParamValue))
    (query : string) (k : Z) (m : FunctionCalls.PyFloat)
    (results : list (Search.RawResult FormattedMetadata)) (total : Z) :
  FunctionCalls._search_documents FormattedMetadata fmt env parameters
  = FunctionCalls.search_succeeded query k m results total ->
  FunctionCalls.get "query" parameters = Some (FunctionCalls.PStr query)
  /\ query <> ""
  /\ 1 <= k <= 50
  /\ ((exists x,
         m = FunctionCalls.Finite x
         /\ (0 <= x <= 1)%Q
         /\ Forall (fun r => (x <= Search.similarity_score _ r)%Q) results)
      \/ (m = FunctionCalls.NaN
          /\ FunctionCalls.get "min_similarity" parameters
             = Some (FunctionCalls.PFloat FunctionCalls.NaN)
          /\ results = []))
  /\ total = Z.of_nat (length results)
  /\ exists found,
       Search.search_documents FormattedMetadata fmt env query k
       = Returned found
       /\ results ⊆ found.
Proof.
  intros Hreply.
  destruct (search_handler_reply env parameters query k m results total Hreply)
    as (Hq & Hne & -> & -> & Htotal & found & Hfound & ->).
  split; [exact Hq|]. split; [exact Hne|].
  split; [apply checked_max_results_range|].
  split; [|split; [exact Htotal|]].
  - destruct (checked_min_similarity_cases parameters)
      as [(x & -> & Hx)|[-> Hnan]].
    + left. exists x. split; [reflexivity|]. split; [exact Hx|].
      apply Forall_forall. intros r Hr.
      apply list_elem_of_filter in Hr as [Hr _]. simpl in Hr.
      apply Qle_bool_iff, Hr.
    + right. split; [reflexivity|]. split; [exact Hnan|].
      apply filter_nothing. intros r. simpl. discriminate.
  - exists found. split; [exact Hfound|].
    intros r Hr. apply list_elem_of_filter in Hr as [_ Hr]. exact Hr.
Qed.

(** The threshold [min_similarity] keeps the hits whose score is at or
    above it, and [_get_relevance_level] calls the hits with the lowest
    scores the most relevant: with a threshold above 0.3, no result of a
    successful reply is in the band [Very High]. *)
Theorem min_similarity_drops_the_closest_hits (env : Search.SearchEnv)
    (parameters : list (string * FunctionCalls.ParamValue))
    (query : string) (k : Z) (m : FunctionCalls.PyFloat)
    (results : list (Search.RawResult FormattedMetadata)) (total : Z) :
  FunctionCalls._search_documents FormattedMetadata fmt env parameters
  = FunctionCalls.search_succeeded query k m results total ->
  FunctionCalls.float_lt (FunctionCalls.Finite (3 # 10)) m = true ->
  Forall (fun r =>
            Search._get_relevance_level (Search.similarity_score _ r)
            <> "Very High")
         results.
Proof.
  intros Hreply Hm.
  destruct (search_handler_reply env parameters query k m results total Hreply)
    as (_ & _ & _ & Hchecked & _ & found & _ & ->).
  apply Forall_forall. intros r Hr.
  apply list_elem_of_filter in Hr as [Hr _].
  destruct (checked_min_similarity_cases parameters)
    as [(x & Hx & _)|[Hnan _]].
  2:{ rewrite Hnan in Hchecked. subst m. discriminate Hm. }
  rewrite Hx in Hchecked. subst m.
  simpl in Hr, Hm. apply Qle_bool_iff in Hr.
  apply negb_true_iff, Qle_bool_false in Hm.
  unfold Search._get_relevance_level.
  assert (Qle_bool (Search.similarity_score _ r) (Search.float_value 0.3)
          = false) as ->.
  { apply Qle_bool_false.
    eapply Qle_lt_trans; [exact threshold_0_3_le|].
    eapply Qlt_le_trans; eassumption. }
  destruct (Qle_bool _ (Search.float_value 0.5)); [discriminate|].
  destruct (Qle_bool _ (Search.float_value 0.7)); [discriminate|].
  destruct (Qle_bool _ (Search.float_value 0.9)); discriminate.
Qed.

(** Without an index the handler answers a well-formed query with a
    failure that carries the message of [search_documents]. *)
Theorem search_handler_reports_missing_index (env : Search.SearchEnv)
    (parameters : list (string * FunctionCalls.ParamValue)) (query : string) :
  FunctionCalls.get "query" parameters = Some (FunctionCalls.PStr query) ->
  query <> "" ->
  Search.vectorstore_loaded env = false ->
  Search.db_path_exists env = false ->
  FunctionCalls._search_documents FormattedMetadata fmt env parameters
  = FunctionCalls.search_failed
      "Database search failed: No vector database found. Please index documents first.".
Proof.
  intros Hq Hne Hl He. unfold FunctionCalls._search_documents.
  rewrite Hq. rewrite bool_decide_eq_false_2 by exact Hne.
  unfold Search.search_documents. rewrite Hl, He. reflexivity.
Qed.

End HandlerProperties.

Lemma half_threshold_reply :
  FunctionCalls._search_documents unit (fun _ => Returned tt)
    HandlerExamples.two_hit_env HandlerExamples.half_threshold_call
  = FunctionCalls.search_succeeded "greek letters" 5
      (FunctionCalls.Finite (1 # 2)) [HandlerExamples.beta_result] 1.
Proof. vm_compute. reflexivity. Qed.

(** A threshold that is not a number is reported as it is, and no hit
    passes it. *)
Lemma nan_threshold_reply :
  FunctionCalls._search_documents unit (fun _ => Returned tt)
    HandlerExamples.two_hit_env HandlerExamples.nan_threshold_call
  = FunctionCalls.search_succeeded "greek letters" 5 FunctionCalls.NaN [] 0.
Proof. vm_compute. reflexivity. Qed.

Lemma search_handler_checks_its_parameters_witness :
  1 <= 5 <= 50
  /\ ((exists x,
         FunctionCalls.Finite (1 # 2) = FunctionCalls.Finite x
         /\ (0 <= x <= 1)%Q
         /\ Forall (fun r => (x <= Search.similarity_score unit r)%Q)
                   [HandlerExamples.beta_result])
      \/ (FunctionCalls.Finite (1 # 2) = FunctionCalls.NaN
          /\ FunctionCalls.get "min_similarity"
               HandlerExamples.half_threshold_call
             = Some (FunctionCalls.PFloat FunctionCalls.NaN)
          /\ [HandlerExamples.beta_result] = [])).
Proof.
  destruct (search_handler_checks_its_parameters unit (fun _ => Returned tt)
              HandlerExamples.two_hit_env HandlerExamples.half_threshold_call
              "greek letters" 5 (FunctionCalls.Finite (1 # 2))
              [HandlerExamples.beta_result] 1)
    as (_ & _ & Hk & Hm & _).
  - vm_compute. reflexivity.
  - split; [exact Hk|exact Hm].
Defined.

Lemma min_similarity_drops_the_closest_hits_witness :
  Forall (fun r =>
            Search._get_relevance_level (Search.similarity_score unit r)
            <> "Very High")
         [HandlerExamples.beta_result].
Proof.
  apply (min_similarity_drops_the_closest_hits unit (fun _ => Returned tt)
           HandlerExamples.two_hit_env HandlerExamples.half_threshold_call
           "greek letters" 5 (FunctionCalls.Finite (1 # 2))
           [HandlerExamples.beta_result] 1).
  - vm_compute. reflexivity.
  - reflexivity.
Defined.

Lemma search_handler_reports_missing_index_witness :
  FunctionCalls._search_documents unit (fun _ => Returned tt)
    Examples.no_index_env HandlerExamples.half_threshold_call
  = FunctionCalls.search_failed
      "Database search failed: No vector database found. Please index documents first.".
Proof.
  apply (search_handler_reports_missing_index unit (fun _ => Returned tt)
           Examples.no_index_env HandlerExamples.half_threshold_call
           "greek letters").
  - reflexivity.
  - discriminate.
  - reflexivity.
  - reflexivity.
Defined.
